(** * Kai Keeper: the planting tracker's domain logic

    A shallow embedding of the logic of [KaiKeeperApp] (src/src/storage.js):
    the three collections kept in React state, the handlers that update
    them, the phase estimator [phaseFor], the two report aggregators
    [monthlyTotals] and [totalsByPlantType], and the JSON backup
    ([exportJSON], [importJSON]); and, of what the tabs show, the values
    that are computed: the progress bars, the rows of the harvest ledger,
    the headings of the tracker cards and the series of the reports.

    Conventions of the embedding.
    - A JavaScript [number] is a finite value, [Infinity], [-Infinity] or
      [NaN].  Finite values are exact rationals: rounding of doubles and the
      sign of zero are not modelled; zero stands for [+0].  The records of
      the data model hold finite numbers; the other values come from
      arithmetic (a division by zero), and where a property needs the
      stored numbers to be finite it says so.  A property that depends on
      sums being exact is stated of whole numbers, which doubles add
      without rounding, and one that depends on the sign of zero of
      numbers above zero.
    - The two aggregators are given a second time on doubles ([Binary64],
      over the primitive floats): the same two loops, with the roundings
      of the additions.
    - A string is a sequence of code units; [String.ltb] is the order [<]
      of JavaScript strings.
    - The arrays of the state are lists; a JavaScript [Map] is an
      association list in insertion order; the lookup object
      [plantTypeById] is a finite map keyed by id, and a read of it
      ([plantTypeOf]) finds an entry of the map or else what a plain
      object inherits under that name.
    - Built-ins of the runtime whose result depends on the host (parsing a
      date, local calendar arithmetic) are variables of a section.
    - An exception is a value of [completion].
    - A handler that calls [uid()], [todayISO()] or [confirm] takes what
      the call returned as an argument.
    - Saving the collections to the key-value store after each change is
      not modelled, nor is the markup of the components. *)

From Stdlib Require Import QArith Qround Lqa ZArith Lia String Ascii List.
From Stdlib Require Import Sorted Permutation OrdersEx.
From Stdlib Require Import Uint63 PrimFloat FloatOps SpecFloat.
From stdpp Require Import gmap strings list sorting.

Open Scope string_scope.

(** ** JavaScript numbers *)

Inductive number : Type :=
  | Fin (q : Q)
  | Infinity
  | NegInfinity
  | NaN.

Declare Scope js_scope.
Delimit Scope js_scope with js.
Bind Scope js_scope with number.

Module Num.

Definition Qltb (x y : Q) : bool := negb (Qle_bool y x).

Definition zero : number := Fin 0.

(** Unary minus. *)
Definition neg (a : number) : number :=
  match a with
  | Fin x => Fin (- x)
  | Infinity => NegInfinity
  | NegInfinity => Infinity
  | NaN => NaN
  end.

(** [a + b] *)
Definition add (a b : number) : number :=
  match a, b with
  | NaN, _ | _, NaN => NaN
  | Fin x, Fin y => Fin (x + y)
  | Infinity, NegInfinity | NegInfinity, Infinity => NaN
  | Infinity, _ | _, Infinity => Infinity
  | NegInfinity, _ | _, NegInfinity => NegInfinity
  end.

(** [a - b] *)
Definition sub (a b : number) : number := add a (neg b).

(** [a * b] *)
Definition mul (a b : number) : number :=
  let signed (x : Q) (inf : number) : number :=
    if Qeq_bool x 0 then NaN else if Qltb 0 x then inf else neg inf in
  match a, b with
  | NaN, _ | _, NaN => NaN
  | Fin x, Fin y => Fin (x * y)
  | Fin x, inf | inf, Fin x => signed x inf
  | Infinity, Infinity | NegInfinity, NegInfinity => Infinity
  | Infinity, NegInfinity | NegInfinity, Infinity => NegInfinity
  end.

(** [a / b]: a finite value divided by zero is an infinity of its sign,
    and [0 / 0] is [NaN]. *)
Definition div (a b : number) : number :=
  match a, b with
  | NaN, _ | _, NaN => NaN
  | Fin x, Fin y =>
      if Qeq_bool y 0 then
        if Qltb 0 x then Infinity
        else if Qltb x 0 then NegInfinity
        else NaN
      else Fin (x / y)
  | Fin _, _ => Fin 0
  | inf, Fin y => if Qltb y 0 then neg inf else inf
  | _, _ => NaN
  end.

(** [a < b]; every comparison with [NaN] is false. *)
Definition lt (a b : number) : bool :=
  match a, b with
  | NaN, _ | _, NaN => false
  | Fin x, Fin y => Qltb x y
  | _, NegInfinity => false
  | NegInfinity, _ => true
  | Infinity, _ => false
  | Fin _, Infinity => true
  end.

(** [a <= b] *)
Definition le (a b : number) : bool :=
  match a, b with
  | NaN, _ | _, NaN => false
  | Fin x, Fin y => Qle_bool x y
  | NegInfinity, _ => true
  | _, Infinity => true
  | _, NegInfinity => false
  | Infinity, _ => false
  end.

(** [a > b] *)
Definition gt (a b : number) : bool := lt b a.

(** [Math.max(a, b)] and [Math.min(a, b)]: [NaN] when either is. *)
Definition max (a b : number) : number :=
  match a, b with
  | NaN, _ | _, NaN => NaN
  | _, _ => if lt a b then b else a
  end.

Definition min (a b : number) : number :=
  match a, b with
  | NaN, _ | _, NaN => NaN
  | _, _ => if lt b a then b else a
  end.

(** [Math.floor(a)] *)
Definition floor (a : number) : number :=
  match a with
  | Fin x => Fin (inject_Z (Qfloor x))
  | _ => a
  end.

(** Truthiness of a number: [0] and [NaN] are falsy. *)
Definition truthy (a : number) : bool :=
  match a with
  | Fin x => negb (Qeq_bool x 0)
  | NaN => false
  | _ => true
  end.

(** The value is an ordinary (finite) number. *)
Definition finite (a : number) : Prop :=
  match a with Fin _ => True | _ => False end.

(** Numeric equality: the same value, finite values compared as
    rationals. *)
Definition eq (a b : number) : Prop :=
  match a, b with
  | Fin x, Fin y => (x == y)%Q
  | Infinity, Infinity | NegInfinity, NegInfinity | NaN, NaN => True
  | _, _ => False
  end.

End Num.

Notation "a + b" := (Num.add a b) : js_scope.
Notation "a - b" := (Num.sub a b) : js_scope.
Notation "a * b" := (Num.mul a b) : js_scope.
Notation "a / b" := (Num.div a b) : js_scope.
Notation "a == b" := (Num.eq a b) : js_scope.

(** Integer literals of the source. *)
Definition lit (z : Z) : number := Fin (inject_Z z).

(** ** Completions: a value, or an exception *)

Inductive exn : Type := RangeError | TypeError | SyntaxError.

Inductive completion (A : Type) : Type :=
  | Normal (a : A)
  | Throw (e : exn).
Arguments Normal {A} a.
Arguments Throw {A} e.

Definition bind {A B : Type} (c : completion A) (k : A -> completion B)
  : completion B :=
  match c with
  | Normal a => k a
  | Throw e => Throw e
  end.

Notation "'let*' x := c 'in' k" := (bind c (fun x => k))
  (at level 10, x name, c at level 100, k at level 200).

(** ** Data model (the JSDoc typedefs) *)

Inductive Unit : Type := kg | count.

Module PlantType.
Record t : Type := mk {
  id : string;
  name : string;
  germinationMinDays : number;
  germinationMaxDays : number;
  maturityDays : number;
  harvestWindowDays : number;
  defaultUnit : Unit;
}.
End PlantType.

Module Planting.
Record t : Type := mk {
  id : string;
  plantTypeId : string;
  plantedAt : string;
  location : string;
  quantityPlanted : number;
  notes : string;
  archived : bool;
}.
End Planting.

Module Harvest.
Record t : Type := mk {
  id : string;
  plantingId : string;
  date : string;
  amount : number;
  unit : Unit;
  notes : string;
}.
End Harvest.

(** The harvest form ([harvestInput]). *)
Module HarvestInput.
Record t : Type := mk {
  amount : number;
  unit : Unit;
  date : string;
  notes : string;
}.
End HarvestInput.

(** The React state of the component that the handlers below read and
    write: the three collections and the harvest dialog. *)
Record AppState : Type := mkState {
  plantTypes : list PlantType.t;
  plantings : list Planting.t;
  harvests : list Harvest.t;
  harvestTarget : option Planting.t;
  harvestInput : HarvestInput.t;
}.

(** ** Derived map *)

(** [Object.fromEntries(plantTypes.map((p) => [p.id, p]))]: entries are
    written in order, a later entry overwrites an earlier one of the same
    id. *)
Definition plantTypeById (plantTypes : list PlantType.t)
  : gmap string PlantType.t :=
  foldl (fun obj p => <[PlantType.id p := p]> obj) ∅ plantTypes.

(** The derived map is a plain object: a read [plantTypeById[k]] finds the
    entry written under [k] and, when there is none, what every object
    inherits from [Object.prototype] under that name. *)
Module ObjectPrototype.

(** The names under which a function is inherited. *)
Definition functions : list string :=
  ["constructor"; "hasOwnProperty"; "isPrototypeOf"; "propertyIsEnumerable";
   "toLocaleString"; "toString"; "valueOf"; "__defineGetter__";
   "__defineSetter__"; "__lookupGetter__"; "__lookupSetter__"].

(** The [name] of the function inherited under [k]: [constructor] is the
    function [Object], the others are named as their property. *)
Definition functionName (k : string) : string :=
  if String.eqb k "constructor" then "Object" else k.

End ObjectPrototype.

(** An inherited value as the code reads it.  It has a [name], the one of
    the function, or none for the prototype itself, which counts as the
    empty text in [name || "Unknown"]; its day counts are [undefined],
    which is [NaN] in each sum, difference and [Math.max] that [phaseFor]
    takes of them; its [defaultUnit] is [undefined], read only as
    [defaultUnit || "kg"]; its [id] is never read. *)
Definition inheritedValue (name : string) : PlantType.t :=
  {| PlantType.id := "";
     PlantType.name := name;
     PlantType.germinationMinDays := NaN;
     PlantType.germinationMaxDays := NaN;
     PlantType.maturityDays := NaN;
     PlantType.harvestWindowDays := NaN;
     PlantType.defaultUnit := kg |}.

Definition inherited (k : string) : option PlantType.t :=
  if String.eqb k "__proto__" then Some (inheritedValue "")
  else if bool_decide (k ∈ ObjectPrototype.functions)
  then Some (inheritedValue (ObjectPrototype.functionName k))
  else None.

(** [plantTypeById[k]]; [None] is [undefined]. *)
Definition plantTypeOf (plantTypes : list PlantType.t) (k : string)
  : option PlantType.t :=
  match plantTypeById plantTypes !! k with
  | Some pt => Some pt
  | None => inherited k
  end.

(** ** Handlers *)

(** [uid()] is a source of fresh identifiers; a handler that calls it takes
    the identifier it got as the argument [fresh]. *)

Definition openHarvest (today : string) (planting : Planting.t)
    (st : AppState) : AppState :=
  let defaultUnit :=
    match plantTypeOf (plantTypes st) (Planting.plantTypeId planting) with
    | Some pt => PlantType.defaultUnit pt
    | None => kg
    end in
  {| plantTypes := plantTypes st;
     plantings := plantings st;
     harvests := harvests st;
     harvestTarget := Some planting;
     harvestInput := HarvestInput.mk Num.zero defaultUnit today "" |}.

Definition logHarvest (fresh : string) (st : AppState) : AppState :=
  match harvestTarget st with
  | None => st
  | Some target =>
      let amount := HarvestInput.amount (harvestInput st) in
      if negb (Num.truthy amount) || Num.le amount Num.zero then st
      else
        let entry :=
          {| Harvest.id := fresh;
             Harvest.plantingId := Planting.id target;
             Harvest.amount := amount;
             Harvest.unit := HarvestInput.unit (harvestInput st);
             Harvest.date := HarvestInput.date (harvestInput st);
             Harvest.notes := HarvestInput.notes (harvestInput st) |} in
        {| plantTypes := plantTypes st;
           plantings := plantings st;
           harvests := entry :: harvests st;
           harvestTarget := None;
           harvestInput := harvestInput st |}
  end.

Definition setPlantings (f : list Planting.t -> list Planting.t)
    (st : AppState) : AppState :=
  {| plantTypes := plantTypes st;
     plantings := f (plantings st);
     harvests := harvests st;
     harvestTarget := harvestTarget st;
     harvestInput := harvestInput st |}.

Definition setHarvests (f : list Harvest.t -> list Harvest.t)
    (st : AppState) : AppState :=
  {| plantTypes := plantTypes st;
     plantings := plantings st;
     harvests := f (harvests st);
     harvestTarget := harvestTarget st;
     harvestInput := harvestInput st |}.

Definition setPlantTypes (f : list PlantType.t -> list PlantType.t)
    (st : AppState) : AppState :=
  {| plantTypes := f (plantTypes st);
     plantings := plantings st;
     harvests := harvests st;
     harvestTarget := harvestTarget st;
     harvestInput := harvestInput st |}.

Definition deletePlanting (id : string) : AppState -> AppState :=
  setPlantings (fun arr => filter (fun p => Planting.id p <> id) arr).

Definition deleteHarvest (id : string) : AppState -> AppState :=
  setHarvests (fun arr => filter (fun h => Harvest.id h <> id) arr).

(** [{ ...p, archived: !p.archived }] *)
Definition flipArchived (p : Planting.t) : Planting.t :=
  {| Planting.id := Planting.id p;
     Planting.plantTypeId := Planting.plantTypeId p;
     Planting.plantedAt := Planting.plantedAt p;
     Planting.location := Planting.location p;
     Planting.quantityPlanted := Planting.quantityPlanted p;
     Planting.notes := Planting.notes p;
     Planting.archived := negb (Planting.archived p) |}.

Definition toggleArchive (id : string) : AppState -> AppState :=
  setPlantings (fun arr =>
    fmap (fun p => if String.eqb (Planting.id p) id then flipArchived p
                   else p) arr).

(** [removeType] of the settings panel. *)
Definition removeType (id : string) : AppState -> AppState :=
  setPlantTypes (fun arr => filter (fun p => PlantType.id p <> id) arr).

(** ** The planting form *)

(** The fields of the planting form ([newPlanting]). *)
Module NewPlanting.
Record t : Type := mk {
  plantTypeId : string;
  plantedAt : string;
  location : string;
  quantityPlanted : number;
  notes : string;
}.
End NewPlanting.

(** The tab shown. *)
Inductive Tab : Type :=
  TabPlant | TabTrack | TabHarvest | TabReports | TabSettings.

(** The state [addPlanting] reads and writes: the collections, the planting
    form and the tab. *)
Record FormState : Type := mkForm {
  app : AppState;
  newPlanting : NewPlanting.t;
  tab : Tab;
}.

(** The form as it is set up and cleared:
    [{ plantTypeId: plantTypes[0]?.id || "", plantedAt: todayISO(),
       location: "", quantityPlanted: 1, notes: "" }]. *)
Definition emptyPlanting (plantTypes : list PlantType.t) (today : string)
  : NewPlanting.t :=
  {| NewPlanting.plantTypeId :=
       match plantTypes with
       | p :: _ => PlantType.id p
       | [] => ""
       end;
     NewPlanting.plantedAt := today;
     NewPlanting.location := "";
     NewPlanting.quantityPlanted := lit 1;
     NewPlanting.notes := "" |}.

(** [{ id: uid(), archived: false, ...newPlanting }] *)
Definition plantingOfForm (fresh : string) (form : NewPlanting.t)
  : Planting.t :=
  {| Planting.id := fresh;
     Planting.archived := false;
     Planting.plantTypeId := NewPlanting.plantTypeId form;
     Planting.plantedAt := NewPlanting.plantedAt form;
     Planting.location := NewPlanting.location form;
     Planting.quantityPlanted := NewPlanting.quantityPlanted form;
     Planting.notes := NewPlanting.notes form |}.

(** [addPlanting(e)]; [fresh] is the identifier [uid()] gives and [today]
    the value of [todayISO()]. *)
Definition addPlanting (fresh today : string) (ui : FormState) : FormState :=
  let form := newPlanting ui in
  if String.eqb (NewPlanting.plantTypeId form) ""
     || String.eqb (NewPlanting.plantedAt form) ""
  then ui
  else
    {| app := setPlantings (fun arr => plantingOfForm fresh form :: arr)
                (app ui);
       newPlanting := emptyPlanting (plantTypes (app ui)) today;
       tab := TabTrack |}.

(** ** The catalogue of the settings panel *)

(** [DEFAULT_PLANT_TYPES], with the identifiers [uid()] gave its entries
    when the module was loaded. *)
Definition DEFAULT_PLANT_TYPES (uid : nat -> string) : list PlantType.t :=
  [PlantType.mk (uid 0%nat) "Kūmara (Sweet Potato)"
     (lit 10) (lit 20) (lit 140) (lit 21) kg;
   PlantType.mk (uid 1%nat) "Potato" (lit 14) (lit 21) (lit 100) (lit 28) kg;
   PlantType.mk (uid 2%nat) "Lettuce" (lit 7) (lit 14) (lit 50) (lit 21) count;
   PlantType.mk (uid 3%nat) "Tomato" (lit 6) (lit 14) (lit 85) (lit 35) kg;
   PlantType.mk (uid 4%nat) "Broccoli" (lit 7) (lit 14) (lit 70) (lit 14)
     count;
   PlantType.mk (uid 5%nat) "Silverbeet (Chard)"
     (lit 7) (lit 14) (lit 55) (lit 45) kg;
   PlantType.mk (uid 6%nat) "Corn (Sweet)"
     (lit 7) (lit 10) (lit 85) (lit 14) count;
   PlantType.mk (uid 7%nat) "Beans (Bush)"
     (lit 7) (lit 14) (lit 55) (lit 21) kg;
   PlantType.mk (uid 8%nat) "Carrot" (lit 14) (lit 21) (lit 80) (lit 21) kg;
   PlantType.mk (uid 9%nat) "Capsicum (Pepper)"
     (lit 10) (lit 21) (lit 110) (lit 35) kg].

(** [{ ...p, id }] *)
Definition withId (id : string) (p : PlantType.t) : PlantType.t :=
  {| PlantType.id := id;
     PlantType.name := PlantType.name p;
     PlantType.germinationMinDays := PlantType.germinationMinDays p;
     PlantType.germinationMaxDays := PlantType.germinationMaxDays p;
     PlantType.maturityDays := PlantType.maturityDays p;
     PlantType.harvestWindowDays := PlantType.harvestWindowDays p;
     PlantType.defaultUnit := PlantType.defaultUnit p |}.

(** [resetToDefaults()]; [confirmed] is the answer to the [confirm] dialog,
    [uid] gave the identifiers of [DEFAULT_PLANT_TYPES] and [fresh i] is the
    identifier [uid()] gives for the entry at index [i]. *)
Definition resetToDefaults (confirmed : bool) (uid fresh : nat -> string)
    (st : AppState) : AppState :=
  if negb confirmed then st
  else
    setPlantTypes
      (fun _ => imap (fun i p => withId (fresh i) p) (DEFAULT_PLANT_TYPES uid))
      st.

(** The form of a new plant type ([draft]). *)
Module Draft.
Record t : Type := mk {
  name : string;
  germinationMinDays : number;
  germinationMaxDays : number;
  maturityDays : number;
  harvestWindowDays : number;
  defaultUnit : Unit;
}.
End Draft.

Definition emptyDraft : Draft.t :=
  {| Draft.name := "";
     Draft.germinationMinDays := lit 7;
     Draft.germinationMaxDays := lit 14;
     Draft.maturityDays := lit 60;
     Draft.harvestWindowDays := lit 21;
     Draft.defaultUnit := kg |}.

(** [{ id: uid(), ...draft, germinationMinDays: Number(...), ... }]; the
    four fields are numbers, which [Number] returns as they are. *)
Definition plantTypeOfDraft (fresh : string) (draft : Draft.t)
  : PlantType.t :=
  {| PlantType.id := fresh;
     PlantType.name := Draft.name draft;
     PlantType.germinationMinDays := Draft.germinationMinDays draft;
     PlantType.germinationMaxDays := Draft.germinationMaxDays draft;
     PlantType.maturityDays := Draft.maturityDays draft;
     PlantType.harvestWindowDays := Draft.harvestWindowDays draft;
     PlantType.defaultUnit := Draft.defaultUnit draft |}.

(** [addType()], on the state and the draft; [String_trim] is
    [String.prototype.trim]. *)
Definition addType (String_trim : string -> string) (fresh : string)
    (st : AppState) (draft : Draft.t) : AppState * Draft.t :=
  if String.eqb (String_trim (Draft.name draft)) "" then (st, draft)
  else
    (setPlantTypes (fun arr => plantTypeOfDraft fresh draft :: arr) st,
     emptyDraft).

(** The patches the catalogue cards send to [updateType]: any of the four
    day counts and the default unit. *)
Module Patch.
Record t : Type := mk {
  germinationMinDays : option number;
  germinationMaxDays : option number;
  maturityDays : option number;
  harvestWindowDays : option number;
  defaultUnit : option Unit;
}.
End Patch.

(** [{ ...p, ...patch }] *)
Definition applyPatch (p : PlantType.t) (patch : Patch.t) : PlantType.t :=
  {| PlantType.id := PlantType.id p;
     PlantType.name := PlantType.name p;
     PlantType.germinationMinDays :=
       default (PlantType.germinationMinDays p)
         (Patch.germinationMinDays patch);
     PlantType.germinationMaxDays :=
       default (PlantType.germinationMaxDays p)
         (Patch.germinationMaxDays patch);
     PlantType.maturityDays :=
       default (PlantType.maturityDays p) (Patch.maturityDays patch);
     PlantType.harvestWindowDays :=
       default (PlantType.harvestWindowDays p)
         (Patch.harvestWindowDays patch);
     PlantType.defaultUnit :=
       default (PlantType.defaultUnit p) (Patch.defaultUnit patch) |}.

Definition updateType (id : string) (patch : Patch.t)
  : AppState -> AppState :=
  setPlantTypes (fun arr =>
    fmap (fun p => if String.eqb (PlantType.id p) id then applyPatch p patch
                   else p) arr).

(** ** Date helpers *)

Module Expected.
Record t : Type := mk {
  germinationStart : string;
  germinationEnd : string;
  firstHarvest : string;
  lastHarvest : string;
}.
End Expected.

(** The object [phaseFor] returns. *)
Module Phase.
Record t : Type := mk {
  germinationPct : number;
  growthPct : number;
  harvestPct : number;
  expected : Expected.t;
  done : bool;
  elapsed : number;
  total : number;
}.
End Phase.

(** Phase lengths of a plant type: [g1], [g2], [g3] and [total] of
    [phaseFor]. *)
Definition germinationLen (pt : PlantType.t) : number :=
  (PlantType.germinationMinDays pt + PlantType.germinationMaxDays pt) / lit 2.

Definition growthLen (pt : PlantType.t) : number :=
  Num.max (lit 1) (PlantType.maturityDays pt - germinationLen pt).

Definition harvestLen (pt : PlantType.t) : number :=
  Num.max (lit 1) (PlantType.harvestWindowDays pt).

Definition totalLen (pt : PlantType.t) : number :=
  germinationLen pt + growthLen pt + harvestLen pt.

(** [clamp] of [phaseFor]. *)
Definition clamp (v min max : number) : number :=
  Num.min max (Num.max min v).

Section Estimation.
Local Open Scope js_scope.

(** The [Date] built-ins the helpers call.
    - [Date_parse s]: the time value, in milliseconds, of [new Date(s)];
      [NaN] for an invalid date.
    - [Date_plusDays t days]: the time value of a date of time value [t]
      after [d.setDate(d.getDate() + days)], in the local time zone.
    - [Date_toISOString t]: [toISOString()] of a date of time value [t]; it
      throws a [RangeError] on an invalid date. *)
Variable Date_parse : string -> number.
Variable Date_plusDays : number -> number -> number.
Variable Date_toISOString : number -> completion string.

(** [toISO(d)], on the time value of [d]. *)
Definition toISO (d : number) : completion string :=
  let* s := Date_toISOString d in Normal (substring 0 10 s).

Definition addDays (iso : string) (days : number) : completion string :=
  toISO (Date_plusDays (Date_parse iso) days).

Definition daysBetween (fromISO toISODate : string) : number :=
  Num.floor ((Date_parse toISODate - Date_parse fromISO)
             / lit (24 * 3600 * 1000)).

(** Days since planting, never negative: [elapsed] of [phaseFor]. *)
Definition elapsedDays (today : string) (planting : Planting.t) : number :=
  Num.max (lit 0) (daysBetween (Planting.plantedAt planting) today).

(** The [expected] field of the snapshot. *)
Definition expectedFor (planting : Planting.t) (pt : PlantType.t)
  : completion Expected.t :=
  let plantedAt := Planting.plantedAt planting in
  let* germinationStart :=
    addDays plantedAt (PlantType.germinationMinDays pt) in
  let* germinationEnd :=
    addDays plantedAt (PlantType.germinationMaxDays pt) in
  let* firstHarvest := addDays plantedAt (PlantType.maturityDays pt) in
  let* lastHarvest :=
    addDays plantedAt
      (PlantType.maturityDays pt + PlantType.harvestWindowDays pt) in
  Normal (Expected.mk germinationStart germinationEnd firstHarvest
                      lastHarvest).

(** ** Estimation logic *)

(** [phaseFor(planting)], with the catalogue of the state and the value
    [today] of [todayISO()].  [Normal None] is [null]. *)
Definition phaseFor (plantTypes : list PlantType.t) (today : string)
    (planting : Planting.t) : completion (option Phase.t) :=
  match plantTypeOf plantTypes (Planting.plantTypeId planting) with
  | None => Normal None
  | Some pt =>
      let elapsed := elapsedDays today planting in
      let g1 := germinationLen pt in
      let g2 := growthLen pt in
      let g3 := harvestLen pt in
      let total := g1 + g2 + g3 in
      let p1 := clamp ((elapsed / g1) * lit 100) (lit 0) (lit 100) in
      let p2 := clamp (((elapsed - g1) / g2) * lit 100) (lit 0) (lit 100) in
      let p3 :=
        clamp (((elapsed - g1 - g2) / g3) * lit 100) (lit 0) (lit 100) in
      let* expected := expectedFor planting pt in
      Normal (Some {| Phase.germinationPct := p1;
                      Phase.growthPct := p2;
                      Phase.harvestPct := p3;
                      Phase.expected := expected;
                      Phase.done := Num.gt elapsed total;
                      Phase.elapsed := elapsed;
                      Phase.total := total |})
  end.

End Estimation.

(** ** A host for the [Date] built-ins: the UTC time zone

    The host reads the date-only form [YYYY-MM-DD] of a calendar date, the
    value of a date input, which [new Date] takes as midnight UTC; any other
    text is an invalid date for it.  In the UTC time zone the local calendar
    is the UTC calendar. *)

Module UTC.

Definition msPerDay : Z := 24 * 3600 * 1000.

(** The largest time value of a [Date]. *)
Definition maxTime : Z := 8640000000000000.

(** Day number (days since 1970-01-01) of a civil date, and back. *)
Definition daysFromCivil (y m d : Z) : Z :=
  let y' := (if m <=? 2 then y - 1 else y)%Z in
  let era := (y' / 400)%Z in
  let yoe := (y' - era * 400)%Z in
  let doy := ((153 * (if m >? 2 then m - 3 else m + 9) + 2) / 5 + d - 1)%Z in
  let doe := (yoe * 365 + yoe / 4 - yoe / 100 + doy)%Z in
  (era * 146097 + doe - 719468)%Z.

Definition civilFromDays (z : Z) : Z * Z * Z :=
  let z' := (z + 719468)%Z in
  let era := (z' / 146097)%Z in
  let doe := (z' - era * 146097)%Z in
  let yoe := ((doe - doe / 1460 + doe / 36524 - doe / 146096) / 365)%Z in
  let doy := (doe - (365 * yoe + yoe / 4 - yoe / 100))%Z in
  let mp := ((5 * doy + 2) / 153)%Z in
  let d := (doy - (153 * mp + 2) / 5 + 1)%Z in
  let m := (if mp <? 10 then mp + 3 else mp - 9)%Z in
  let y := (yoe + era * 400 + (if m <=? 2 then 1 else 0))%Z in
  (y, m, d).

Definition digit (c : ascii) : option Z :=
  let n := (Z.of_N (N_of_ascii c) - 48)%Z in
  if ((0 <=? n) && (n <=? 9))%Z then Some n else None.

Fixpoint digits (acc : Z) (cs : list ascii) : option Z :=
  match cs with
  | [] => Some acc
  | c :: cs' =>
      match digit c with
      | Some n => digits (acc * 10 + n)%Z cs'
      | None => None
      end
  end.

(** Civil date of [YYYY-MM-DD], if it is one. *)
Definition civilOfISO (s : string) : option (Z * Z * Z) :=
  match list_ascii_of_string s with
  | [y1; y2; y3; y4; "-"%char; m1; m2; "-"%char; d1; d2] =>
      match digits 0 [y1; y2; y3; y4], digits 0 [m1; m2], digits 0 [d1; d2]
      with
      | Some y, Some m, Some d =>
          if decide (civilFromDays (daysFromCivil y m d) = (y, m, d))
          then Some (y, m, d) else None
      | _, _, _ => None
      end
  | _ => None
  end.

Definition Date_parse (s : string) : number :=
  match civilOfISO s with
  | Some (y, m, d) => lit (daysFromCivil y m d * msPerDay)
  | None => NaN
  end.

(** A time value out of range is [NaN] ([TimeClip]). *)
Definition timeClip (v : Z) : number :=
  if (Z.abs v <=? maxTime)%Z then lit v else NaN.

(** Truncation towards zero ([ToIntegerOrInfinity]). *)
Definition truncate (q : Q) : Z := Z.quot (Qnum q) (Zpos (Qden q)).

(** [d.setDate(d.getDate() + days)]: the day of the month plus [days],
    truncated to an integer, is the new day of the month, counted from the
    start of the month of [d]; a date that is invalid or set to a day that
    is not finite is invalid. *)
Definition Date_plusDays (t days : number) : number :=
  match t, days with
  | Fin ms, Fin n =>
      let v := Qfloor ms in
      let '(_, _, dayOfMonth) := civilFromDays (v / msPerDay)%Z in
      let newDay := truncate (inject_Z dayOfMonth + n) in
      timeClip (v + (newDay - dayOfMonth) * msPerDay)%Z
  | _, _ => NaN
  end.

Fixpoint pad (width : nat) (n : Z) (tail : string) : string :=
  match width with
  | O => tail
  | S w =>
      pad w (n / 10)%Z
        (String (ascii_of_N (Z.to_N (48 + n mod 10))) tail)
  end.

(** [YYYY-MM-DDTHH:mm:ss.sssZ], the year with a sign and six digits when
    it is not within 0000 to 9999. *)
Definition Date_toISOString (t : number) : completion string :=
  match t with
  | Fin ms =>
      let v := Qfloor ms in
      let '(y, m, d) := civilFromDays (v / msPerDay)%Z in
      let r := (v mod msPerDay)%Z in
      let rest :=
        "-" ++ pad 2 m ("-" ++ pad 2 d ("T" ++
        pad 2 (r / 3600000)%Z (":" ++ pad 2 (r / 60000 mod 60)%Z (":" ++
        pad 2 (r / 1000 mod 60)%Z ("." ++ pad 3 (r mod 1000)%Z "Z"))))) in
      if ((0 <=? y) && (y <=? 9999))%Z then Normal (pad 4 y rest)
      else if (y <? 0)%Z then Normal ("-" ++ pad 6 (- y)%Z rest)
      else Normal ("+" ++ pad 6 y rest)
  | _ => Throw RangeError
  end.

Definition phaseFor := phaseFor Date_parse Date_plusDays Date_toISOString.

End UTC.

(** ** The progress bar *)

(** [Math.round(a)]: the nearest integer, the upper one of two that are
    as near. *)
Definition Math_round (a : number) : number :=
  match a with
  | Fin x => Fin (inject_Z (Qfloor (x + (1 # 2))))
  | _ => a
  end.

(** What [Progress] shows for [value]: the number before the percent sign
    and the width of the bar, in percent. *)
Module Progress.

Definition label (value : number) : number :=
  Num.max (lit 0) (Num.min (lit 100) (Math_round value)).

Definition width (value : number) : number :=
  Num.max (lit 0) (Num.min (lit 100) value).

End Progress.

(** ** Reports data *)

(** A [Map] with string keys, as its entries in insertion order:
    [map.set] on a key of the map replaces the value in place, on a new key
    it appends an entry. *)
Module JsMap.

Definition t : Type := list (string * number).

Definition get (map : t) (k : string) : option number :=
  snd <$> List.find (fun e => String.eqb (fst e) k) map.

Fixpoint set (map : t) (k : string) (v : number) : t :=
  match map with
  | [] => [(k, v)]
  | (k', v') :: rest =>
      if String.eqb k' k then (k', v) :: rest else (k', v') :: set rest k v
  end.

Definition entries (map : t) : list (string * number) := map.

End JsMap.

(** [v || 0] on the result of [map.get]: [undefined], [0] and [NaN] are
    falsy. *)
Definition orZero (v : option number) : number :=
  match v with
  | Some n => if Num.truthy n then n else lit 0
  | None => lit 0
  end.

(** [arr.sort(compare)].  The sort of the language is stable; the model is
    the insertion sort that puts an element before the first one that
    [compare] orders after it (result [> 0]).  A result that is [NaN]
    counts as [0]. *)
Fixpoint insertBy {A : Type} (compare : A -> A -> number) (x : A)
    (sorted : list A) : list A :=
  match sorted with
  | [] => [x]
  | y :: rest =>
      if Num.gt (compare y x) (lit 0) then x :: y :: rest
      else y :: insertBy compare x rest
  end.

Definition sortBy {A : Type} (compare : A -> A -> number) (arr : list A)
  : list A :=
  foldl (fun sorted x => insertBy compare x sorted) [] arr.

Module MonthTotal.
Record t : Type := mk { month : string; total : number }.
End MonthTotal.

Module TypeTotal.
Record t : Type := mk { name : string; total : number }.
End TypeTotal.

Definition harvestsByUnit (harvests : list Harvest.t)
  : list Harvest.t * list Harvest.t :=
  (List.filter (fun h => match Harvest.unit h with kg => true | _ => false end)
     harvests,
   List.filter
     (fun h => match Harvest.unit h with count => true | _ => false end)
     harvests).

Definition monthKey (iso : string) : string := substring 0 7 iso.

Definition monthlyTotals (subset : list Harvest.t) : list MonthTotal.t :=
  let map :=
    foldl (fun map h =>
             let k := monthKey (Harvest.date h) in
             JsMap.set map k
               (orZero (JsMap.get map k) + Harvest.amount h)%js)
          [] subset in
  (fun e => MonthTotal.mk (fst e) (snd e))
    <$> sortBy (fun x y => if String.ltb (fst x) (fst y)
                           then lit (-1) else lit 1)
               (JsMap.entries map).

(** [plantings.find((p) => p.id === plantingId)] *)
Definition findPlanting (plantings : list Planting.t) (plantingId : string)
  : option Planting.t :=
  List.find (fun p => String.eqb (Planting.id p) plantingId) plantings.

Definition plantingOf (plantings : list Planting.t) (h : Harvest.t)
  : option Planting.t :=
  findPlanting plantings (Harvest.plantingId h).

(** The key under which [totalsByPlantType] counts a harvest of the
    planting [plantingId]; [None] when the loop skips it ([continue]). *)
Definition typeKeyOf (plantings : list Planting.t)
    (plantTypes : list PlantType.t) (plantingId : string) : option string :=
  match findPlanting plantings plantingId with
  | None => None
  | Some planting =>
      match plantTypeOf plantTypes (Planting.plantTypeId planting) with
      | Some pt =>
          if String.eqb (PlantType.name pt) "" then Some "Unknown"
          else Some (PlantType.name pt)
      | None => Some "Unknown"
      end
  end.

Definition typeKey (plantings : list Planting.t)
    (plantTypes : list PlantType.t) (h : Harvest.t) : option string :=
  typeKeyOf plantings plantTypes (Harvest.plantingId h).

Definition totalsByPlantType (plantings : list Planting.t)
    (plantTypes : list PlantType.t) (subset : list Harvest.t)
  : list TypeTotal.t :=
  let map :=
    foldl (fun map h =>
             match typeKey plantings plantTypes h with
             | None => map
             | Some key =>
                 JsMap.set map key
                   (orZero (JsMap.get map key) + Harvest.amount h)%js
             end)
          [] subset in
  (fun e => TypeTotal.mk (fst e) (snd e))
    <$> sortBy (fun a b => (snd b - snd a)%js) (JsMap.entries map).

(** ** The two aggregators in any arithmetic

    Of their numbers the two aggregators use the literals, [+], [-],
    truthiness and [>].  Here are the same two loops with that arithmetic
    as an argument, and with a harvest as the fields the loop reads of it:
    with the exact arithmetic of [number] they are [monthlyTotals] and
    [totalsByPlantType] above, and with the arithmetic of doubles they
    compute what the code computes on fractions, roundings included. *)
Record Arithmetic (N : Type) : Type := {
  literal : Z -> N;
  plus : N -> N -> N;
  minus : N -> N -> N;
  isTruthy : N -> bool;
  greater : N -> N -> bool;
}.
Arguments literal {N} _ _.
Arguments plus {N} _ _ _.
Arguments minus {N} _ _ _.
Arguments isTruthy {N} _ _.
Arguments greater {N} _ _ _.

Module Generic.
Section Generic.

Context {N : Type} (A : Arithmetic N).

Definition get (map : list (string * N)) (k : string) : option N :=
  snd <$> List.find (fun e => String.eqb (fst e) k) map.

Fixpoint set (map : list (string * N)) (k : string) (v : N)
  : list (string * N) :=
  match map with
  | [] => [(k, v)]
  | (k', v') :: rest =>
      if String.eqb k' k then (k', v) :: rest else (k', v') :: set rest k v
  end.

Definition orZero (v : option N) : N :=
  match v with
  | Some n => if isTruthy A n then n else literal A 0
  | None => literal A 0
  end.

Fixpoint insertBy {T : Type} (compare : T -> T -> N) (x : T)
    (sorted : list T) : list T :=
  match sorted with
  | [] => [x]
  | y :: rest =>
      if greater A (compare y x) (literal A 0) then x :: y :: rest
      else y :: insertBy compare x rest
  end.

Definition sortBy {T : Type} (compare : T -> T -> N) (arr : list T)
  : list T :=
  foldl (fun sorted x => insertBy compare x sorted) [] arr.

(** The loop of an aggregator: a harvest without a key is skipped. *)
Definition accumulate {H : Type} (key : H -> option string)
    (amount : H -> N) (map : list (string * N)) (subset : list H)
  : list (string * N) :=
  foldl (fun map h =>
           match key h with
           | None => map
           | Some k => set map k (plus A (orZero (get map k)) (amount h))
           end)
        map subset.

Definition monthlyTotals {H : Type} (date : H -> string) (amount : H -> N)
    (subset : list H) : list (string * N) :=
  let map :=
    foldl (fun map h =>
             let k := monthKey (date h) in
             set map k (plus A (orZero (get map k)) (amount h)))
          [] subset in
  sortBy (fun x y => if String.ltb (fst x) (fst y)
                     then literal A (-1) else literal A 1)
         map.

Definition totalsByPlantType {H : Type} (key : H -> option string)
    (amount : H -> N) (subset : list H) : list (string * N) :=
  sortBy (fun a b => minus A (snd b) (snd a)) (accumulate key amount [] subset).

End Generic.
End Generic.

(** The exact arithmetic of [number]. *)
Definition exactArithmetic : Arithmetic number :=
  {| literal := lit;
     plus := Num.add;
     minus := Num.sub;
     isTruthy := Num.truthy;
     greater := Num.gt |}.

(** ** The two aggregators on doubles *)

Set Warnings "-inexact-float".

Module Binary64.

(** An integer literal as a double. *)
Definition ofZ (z : Z) : float :=
  match z with
  | Z0 => 0%float
  | Zpos _ => PrimFloat.of_uint63 (Uint63.of_Z z)
  | Zneg _ => PrimFloat.opp (PrimFloat.of_uint63 (Uint63.of_Z (- z)))
  end.

(** Truthiness of a double: both zeros and [NaN] are falsy. *)
Definition truthy (x : float) : bool :=
  negb (PrimFloat.eqb x 0%float) && negb (PrimFloat.is_nan x).

Definition arithmetic : Arithmetic float :=
  {| literal := ofZ;
     plus := PrimFloat.add;
     minus := PrimFloat.sub;
     isTruthy := truthy;
     greater := fun a b => PrimFloat.ltb b a |}.

(** A harvest as the fields the aggregators read, its amount a double. *)
Module Harvest.
Record t : Type := mk {
  plantingId : string;
  date : string;
  amount : float;
}.
End Harvest.

Definition monthlyTotals (subset : list Harvest.t) : list (string * float) :=
  Generic.monthlyTotals arithmetic Harvest.date Harvest.amount subset.

Definition totalsByPlantType (plantings : list Planting.t)
    (plantTypes : list PlantType.t) (subset : list Harvest.t)
  : list (string * float) :=
  Generic.totalsByPlantType arithmetic
    (fun h => typeKeyOf plantings plantTypes (Harvest.plantingId h))
    Harvest.amount subset.

(** [arr.reduce((a, b) => a + b, 0)] *)
Definition sum (l : list float) : float := foldl PrimFloat.add 0%float l.

(** The rational a finite double stands for. *)
Definition value (x : float) : option Q :=
  match Prim2SF x with
  | S754_zero _ => Some 0%Q
  | S754_finite s m e =>
      let v :=
        if (0 <=? e)%Z then inject_Z (Zpos m * 2 ^ e)
        else (Zpos m # Z.to_pos (2 ^ (- e)))%Q in
      Some (if s then - v else v)%Q
  | _ => None
  end.

(** The sum, as a rational, of finite doubles. *)
Fixpoint exactSum (l : list float) : option Q :=
  match l with
  | [] => Some 0%Q
  | x :: rest =>
      match value x, exactSum rest with
      | Some q, Some r => Some (q + r)%Q
      | _, _ => None
      end
  end.

End Binary64.

(** The four series of the [Reports] tab. *)
Module ReportData.
Record t : Type := mk {
  kgMonthly : list MonthTotal.t;
  ctMonthly : list MonthTotal.t;
  kgByType : list TypeTotal.t;
  ctByType : list TypeTotal.t;
}.
End ReportData.

Definition Reports (st : AppState) : ReportData.t :=
  let byUnit := harvestsByUnit (harvests st) in
  {| ReportData.kgMonthly := monthlyTotals (fst byUnit);
     ReportData.ctMonthly := monthlyTotals (snd byUnit);
     ReportData.kgByType :=
       totalsByPlantType (plantings st) (plantTypes st) (fst byUnit);
     ReportData.ctByType :=
       totalsByPlantType (plantings st) (plantTypes st) (snd byUnit) |}.

(** ** The harvest ledger and the tracker cards *)

(** [s || fallback] on strings. *)
Definition orText (s fallback : string) : string :=
  if String.eqb s "" then fallback else s.

(** A row of the ledger without its date cell, which is the date in the
    format of the locale. *)
Module LedgerRow.
Record t : Type := mk {
  plant : string;
  location : string;
  amount : number;
  unit : Unit;
  notes : string;
}.
End LedgerRow.

(** The row [HarvestLedger] shows for a harvest. *)
Definition ledgerRow (plantings : list Planting.t)
    (plantTypes : list PlantType.t) (h : Harvest.t) : LedgerRow.t :=
  let planting := plantingOf plantings h in
  let pt :=
    match planting with
    | Some p => plantTypeOf plantTypes (Planting.plantTypeId p)
    | None => None
    end in
  {| LedgerRow.plant :=
       match pt with
       | Some t => orText (PlantType.name t) "Unknown"
       | None => "Unknown"
       end;
     LedgerRow.location :=
       match planting with
       | Some p => orText (Planting.location p) "—"
       | None => "—"
       end;
     LedgerRow.amount := Harvest.amount h;
     LedgerRow.unit := Harvest.unit h;
     LedgerRow.notes := orText (Harvest.notes h) "—" |}.

Definition HarvestLedger (st : AppState) : list LedgerRow.t :=
  ledgerRow (plantings st) (plantTypes st) <$> harvests st.

(** The heading of the card [Tracker] shows for a planting:
    [pt?.name || "Unknown"]. *)
Definition cardName (plantTypes : list PlantType.t) (p : Planting.t)
  : string :=
  match plantTypeOf plantTypes (Planting.plantTypeId p) with
  | Some pt => orText (PlantType.name pt) "Unknown"
  | None => "Unknown"
  end.

(** ** JavaScript values and JSON *)

Set Warnings "-register-all".

(** The values a backup or the state can hold.  An object is the list of
    its own properties in creation order. *)
Inductive jsval : Type :=
  | VUndefined
  | VNull
  | VBool (b : bool)
  | VNum (n : number)
  | VStr (s : string)
  | VArr (items : list jsval)
  | VObj (props : list (string * jsval)).

(** The three collections as the values held in React state. *)
Module Collections.
Record t : Type := mk {
  plantTypes : jsval;
  plantings : jsval;
  harvests : jsval;
}.
End Collections.

Definition unitJS (u : Unit) : jsval :=
  match u with kg => VStr "kg" | count => VStr "count" end.

Definition plantTypeJS (p : PlantType.t) : jsval :=
  VObj [("id", VStr (PlantType.id p));
        ("name", VStr (PlantType.name p));
        ("germinationMinDays", VNum (PlantType.germinationMinDays p));
        ("germinationMaxDays", VNum (PlantType.germinationMaxDays p));
        ("maturityDays", VNum (PlantType.maturityDays p));
        ("harvestWindowDays", VNum (PlantType.harvestWindowDays p));
        ("defaultUnit", unitJS (PlantType.defaultUnit p))].

(** Property order of [addPlanting]:
    [{ id: uid(), archived: false, ...newPlanting }]. *)
Definition plantingJS (p : Planting.t) : jsval :=
  VObj [("id", VStr (Planting.id p));
        ("archived", VBool (Planting.archived p));
        ("plantTypeId", VStr (Planting.plantTypeId p));
        ("plantedAt", VStr (Planting.plantedAt p));
        ("location", VStr (Planting.location p));
        ("quantityPlanted", VNum (Planting.quantityPlanted p));
        ("notes", VStr (Planting.notes p))].

(** Property order of the [entry] of [logHarvest]. *)
Definition harvestJS (h : Harvest.t) : jsval :=
  VObj [("id", VStr (Harvest.id h));
        ("plantingId", VStr (Harvest.plantingId h));
        ("amount", VNum (Harvest.amount h));
        ("unit", unitJS (Harvest.unit h));
        ("date", VStr (Harvest.date h));
        ("notes", VStr (Harvest.notes h))].

(** The collections of a state, as JavaScript values. *)
Definition collections (st : AppState) : Collections.t :=
  {| Collections.plantTypes := VArr (plantTypeJS <$> plantTypes st);
     Collections.plantings := VArr (plantingJS <$> plantings st);
     Collections.harvests := VArr (harvestJS <$> harvests st) |}.

(** The text of a file is modelled by what it denotes: a JSON document, or
    nothing ([JSON.parse] throws a [SyntaxError]). *)
Inductive fileText : Type :=
  | JsonText (doc : jsval)
  | NotJson.

(** The document [JSON.stringify] writes for a value: a number that is not
    finite is written [null], a property whose value is [undefined] is left
    out, and [undefined] in an array is written [null]. *)
Fixpoint jsonOf (v : jsval) : jsval :=
  match v with
  | VUndefined => VNull
  | VNum (Fin _) => v
  | VNum _ => VNull
  | VArr items => VArr (List.map jsonOf items)
  | VObj props =>
      VObj (List.flat_map
              (fun e =>
                 match e with
                 | (_, VUndefined) => []
                 | (k, x) => [(k, jsonOf x)]
                 end)
              props)
  | _ => v
  end.

Definition JSON_stringify (v : jsval) : fileText := JsonText (jsonOf v).

Definition JSON_parse (text : fileText) : completion jsval :=
  match text with
  | JsonText doc => Normal doc
  | NotJson => Throw SyntaxError
  end.

(** [data.k] for the field names of a backup: reading a property of
    [null] or [undefined] throws a [TypeError]; a value that is not an
    object has no such property. *)
Definition getProp (data : jsval) (k : string) : completion jsval :=
  match data with
  | VUndefined | VNull => Throw TypeError
  | VObj props =>
      Normal (default VUndefined
                (snd <$> List.find (fun e => String.eqb (fst e) k) props))
  | _ => Normal VUndefined
  end.

Definition truthy (v : jsval) : bool :=
  match v with
  | VUndefined | VNull => false
  | VBool b => b
  | VNum n => Num.truthy n
  | VStr s => negb (String.eqb s "")
  | VArr _ | VObj _ => true
  end.

(** ** Export / Import *)

(** The backup [exportJSON] offers for download; [exportedAt] is
    [new Date().toISOString()]. *)
Definition exportJSON (c : Collections.t) (exportedAt : string) : fileText :=
  JSON_stringify
    (VObj [("plantTypes", Collections.plantTypes c);
           ("plantings", Collections.plantings c);
           ("harvests", Collections.harvests c);
           ("exportedAt", VStr exportedAt)]).

(** The message [importJSON] shows. *)
Inductive alert : Type :=
  | ImportSuccessful
  | InvalidBackupFile
  | ImportFailed (e : exn).

(** [a && b], [b] being read only when [a] is truthy. *)
Definition andAlso (a : jsval) (b : completion jsval) : completion jsval :=
  if truthy a then b else Normal a.

(** [importJSON(file)] on the text of the file: the new collections and
    the alert. *)
Definition importJSON (text : fileText) (c : Collections.t)
  : Collections.t * alert :=
  let try : completion (Collections.t * alert) :=
    let* data := JSON_parse text in
    let* a := getProp data "plantTypes" in
    let* b := andAlso a (getProp data "plantings") in
    let* cond := andAlso b (getProp data "harvests") in
    if truthy cond then
      let* plantTypes := getProp data "plantTypes" in
      let* plantings := getProp data "plantings" in
      let* harvests := getProp data "harvests" in
      Normal (Collections.mk plantTypes plantings harvests, ImportSuccessful)
    else Normal (c, InvalidBackupFile) in
  match try with
  | Normal r => r
  | Throw e => (c, ImportFailed e)
  end.

(** ** Storage *)

(** [localStorage]: the text kept under each key. *)
Definition Storage : Type := gmap string fileText.

(** [loadLS(key, fallback)]: the fallback when nothing is kept under the
    key, when the text kept is empty (an empty text is not JSON either) and
    when [JSON.parse] throws. *)
Definition loadLS (key : string) (fallback : jsval) (store : Storage)
  : jsval :=
  match store !! key with
  | None => fallback
  | Some raw =>
      match JSON_parse raw with
      | Normal v => v
      | Throw _ => fallback
      end
  end.

(** [saveLS(key, value)].  [JSON.stringify(undefined)] is [undefined],
    which [setItem] keeps as the text [undefined], not a JSON document.
    The exception [setItem] throws when the quota is exceeded is not
    modelled. *)
Definition saveLS (key : string) (value : jsval) (store : Storage)
  : Storage :=
  <[key := match value with
           | VUndefined => NotJson
           | _ => JSON_stringify value
           end]> store.

(** ** Sample data *)

Module Sample.

(** The first entry of [DEFAULT_PLANT_TYPES], its name in ASCII. *)
Definition kumara : PlantType.t :=
  {| PlantType.id := "pt-kumara";
     PlantType.name := "Kumara (Sweet Potato)";
     PlantType.germinationMinDays := lit 10;
     PlantType.germinationMaxDays := lit 20;
     PlantType.maturityDays := lit 140;
     PlantType.harvestWindowDays := lit 21;
     PlantType.defaultUnit := kg |}.

(** A plant type set out as seedlings: no germination time.  The catalogue
    form takes 0 for both germination fields. *)
Definition seedling : PlantType.t :=
  {| PlantType.id := "pt-seedling";
     PlantType.name := "Lettuce seedlings";
     PlantType.germinationMinDays := lit 0;
     PlantType.germinationMaxDays := lit 0;
     PlantType.maturityDays := lit 50;
     PlantType.harvestWindowDays := lit 21;
     PlantType.defaultUnit := count |}.

Definition planting (id plantTypeId plantedAt : string) : Planting.t :=
  {| Planting.id := id;
     Planting.plantTypeId := plantTypeId;
     Planting.plantedAt := plantedAt;
     Planting.location := "Bed A";
     Planting.quantityPlanted := lit 1;
     Planting.notes := "";
     Planting.archived := false |}.

Definition harvest (id plantingId date : string) (amount : number)
  : Harvest.t :=
  {| Harvest.id := id;
     Harvest.plantingId := plantingId;
     Harvest.date := date;
     Harvest.amount := amount;
     Harvest.unit := kg;
     Harvest.notes := "" |}.

(** The ledger of March and April. *)
Definition ledger : list Harvest.t :=
  [harvest "h1" "p1" "2024-03-05" (lit 2);
   harvest "h2" "p1" "2024-03-20" (lit 3);
   harvest "h3" "p1" "2024-04-01" (lit 1)].



Definition mixedLedger : list Harvest.t :=
  [harvest "h1" "p1" "2024-04-02" (lit 2);
   harvest "h2" "p2" "2024-03-05" (lit 5);
   harvest "h3" "p1" "2024-03-20" (lit 1);
   harvest "h4" "p0" "2024-04-10" (lit 4)].

(** Three harvests of the garden weighed to a tenth of a kilogram, their
    amounts the doubles of 0.2, 0.3 and 0.1. *)
Definition tenths : list Binary64.Harvest.t :=
  [Binary64.Harvest.mk "p1" "2024-03-05" 0.2%float;
   Binary64.Harvest.mk "p2" "2024-04-02" 0.3%float;
   Binary64.Harvest.mk "p1" "2024-03-20" 0.1%float].

End Sample.

(** * Vocabulary of the properties *)

(** A number in the closed interval [[lo, hi]]. *)
Definition between (lo hi v : number) : Prop :=
  Num.le lo v = true /\ Num.le v hi = true.

(** A finite number that is at least zero, and one above zero. *)
Definition nonNegative (a : number) : Prop :=
  match a with Fin q => (0 <= q)%Q | _ => False end.

Definition positive (a : number) : Prop :=
  match a with Fin q => (0 < q)%Q | _ => False end.

Definition amountFinite (h : Harvest.t) : Prop := Num.finite (Harvest.amount h).



(** The own property [k] of a value, [undefined] when it has none. *)
Definition field (data : jsval) (k : string) : jsval :=
  match data with
  | VObj props =>
      default VUndefined
        (snd <$> List.find (fun e => String.eqb (fst e) k) props)
  | _ => VUndefined
  end.

(** The value is an object with an own property [k]. *)
Definition hasField (data : jsval) (k : string) : Prop :=
  match data with
  | VObj props => exists v, In (k, v) props
  | _ => False
  end.

(** The part [x] of a phase of length [g] as a percentage, the form of
    [p1], [p2] and [p3] of [phaseFor]. *)
Definition percent (x g : number) : number :=
  clamp ((x / g) * lit 100) (lit 0) (lit 100).

(** ** Identifiers *)

(** The identifiers in use in a list of plantings, harvests and plant
    types. *)
Definition plantingIds (l : list Planting.t) : list string :=
  Planting.id <$> l.

Definition harvestIds (l : list Harvest.t) : list string :=
  Harvest.id <$> l.

Definition plantTypeIds (l : list PlantType.t) : list string :=
  PlantType.id <$> l.



(** [String.prototype.trim] on texts whose white space is ASCII: blanks,
    tabs and line ends are dropped at both ends. *)
Definition isSpace (c : ascii) : bool :=
  let n := nat_of_ascii c in
  (Nat.eqb n 32 || (Nat.leb 9 n && Nat.leb n 13))%bool.

Fixpoint trimStart (s : string) : string :=
  match s with
  | String c rest => if isSpace c then trimStart rest else s
  | EmptyString => s
  end.

Fixpoint trimEnd (s : string) : string :=
  match s with
  | String c rest =>
      match trimEnd rest with
      | EmptyString => if isSpace c then EmptyString else String c EmptyString
      | kept => String c kept
      end
  | EmptyString => s
  end.

Definition trimASCII (s : string) : string := trimEnd (trimStart s).

(** The day number of a date [YYYY-MM-DD], counted from 1970-01-01. *)
Definition dayNumber (iso : string) : option Z :=
  (fun c => match c with (y, m, d) => UTC.daysFromCivil y m d end)
    <$> UTC.civilOfISO iso.

(** ** A sample garden *)

Module Garden.

Definition planting : Planting.t :=
  Sample.planting "p1" "pt-kumara" "2024-01-01".

(** The harvest dialog open on the planting, 2.5 kg entered. *)
Definition state : AppState :=
  {| plantTypes := [Sample.kumara];
     plantings := [planting];
     harvests := Sample.ledger;
     harvestTarget := Some planting;
     harvestInput :=
       HarvestInput.mk (Fin (5 # 2)) kg "2024-05-21" "first pick" |}.

(** The planting form filled in. *)
Definition form : FormState :=
  {| app := state;
     newPlanting :=
       NewPlanting.mk "pt-kumara" "2024-02-01" "Bed B" (lit 12) "";
     tab := TabPlant |}.

(** Two runs of identifiers. *)
Definition uid (i : nat) : string :=
  String "a" (String (ascii_of_nat (48 + i)) "").

Definition fresh (i : nat) : string :=
  String "b" (String (ascii_of_nat (48 + i)) "").

(** The default catalogue and a planting of its first entry. *)
Definition defaults : AppState :=
  {| plantTypes := DEFAULT_PLANT_TYPES uid;
     plantings := [Sample.planting "p1" (uid 0) "2024-01-01"];
     harvests := [];
     harvestTarget := None;
     harvestInput := HarvestInput.mk Num.zero kg "2024-01-01" "" |}.

Definition draft : Draft.t :=
  {| Draft.name := " Kawakawa";
     Draft.germinationMinDays := lit 7;
     Draft.germinationMaxDays := lit 14;
     Draft.maturityDays := lit 60;
     Draft.harvestWindowDays := lit 21;
     Draft.defaultUnit := count |}.

End Garden.

(** ** Sums *)

(** The sum of a list of numbers, [arr.reduce((a, b) => a + b, 0)] from
    the right. *)
Fixpoint sumOf (l : list number) : number :=
  match l with
  | [] => lit 0
  | x :: rest => (x + sumOf rest)%js
  end.

(** The rational a finite number stands for. *)
Definition qv (n : number) : Q :=
  match n with Fin q => q | _ => 0%Q end.

Fixpoint qsum (l : list number) : Q :=
  match l with
  | [] => 0%Q
  | x :: rest => (qv x + qsum rest)%Q
  end.

(** ** The loop of the two aggregators

    Both aggregators fill their [Map] by the same loop, which differs only
    in the key it gives a harvest. *)

Definition keys (map : JsMap.t) : list string := fst <$> map.
Definition values (map : JsMap.t) : list number := snd <$> map.

(** One turn of the loop: an element without a key is skipped. *)
Definition step {H : Type} (key : H -> option string)
    (amount : H -> number) (map : JsMap.t) (h : H) : JsMap.t :=
  match key h with
  | None => map
  | Some k => JsMap.set map k (orZero (JsMap.get map k) + amount h)%js
  end.

Definition accumulate {H : Type} (key : H -> option string)
    (amount : H -> number) (map : JsMap.t) (subset : list H) : JsMap.t :=
  foldl (step key amount) map subset.

(** The amounts counted under a key, and all the amounts counted. *)
Definition counted {H : Type} (key : H -> option string)
    (amount : H -> number) (k : string) (subset : list H) : list number :=
  amount <$> filter (fun h => key h = Some k) subset.

Definition countedAll {H : Type} (key : H -> option string)
    (amount : H -> number) (subset : list H) : list number :=
  amount <$> filter (fun h => is_Some (key h)) subset.

(** What the loop holds under a key after the amounts counted under it, in
    the order of the list: [undefined] before the first one, then
    [(total || 0) + amount] for each in turn. *)
Definition runningTotalFrom (start : option number) (amounts : list number)
  : option number :=
  foldl (fun total a => Some (orZero total + a)%js) start amounts.

Definition runningTotal (amounts : list number) : option number :=
  runningTotalFrom None amounts.

(** ** Whole numbers

    A whole number from 0 on.  Doubles hold the whole numbers up to [2 ^ 53]
    and add and subtract them without rounding. *)
Definition whole (a : number) : Prop :=
  match a with
  | Fin q => exists z : Z, (0 <= z)%Z /\ (q == inject_Z z)%Q
  | _ => False
  end.

Definition wholeUpTo (bound : Z) (a : number) : Prop :=
  whole a /\ Num.le a (lit bound) = true.

(** Harvests in whole amounts that add up to [2 ^ 53] at most. *)
Definition wholeAmounts (subset : list Harvest.t) : Prop :=
  Forall (fun h => whole (Harvest.amount h)) subset /\
  (qsum (Harvest.amount <$> subset) <= inject_Z (2 ^ 53))%Q.

(** A plant type in whole days, none above the 100,000,000 days that a
    [Date] spans on either side of 1970. *)
Definition wholeDays (pt : PlantType.t) : Prop :=
  wholeUpTo 100000000 (PlantType.germinationMinDays pt) /\
  wholeUpTo 100000000 (PlantType.germinationMaxDays pt) /\
  wholeUpTo 100000000 (PlantType.maturityDays pt) /\
  wholeUpTo 100000000 (PlantType.harvestWindowDays pt).

(** * Properties *)

(** ** Numbers *)

Lemma Qltb_lt (x y : Q) : Num.Qltb x y = true <-> (x < y)%Q.
Proof.
  unfold Num.Qltb. rewrite negb_true_iff.
  destruct (Qle_bool y x) eqn:E.
  - apply Qle_bool_iff in E. split; [discriminate | intros H; lra].
  - split; [intros _ | reflexivity].
    apply Qnot_le_lt. intros H. apply Qle_bool_iff in H. congruence.
Qed.

Lemma Qltb_ge (x y : Q) : Num.Qltb x y = false <-> (y <= x)%Q.
Proof.
  unfold Num.Qltb. rewrite negb_false_iff. apply Qle_bool_iff.
Qed.

Lemma Qeq_bool_false (x y : Q) : Qeq_bool x y = false <-> ~ (x == y)%Q.
Proof.
  split.
  - intros E H. apply Qeq_bool_iff in H. congruence.
  - intros H. destruct (Qeq_bool x y) eqn:E; [| reflexivity].
    apply Qeq_bool_iff in E. contradiction.
Qed.

(** Reflect the boolean tests on rationals found in the context and in
    the goal, case by case. *)
Ltac qtests :=
  repeat match goal with
    | H : Num.Qltb _ _ = true |- _ => apply Qltb_lt in H
    | H : Num.Qltb _ _ = false |- _ => apply Qltb_ge in H
    | H : Qle_bool _ _ = true |- _ => apply Qle_bool_iff in H
    | H : Qeq_bool _ _ = true |- _ => apply Qeq_bool_iff in H
    | H : Qeq_bool _ _ = false |- _ => apply Qeq_bool_false in H
    | |- Num.Qltb _ _ = true => apply Qltb_lt
    | |- Num.Qltb _ _ = false => apply Qltb_ge
    | |- Qle_bool _ _ = true => apply Qle_bool_iff
    | |- Qeq_bool _ _ = true => apply Qeq_bool_iff
    | |- Qeq_bool _ _ = false => apply Qeq_bool_false
    end.

Ltac qsolve := qtests; unfold inject_Z in *; cbn in *; lra.

Lemma clamp_between (v : number) :
  v <> NaN -> between (lit 0) (lit 100) (clamp v (lit 0) (lit 100)).
Proof.
  intros Hv. unfold between, clamp, lit.
  destruct v as [q | | |]; try congruence; cbn.
  - destruct (Num.Qltb (inject_Z 0) q) eqn:E0; cbn.
    + destruct (Num.Qltb q (inject_Z 100)) eqn:E1; cbn;
        split; qsolve.
    + split; reflexivity.
  - split; reflexivity.
  - split; reflexivity.
Qed.

(** At or above the upper bound the clamp is the bound itself, at or below
    the lower bound it is the lower bound. *)
Lemma clamp_top (q : Q) :
  (100 <= q)%Q -> clamp (Fin q) (lit 0) (lit 100) = lit 100.
Proof.
  intros H. unfold clamp, lit. cbn.
  destruct (Num.Qltb (inject_Z 0) q) eqn:E0; cbn.
  - destruct (Num.Qltb q (inject_Z 100)) eqn:E1; [| reflexivity].
    qsolve.
  - qsolve.
Qed.

Lemma clamp_bottom (q : Q) :
  (q <= 0)%Q -> clamp (Fin q) (lit 0) (lit 100) = lit 0.
Proof.
  intros H. unfold clamp, lit. cbn.
  destruct (Num.Qltb (inject_Z 0) q) eqn:E0; cbn; [| reflexivity].
  qsolve.
Qed.

Lemma div_Fin (x y : Q) : ~ (y == 0)%Q -> (Fin x / Fin y)%js = Fin (x / y).
Proof.
  intros H. apply Qeq_bool_false in H. cbn. rewrite H. reflexivity.
Qed.

(** [Math.max(1, x)] is [NaN], [Infinity] or a finite value from one up;
    [Math.max(0, x)] likewise from zero up. *)
Lemma max_lit_cases (z : Z) (x : number) :
  Num.max (lit z) x = NaN \/ Num.max (lit z) x = Infinity \/
  exists q, Num.max (lit z) x = Fin q /\ (inject_Z z <= q)%Q.
Proof.
  destruct x as [q | | |]; cbn; auto.
  - right. right. destruct (Num.Qltb (inject_Z z) q) eqn:E.
    + exists q. split; [reflexivity | qtests; lra].
    + exists (inject_Z z). split; [reflexivity | lra].
  - right. right. exists (inject_Z z). split; [reflexivity | lra].
Qed.

(** ** The phase estimator *)

(** With germination days that are not negative, as the data model has
    them, the germination length is not negative. *)
(** ** The derived map *)

Lemma plantTypeOf_own (l : list PlantType.t) (k : string)
    (pt : PlantType.t) :
  plantTypeById l !! k = Some pt -> plantTypeOf l k = Some pt.
Proof. unfold plantTypeOf. intros ->. reflexivity. Qed.

(** A read finds nothing only under a name that is neither the id of an
    entry nor inherited. *)
Lemma plantTypeOf_None (l : list PlantType.t) (k : string) :
  plantTypeOf l k = None <->
  plantTypeById l !! k = None /\ inherited k = None.
Proof.
  unfold plantTypeOf. destruct (plantTypeById l !! k) as [pt |].
  - split; [discriminate | intros [H _]; discriminate].
  - tauto.
Qed.

Lemma germinationLen_not_negative (pt : PlantType.t) :
  Num.le (lit 0) (PlantType.germinationMinDays pt) = true ->
  Num.le (lit 0) (PlantType.germinationMaxDays pt) = true ->
  Num.lt (germinationLen pt) (lit 0) = false.
Proof.
  unfold germinationLen.
  destruct (PlantType.germinationMinDays pt) as [x | | |],
           (PlantType.germinationMaxDays pt) as [y | | |];
    intros Hx Hy; cbn in Hx, Hy; try discriminate; try reflexivity.
  unfold lit. cbn [Num.add].
  rewrite div_Fin by (unfold inject_Z; lra). cbn [Num.lt].
  qtests. unfold inject_Z in *.
  apply Qle_shift_div_l; lra.
Qed.

(** A germination length that is not negative is [NaN], [Infinity] or a
    finite value from zero up. *)
Lemma germinationLen_cases (pt : PlantType.t) :
  Num.lt (germinationLen pt) (lit 0) = false ->
  germinationLen pt = NaN \/ germinationLen pt = Infinity \/
  exists a, germinationLen pt = Fin a /\ (0 <= a)%Q.
Proof.
  destruct (germinationLen pt) as [a | | |]; cbn; intros H;
    try discriminate; auto.
  right. right. exists a. split; [reflexivity | qsolve].
Qed.

Section PhaseFacts.

Variable Date_parse : string -> number.
Variable Date_plusDays : number -> number -> number.
Variable Date_toISOString : number -> completion string.

Local Abbreviation phaseFor' :=
  (phaseFor Date_parse Date_plusDays Date_toISOString).
Local Abbreviation expectedFor' :=
  (expectedFor Date_parse Date_plusDays Date_toISOString).
Local Abbreviation elapsedDays' := (elapsedDays Date_parse).

(** When the plant type resolves and the projected dates can be written,
    [phaseFor] returns this snapshot. *)
Lemma phaseFor_resolved plantTypes today planting pt e :
  plantTypeById plantTypes !! Planting.plantTypeId planting = Some pt ->
  expectedFor' planting pt = Normal e ->
  let elapsed := elapsedDays' today planting in
  let g1 := germinationLen pt in
  let g2 := growthLen pt in
  let g3 := harvestLen pt in
  phaseFor' plantTypes today planting =
    Normal (Some
      {| Phase.germinationPct :=
           clamp ((elapsed / g1) * lit 100) (lit 0) (lit 100);
         Phase.growthPct :=
           clamp (((elapsed - g1) / g2) * lit 100) (lit 0) (lit 100);
         Phase.harvestPct :=
           clamp (((elapsed - g1 - g2) / g3) * lit 100) (lit 0) (lit 100);
         Phase.expected := e;
         Phase.done := Num.gt elapsed (totalLen pt);
         Phase.elapsed := elapsed;
         Phase.total := totalLen pt |}).
Proof.
  intros Hpt He. cbv zeta.
  unfold phaseFor. rewrite (plantTypeOf_own _ _ _ Hpt). cbv zeta.
  rewrite He. reflexivity.
Qed.

(** C1. For a planting whose plant type resolves, with a non-negative
    elapsed day count and positive phase lengths, [phaseFor] returns a
    snapshot whose [germinationPct], [growthPct] and [harvestPct] each lie
    in the closed interval from 0 to 100. *)
Theorem phaseFor_percentages_between plantTypes today planting pt e :
  plantTypeById plantTypes !! Planting.plantTypeId planting = Some pt ->
  expectedFor' planting pt = Normal e ->
  nonNegative (elapsedDays' today planting) ->
  positive (germinationLen pt) ->
  positive (growthLen pt) ->
  positive (harvestLen pt) ->
  exists ph,
    phaseFor' plantTypes today planting = Normal (Some ph) /\
    between (lit 0) (lit 100) (Phase.germinationPct ph) /\
    between (lit 0) (lit 100) (Phase.growthPct ph) /\
    between (lit 0) (lit 100) (Phase.harvestPct ph).
Proof.
  intros Hpt He Hel H1 H2 H3.
  eexists. split; [apply (phaseFor_resolved _ _ _ _ _ Hpt He) |].
  cbv zeta. cbn [Phase.germinationPct Phase.growthPct Phase.harvestPct].
  destruct (elapsedDays' today planting) as [el | | |]; try contradiction.
  destruct (germinationLen pt) as [a | | |]; try contradiction.
  destruct (growthLen pt) as [b | | |]; try contradiction.
  destruct (harvestLen pt) as [c | | |]; try contradiction.
  cbn in Hel, H1, H2, H3.
  repeat split; apply clamp_between;
    cbn [Num.sub Num.add Num.neg];
    rewrite div_Fin by lra; discriminate.
Qed.

(** Planted today, with positive phase lengths: nothing has progressed. *)
Lemma phaseFor_planted_today plantTypes today planting pt e :
  plantTypeById plantTypes !! Planting.plantTypeId planting = Some pt ->
  expectedFor' planting pt = Normal e ->
  elapsedDays' today planting = lit 0 ->
  positive (germinationLen pt) ->
  positive (growthLen pt) ->
  positive (harvestLen pt) ->
  exists ph,
    phaseFor' plantTypes today planting = Normal (Some ph) /\
    Phase.germinationPct ph = lit 0 /\
    Phase.growthPct ph = lit 0 /\
    Phase.harvestPct ph = lit 0 /\
    Phase.done ph = false.
Proof.
  intros Hpt He Hel H1 H2 H3.
  eexists. split; [apply (phaseFor_resolved _ _ _ _ _ Hpt He) |].
  cbv zeta.
  cbn [Phase.germinationPct Phase.growthPct Phase.harvestPct Phase.done].
  rewrite Hel. unfold totalLen.
  destruct (germinationLen pt) as [a | | |]; try contradiction.
  destruct (growthLen pt) as [b | | |]; try contradiction.
  destruct (harvestLen pt) as [c | | |]; try contradiction.
  cbn in H1, H2, H3. unfold lit.
  cbn [Num.sub Num.add Num.neg Num.gt Num.lt].
  rewrite !div_Fin by lra. cbn [Num.mul].
  assert (P1 : (inject_Z 0 / a * inject_Z 100 <= 0)%Q).
  { assert (inject_Z 0 / a == 0)%Q by (unfold inject_Z; field; lra).
    unfold inject_Z in *. lra. }
  assert (P2 : ((inject_Z 0 + - a) / b * inject_Z 100 <= 0)%Q).
  { assert ((inject_Z 0 + - a) / b <= 0)%Q.
    { apply Qle_shift_div_r; unfold inject_Z; lra. }
    unfold inject_Z in *. lra. }
  assert (P3 : ((inject_Z 0 + - a + - b) / c * inject_Z 100 <= 0)%Q).
  { assert ((inject_Z 0 + - a + - b) / c <= 0)%Q.
    { apply Qle_shift_div_r; unfold inject_Z; lra. }
    unfold inject_Z in *. lra. }
  repeat split; try (apply clamp_bottom; assumption).
  qtests. unfold inject_Z. lra.
Qed.

(** Planted today, a plant type with no germination time: the germination
    percentage is [0 / 0 * 100], not a number. *)
Lemma phaseFor_planted_today_zero_germination plantTypes today planting pt e :
  plantTypeById plantTypes !! Planting.plantTypeId planting = Some pt ->
  expectedFor' planting pt = Normal e ->
  elapsedDays' today planting = lit 0 ->
  PlantType.germinationMinDays pt = lit 0 ->
  PlantType.germinationMaxDays pt = lit 0 ->
  exists ph,
    phaseFor' plantTypes today planting = Normal (Some ph) /\
    Phase.germinationPct ph = NaN.
Proof.
  intros Hpt He Hel Hmin Hmax.
  eexists. split; [apply (phaseFor_resolved _ _ _ _ _ Hpt He) |].
  cbv zeta. cbn [Phase.germinationPct].
  rewrite Hel. unfold germinationLen. rewrite Hmin, Hmax. reflexivity.
Qed.

End PhaseFacts.


(** The scenario of the tracker: kumara planted on 1 January, seen fifteen
    days later. *)
Example phaseFor_kumara_day15 :
  UTC.phaseFor [Sample.kumara] "2024-01-16"
    (Sample.planting "p1" "pt-kumara" "2024-01-01") =
  Normal (Some
    {| Phase.germinationPct := lit 100;
       Phase.growthPct := lit 0;
       Phase.harvestPct := lit 0;
       Phase.expected :=
         Expected.mk "2024-01-11" "2024-01-21" "2024-05-20" "2024-06-10";
       Phase.done := false;
       Phase.elapsed := lit 15;
       Phase.total := Fin (644 # 4) |}).
Proof. vm_compute. reflexivity. Qed.

Lemma phaseFor_percentages_between_witness :
  exists ph,
    UTC.phaseFor [Sample.kumara] "2024-03-01"
      (Sample.planting "p1" "pt-kumara" "2024-01-01") = Normal (Some ph) /\
    between (lit 0) (lit 100) (Phase.germinationPct ph) /\
    between (lit 0) (lit 100) (Phase.growthPct ph) /\
    between (lit 0) (lit 100) (Phase.harvestPct ph).
Proof.
  apply (phaseFor_percentages_between
           UTC.Date_parse UTC.Date_plusDays UTC.Date_toISOString
           [Sample.kumara] "2024-03-01"
           (Sample.planting "p1" "pt-kumara" "2024-01-01") Sample.kumara
           (Expected.mk "2024-01-11" "2024-01-21" "2024-05-20"
                        "2024-06-10")).
  - vm_compute. reflexivity.
  - vm_compute. reflexivity.
  - vm_compute. discriminate.
  - vm_compute. reflexivity.
  - vm_compute. reflexivity.
  - vm_compute. reflexivity.
Defined.

(** C3, at a plant type with negative germination days, which the
    catalogue card marks invalid ([min={0}]) and stores all the same: twenty
    days after planting [elapsed] is above [total] and [done] is true, the
    growth and harvest percentages are 100, and [germinationPct] is
    [clamp(20 / -10 * 100, 0, 100)], which is 0. *)
Theorem phaseFor_done_germination_0 :
  let pt :=
    PlantType.mk "pt-x" "X" (lit (-10)) (lit (-10)) (lit 10) (lit 5) kg in
  exists ph,
    UTC.phaseFor [pt] "2024-01-21"
      (Sample.planting "p1" "pt-x" "2024-01-01") = Normal (Some ph) /\
    Phase.elapsed ph = lit 20 /\
    Num.gt (Phase.elapsed ph) (Phase.total ph) = true /\
    Phase.done ph = true /\
    Phase.germinationPct ph = lit 0 /\
    Phase.growthPct ph = lit 100 /\
    Phase.harvestPct ph = lit 100.
Proof.
  eexists. split; [vm_compute; reflexivity |].
  repeat split; vm_compute; reflexivity.
Qed.

(** C2, at a plant type without germination time: planted today,
    [elapsed] is 0 as is the germination length, and [germinationPct] is
    [0 / 0 * 100], which is [NaN]. *)
Theorem phaseFor_planted_today_NaN :
  exists ph,
    UTC.phaseFor [Sample.seedling] "2024-01-01"
      (Sample.planting "p1" "pt-seedling" "2024-01-01") = Normal (Some ph) /\
    Phase.elapsed ph = lit 0 /\
    Phase.germinationPct ph = NaN /\
    Phase.growthPct ph = lit 0 /\
    Phase.harvestPct ph = lit 0 /\
    Phase.done ph = false.
Proof.
  eexists. split; [vm_compute; reflexivity |].
  repeat split; reflexivity.
Qed.

(** ** The lookup object *)

Lemma plantTypeById_fold_None (l : list PlantType.t)
    (obj : gmap string PlantType.t) (k : string) :
  foldl (fun obj p => <[PlantType.id p := p]> obj) obj l !! k = None <->
  obj !! k = None /\ Forall (fun p => PlantType.id p <> k) l.
Proof.
  revert obj. induction l as [| p l IH]; intros obj; cbn.
  - split; [intros H; split; [exact H | constructor] | tauto].
  - rewrite IH, lookup_insert_None, Forall_cons. tauto.
Qed.

Lemma plantTypeById_fold_Some (l : list PlantType.t)
    (obj : gmap string PlantType.t) (k : string) (pt : PlantType.t) :
  foldl (fun obj p => <[PlantType.id p := p]> obj) obj l !! k = Some pt ->
  obj !! k = Some pt \/ (pt ∈ l /\ PlantType.id pt = k).
Proof.
  revert obj. induction l as [| p l IH]; intros obj; cbn; [tauto |].
  intros H. apply IH in H as [H | [H1 H2]].
  - apply lookup_insert_Some in H as [[H1 H2] | [H1 H2]].
    + subst. right. split; [left | reflexivity].
    + left. exact H2.
  - right. split; [right; exact H1 | exact H2].
Qed.

(** An id resolves in the catalogue exactly when a plant type has it. *)
Lemma plantTypeById_None (l : list PlantType.t) (k : string) :
  plantTypeById l !! k = None <-> Forall (fun p => PlantType.id p <> k) l.
Proof.
  unfold plantTypeById. rewrite plantTypeById_fold_None, lookup_empty. tauto.
Qed.

Lemma plantTypeById_Some (l : list PlantType.t) (k : string)
    (pt : PlantType.t) :
  plantTypeById l !! k = Some pt -> pt ∈ l /\ PlantType.id pt = k.
Proof.
  unfold plantTypeById. intros H.
  apply plantTypeById_fold_Some in H as [H | H]; [| exact H].
  rewrite lookup_empty in H. discriminate.
Qed.

Lemma plantTypeById_removed (l : list PlantType.t) (k : string) :
  plantTypeById (filter (fun p => PlantType.id p <> k) l) !! k = None.
Proof.
  apply plantTypeById_None, Forall_forall. intros p Hp.
  apply list_elem_of_filter in Hp. tauto.
Qed.

(** ** Logging a harvest *)

Lemma amount_test (a : number) :
  negb (Num.truthy a) || Num.le a Num.zero = negb (Num.gt a (lit 0)).
Proof.
  destruct a as [q | | |]; cbn; try reflexivity.
  unfold Num.Qltb. rewrite !negb_involutive.
  destruct (Qeq_bool q 0) eqn:E; [| reflexivity].
  cbn. symmetry. qtests. unfold inject_Z. lra.
Qed.

(** C9. With the harvest dialog open, [logHarvest] takes the entry only if
    its amount is above zero: it then puts exactly one new record, built
    from the form, in front of the harvests and leaves the other two
    collections as they are; with any other amount (zero for an empty
    field, a negative number, [NaN]) the state does not change. *)
Theorem logHarvest_amount (fresh : string) (st : AppState)
    (target : Planting.t) :
  harvestTarget st = Some target ->
  let input := harvestInput st in
  (Num.gt (HarvestInput.amount input) (lit 0) = true ->
   harvests (logHarvest fresh st) =
     {| Harvest.id := fresh;
        Harvest.plantingId := Planting.id target;
        Harvest.date := HarvestInput.date input;
        Harvest.amount := HarvestInput.amount input;
        Harvest.unit := HarvestInput.unit input;
        Harvest.notes := HarvestInput.notes input |} :: harvests st /\
   plantTypes (logHarvest fresh st) = plantTypes st /\
   plantings (logHarvest fresh st) = plantings st) /\
  (Num.gt (HarvestInput.amount input) (lit 0) = false ->
   logHarvest fresh st = st).
Proof.
  intros Ht input. unfold logHarvest. rewrite Ht, amount_test.
  fold input. split; intros ->; cbn; auto.
Qed.

Lemma logHarvest_amount_witness :
  let st :=
    openHarvest "2024-03-05" (Sample.planting "p1" "pt-kumara" "2024-01-01")
      (mkState [Sample.kumara]
         [Sample.planting "p1" "pt-kumara" "2024-01-01"] [] None
         (HarvestInput.mk Num.zero kg "" "")) in
  let filled :=
    mkState (plantTypes st) (plantings st) (harvests st) (harvestTarget st)
      (HarvestInput.mk (Fin (5 # 2)) kg "2024-03-05" "first pick") in
  harvests (logHarvest "h1" filled) =
    [Harvest.mk "h1" "p1" "2024-03-05" (Fin (5 # 2)) kg "first pick"] /\
  logHarvest "h2" st = st.
Proof.
  intros st filled. split.
  - apply (logHarvest_amount "h1" filled
             (Sample.planting "p1" "pt-kumara" "2024-01-01")
             eq_refl); reflexivity.
  - apply (logHarvest_amount "h2" st
             (Sample.planting "p1" "pt-kumara" "2024-01-01")
             eq_refl); reflexivity.
Defined.

(** ** Archiving *)

Lemma flipArchived_twice (p : Planting.t) : flipArchived (flipArchived p) = p.
Proof.
  destruct p. unfold flipArchived. cbn.
  rewrite negb_involutive. reflexivity.
Qed.

(** C10. [toggleArchive id] keeps the catalogue, the harvests and the
    dialog; it keeps the number and the order of the plantings; the
    planting at each position is the one that was there, with only its
    [archived] flag negated when its id is [id]; and toggling the same id
    twice gives back the state. *)
Theorem toggleArchive_involution (id : string) (st : AppState) :
  plantTypes (toggleArchive id st) = plantTypes st /\
  harvests (toggleArchive id st) = harvests st /\
  harvestTarget (toggleArchive id st) = harvestTarget st /\
  harvestInput (toggleArchive id st) = harvestInput st /\
  length (plantings (toggleArchive id st)) = length (plantings st) /\
  (forall (i : nat) (p : Planting.t),
     plantings st !! i = Some p ->
     plantings (toggleArchive id st) !! i =
       Some (if decide (Planting.id p = id) then flipArchived p else p)) /\
  toggleArchive id (toggleArchive id st) = st.
Proof.
  destruct st as [pts pls hs tgt inp].
  unfold toggleArchive, setPlantings. cbn.
  repeat split.
  - apply length_fmap.
  - intros i p Hi. rewrite list_lookup_fmap, Hi. cbn.
    destruct (decide (Planting.id p = id)) as [E | E].
    + apply String.eqb_eq in E. rewrite E. reflexivity.
    + apply String.eqb_neq in E. rewrite E. reflexivity.
  - f_equal. rewrite <- list_fmap_compose.
    rewrite <- (list_fmap_id pls) at 2.
    apply list_fmap_ext. intros _ p _. cbn.
    destruct (String.eqb (Planting.id p) id) eqn:E; cbn.
    + rewrite E. apply flipArchived_twice.
    + rewrite E. reflexivity.
Qed.

(** ** Backup *)

(** What [importJSON] does, by cases on the text. *)
Lemma importJSON_cases (text : fileText) (c : Collections.t) :
  importJSON text c =
  match text with
  | NotJson => (c, ImportFailed SyntaxError)
  | JsonText VNull | JsonText VUndefined => (c, ImportFailed TypeError)
  | JsonText data =>
      if truthy (field data "plantTypes") && truthy (field data "plantings")
         && truthy (field data "harvests")
      then (Collections.mk (field data "plantTypes") (field data "plantings")
              (field data "harvests"), ImportSuccessful)
      else (c, InvalidBackupFile)
  end.
Proof.
  destruct text as [data |]; [| reflexivity].
  destruct data; try reflexivity.
  unfold importJSON, andAlso. cbn [JSON_parse bind getProp field].
  generalize (default VUndefined
                (snd <$> List.find (fun e => String.eqb (fst e) "plantTypes")
                           props)),
             (default VUndefined
                (snd <$> List.find (fun e => String.eqb (fst e) "plantings")
                           props)),
             (default VUndefined
                (snd <$> List.find (fun e => String.eqb (fst e) "harvests")
                           props)).
  intros a b h.
  destruct (truthy a) eqn:Ea; cbn; [| repeat (rewrite Ea; cbn); reflexivity].
  destruct (truthy b) eqn:Eb; cbn; [| repeat (rewrite Eb; cbn); reflexivity].
  destruct (truthy h) eqn:Eh; reflexivity.
Qed.

(** C7, as the code has it.  [importJSON] accepts a file exactly when its
    text is JSON for a value whose fields [plantTypes], [plantings] and
    [harvests] are all truthy (present, and not [null], [false], [0] or the
    empty string; nothing else about them is checked).  When it accepts,
    the three collections become the values of the three fields; when it
    does not, the three collections stay as they are. *)
Theorem importJSON_accepts (text : fileText) (c : Collections.t) :
  let accepted := snd (importJSON text c) = ImportSuccessful in
  (accepted <->
   exists data,
     text = JsonText data /\
     truthy (field data "plantTypes") = true /\
     truthy (field data "plantings") = true /\
     truthy (field data "harvests") = true) /\
  (accepted ->
   exists data,
     text = JsonText data /\
     fst (importJSON text c) =
       {| Collections.plantTypes := field data "plantTypes";
          Collections.plantings := field data "plantings";
          Collections.harvests := field data "harvests" |}) /\
  (~ accepted -> fst (importJSON text c) = c).
Proof.
  cbv zeta. rewrite importJSON_cases.
  destruct text as [data |]; cbn [fst snd].
  2: { split; [split; [discriminate | intros (d & H & _); discriminate] |].
       split; [discriminate | reflexivity]. }
  assert (Hcase :
    forall r : Collections.t * alert,
      r = (if truthy (field data "plantTypes")
              && truthy (field data "plantings")
              && truthy (field data "harvests")
           then (Collections.mk (field data "plantTypes")
                   (field data "plantings") (field data "harvests"),
                 ImportSuccessful)
           else (c, InvalidBackupFile)) ->
      (snd r = ImportSuccessful <->
       exists d, JsonText data = JsonText d /\
         truthy (field d "plantTypes") = true /\
         truthy (field d "plantings") = true /\
         truthy (field d "harvests") = true) /\
      (snd r = ImportSuccessful ->
       exists d, JsonText data = JsonText d /\
         fst r = Collections.mk (field d "plantTypes") (field d "plantings")
                   (field d "harvests")) /\
      (snd r <> ImportSuccessful -> fst r = c)).
  { intros r ->.
    destruct (truthy (field data "plantTypes")) eqn:Ea,
             (truthy (field data "plantings")) eqn:Eb,
             (truthy (field data "harvests")) eqn:Eh; cbn;
      (split; [split; [try discriminate; intros _; exists data; auto
                      | intros (d & [= <-] & Ha & Hb & Hh); congruence]
              | split; [try discriminate; intros _; exists data; auto
                       | try reflexivity; congruence]]). }
  destruct data; try (apply Hcase; reflexivity); cbn [fst snd].
  all: split; [split; [discriminate
                      | intros (d & [= <-] & Ha & _); discriminate]
              | split; [discriminate | reflexivity]].
Qed.

(** C7, as stated, fails: a payload that has all three fields, one of them
    with the value 0, is turned down. *)
Lemma importJSON_presence_counterexample :
  let payload :=
    VObj [("plantTypes", VArr []); ("plantings", VArr []);
          ("harvests", VNum (lit 0))] in
  let c := Collections.mk (VArr []) (VArr []) (VArr []) in
  hasField payload "plantTypes" /\
  hasField payload "plantings" /\
  hasField payload "harvests" /\
  importJSON (JsonText payload) c = (c, InvalidBackupFile).
Proof.
  cbn. repeat split; eauto 6.
Qed.

(** A payload without the [harvests] key is turned down and the collections
    stay. *)
Example importJSON_missing_harvests (c : Collections.t) :
  importJSON
    (JsonText (VObj [("plantTypes", VArr []); ("plantings", VArr [])])) c =
  (c, InvalidBackupFile).
Proof. reflexivity. Qed.







(** A number that is not finite does not survive the backup: JSON writes
    it [null]. *)
Example export_import_infinite_amount :
  let st :=
    mkState [] [] [Sample.harvest "h1" "p1" "2024-05-21" Infinity]
      None (HarvestInput.mk Num.zero kg "" "") in
  Collections.harvests
    (fst (importJSON (exportJSON (collections st) "") (collections st))) =
  VArr [VObj [("id", VStr "h1"); ("plantingId", VStr "p1");
              ("amount", VNull); ("unit", VStr "kg");
              ("date", VStr "2024-05-21"); ("notes", VStr "")]].
Proof. reflexivity. Qed.

(** ** Sums *)

Lemma eq_of_qv (a b : number) :
  Num.finite a -> Num.finite b -> (qv a == qv b)%Q -> (a == b)%js.
Proof. destruct a, b; cbn; tauto. Qed.

Lemma sumOf_finite (l : list number) :
  Forall Num.finite l -> Num.finite (sumOf l) /\ (qv (sumOf l) == qsum l)%Q.
Proof.
  induction 1 as [| x l Hx Hl [IH1 IH2]]; cbn.
  - split; [exact I | reflexivity].
  - destruct x as [q | | |]; try contradiction.
    destruct (sumOf l) as [s | | |]; try contradiction.
    cbn in *. split; [exact I | lra].
Qed.

Lemma qsum_Permutation (l1 l2 : list number) :
  l1 ≡ₚ l2 -> (qsum l1 == qsum l2)%Q.
Proof. induction 1; cbn; lra. Qed.

Lemma qv_orZero (o : option number) :
  (qv (orZero o) == match o with Some n => qv n | None => 0 end)%Q.
Proof.
  destruct o as [[q | | |] |]; cbn; try reflexivity.
  destruct (Qeq_bool q 0) eqn:E; cbn; [| reflexivity].
  qsolve.
Qed.

Lemma orZero_finite (o : option number) :
  match o with Some n => Num.finite n | None => True end ->
  Num.finite (orZero o).
Proof.
  destruct o as [[q | | |] |]; cbn; try tauto.
  destruct (Qeq_bool q 0); exact (fun _ => I).
Qed.

(** ** The [Map] *)

Lemma JsMap_get_set (map : JsMap.t) (k k' : string) (v : number) :
  JsMap.get (JsMap.set map k v) k' =
  if decide (k = k') then Some v else JsMap.get map k'.
Proof.
  unfold JsMap.get. induction map as [| [k0 v0] map IH]; cbn.
  - destruct (decide (k = k')) as [<- | N].
    + rewrite String.eqb_refl. reflexivity.
    + apply String.eqb_neq in N. rewrite N. reflexivity.
  - destruct (String.eqb k0 k) eqn:E0; cbn.
    + apply String.eqb_eq in E0. subst k0.
      destruct (decide (k = k')) as [<- | N].
      * rewrite String.eqb_refl. reflexivity.
      * apply String.eqb_neq in N. rewrite N. reflexivity.
    + destruct (String.eqb k0 k') eqn:E1; [| exact IH].
      apply String.eqb_eq in E1. subst k0.
      apply String.eqb_neq in E0.
      destruct (decide (k = k')); [congruence | reflexivity].
Qed.

Lemma JsMap_get_None (map : JsMap.t) (k : string) :
  JsMap.get map k = None <-> k ∉ keys map.
Proof.
  unfold JsMap.get, keys. induction map as [| [k0 v0] map IH]; cbn.
  - split; [intros _; apply not_elem_of_nil | reflexivity].
  - rewrite not_elem_of_cons. destruct (String.eqb k0 k) eqn:E; cbn.
    + apply String.eqb_eq in E. split; [discriminate | intros [N _]; congruence].
    + apply String.eqb_neq in E. rewrite IH. split; [auto | tauto].
Qed.

Lemma JsMap_get_Some (map : JsMap.t) (k : string) (v : number) :
  JsMap.get map k = Some v -> (k, v) ∈ map.
Proof.
  unfold JsMap.get. induction map as [| [k0 v0] map IH]; cbn; [discriminate |].
  destruct (String.eqb k0 k) eqn:E; cbn.
  - apply String.eqb_eq in E. intros [= <-]. subst. left.
  - intros H. right. auto.
Qed.

Lemma JsMap_get_elem (map : JsMap.t) (k : string) (v : number) :
  NoDup (keys map) -> (k, v) ∈ map -> JsMap.get map k = Some v.
Proof.
  unfold JsMap.get, keys. induction map as [| [k0 v0] map IH]; cbn.
  - intros _ H. apply elem_of_nil in H. contradiction.
  - intros Hnd H. apply NoDup_cons in Hnd as [Hk0 Hnd].
    apply elem_of_cons in H as [[= -> ->] | H].
    + rewrite String.eqb_refl. reflexivity.
    + destruct (String.eqb k0 k) eqn:E; [| auto].
      apply String.eqb_eq in E. subst k0. exfalso. apply Hk0.
      apply list_elem_of_fmap. exists (k, v). auto.
Qed.

Lemma JsMap_keys_set (map : JsMap.t) (k : string) (v : number) :
  keys (JsMap.set map k v) =
  if decide (k ∈ keys map) then keys map else (keys map ++ [k])%list.
Proof.
  unfold keys. induction map as [| [k0 v0] map IH]; cbn.
  - destruct (decide (k ∈ [])) as [H | _]; [| reflexivity].
    apply elem_of_nil in H. contradiction.
  - destruct (String.eqb k0 k) eqn:E; cbn.
    + apply String.eqb_eq in E. subst k0.
      destruct (decide (k ∈ k :: (fst <$> map))) as [_ | N]; [reflexivity |].
      exfalso. apply N. left.
    + apply String.eqb_neq in E. rewrite IH.
      destruct (decide (k ∈ fst <$> map)) as [H | H];
        destruct (decide (k ∈ k0 :: (fst <$> map))) as [H' | H'];
        try reflexivity.
      * exfalso. apply H'. right. exact H.
      * apply elem_of_cons in H' as [-> | H']; [congruence | contradiction].
Qed.

Lemma JsMap_values_set_finite (map : JsMap.t) (k : string) (v : number) :
  Forall Num.finite (values map) -> Num.finite v ->
  Forall Num.finite (values (JsMap.set map k v)).
Proof.
  unfold values. induction map as [| [k0 v0] map IH]; cbn; intros Hm Hv.
  - repeat constructor. exact Hv.
  - apply Forall_cons in Hm as [H0 Hm].
    destruct (String.eqb k0 k); cbn; constructor; auto.
Qed.

Lemma JsMap_get_finite (map : JsMap.t) (k : string) :
  Forall Num.finite (values map) ->
  match JsMap.get map k with Some n => Num.finite n | None => True end.
Proof.
  intros Hm. destruct (JsMap.get map k) as [n |] eqn:E; [| exact I].
  apply JsMap_get_Some in E. rewrite Forall_forall in Hm. apply Hm.
  apply list_elem_of_fmap. exists (k, n). auto.
Qed.

Lemma JsMap_qsum_set (map : JsMap.t) (k : string) (v : number) :
  (qsum (values (JsMap.set map k v)) ==
   qsum (values map) - qv (orZero (JsMap.get map k)) + qv v)%Q.
Proof.
  rewrite qv_orZero. unfold values, JsMap.get.
  induction map as [| [k0 v0] map IH]; cbn; [lra |].
  destruct (String.eqb k0 k); cbn; lra.
Qed.

(** ** The loop of the two aggregators *)

Section Accumulate.

Context {H : Type} (key : H -> option string) (amount : H -> number).

Lemma step_keys_NoDup (map : JsMap.t) (h : H) :
  NoDup (keys map) -> NoDup (keys ((step key amount) map h)).
Proof.
  intros Hnd. unfold step. destruct (key h) as [k |]; [| exact Hnd].
  rewrite JsMap_keys_set. destruct (decide (k ∈ keys map)); [exact Hnd |].
  apply NoDup_app. split; [exact Hnd |]. split.
  - intros x Hx Hk. apply list_elem_of_singleton in Hk. congruence.
  - apply NoDup_singleton.
Qed.

Lemma step_elem_keys (map : JsMap.t) (h : H) (k : string) :
  k ∈ keys ((step key amount) map h) <-> k ∈ keys map \/ key h = Some k.
Proof.
  unfold step. destruct (key h) as [k0 |].
  - rewrite JsMap_keys_set. destruct (decide (k0 ∈ keys map)) as [Hin | Hin].
    + split; [tauto | intros [Hk | [= ->]]; assumption].
    + rewrite elem_of_app, list_elem_of_singleton.
      split; (intros [Hk | Hk]; [tauto | right; congruence]).
  - split; [tauto | intros [Hk | Hk]; [exact Hk | discriminate]].
Qed.

Lemma step_finite (map : JsMap.t) (h : H) :
  Forall Num.finite (values map) -> Num.finite (amount h) ->
  Forall Num.finite (values ((step key amount) map h)).
Proof.
  intros Hm Ha. unfold step. destruct (key h) as [k |]; [| exact Hm].
  apply JsMap_values_set_finite; [exact Hm |].
  pose proof (orZero_finite _ (JsMap_get_finite map k Hm)) as Hz.
  destruct (orZero (JsMap.get map k)), (amount h); cbn in *; tauto.
Qed.

Lemma qv_add_finite (a b : number) :
  Num.finite a -> Num.finite b -> (qv (a + b) == qv a + qv b)%Q.
Proof. destruct a, b; cbn; try tauto. reflexivity. Qed.

Lemma step_qget (map : JsMap.t) (h : H) (k : string) :
  Forall Num.finite (values map) -> Num.finite (amount h) ->
  (qv (orZero (JsMap.get ((step key amount) map h) k)) ==
   qv (orZero (JsMap.get map k)) +
   if decide (key h = Some k) then qv (amount h) else 0)%Q.
Proof.
  intros Hm Ha. unfold step. destruct (key h) as [k0 |].
  - rewrite JsMap_get_set. destruct (decide (k0 = k)) as [-> | N].
    + rewrite decide_True by reflexivity.
      rewrite (qv_orZero (Some _)).
      apply qv_add_finite; [| exact Ha].
      apply orZero_finite, JsMap_get_finite, Hm.
    + rewrite decide_False by congruence. lra.
  - rewrite decide_False by discriminate. lra.
Qed.

Lemma step_qsum (map : JsMap.t) (h : H) :
  Forall Num.finite (values map) -> Num.finite (amount h) ->
  (qsum (values ((step key amount) map h)) ==
   qsum (values map) + if decide (is_Some (key h)) then qv (amount h) else 0)%Q.
Proof.
  intros Hm Ha. unfold step. destruct (key h) as [k |].
  - rewrite decide_True by eauto. rewrite JsMap_qsum_set.
    rewrite qv_add_finite; [lra | | exact Ha].
    apply orZero_finite, JsMap_get_finite, Hm.
  - rewrite decide_False by (intros [? ?]; discriminate). lra.
Qed.

Lemma step_get (map : JsMap.t) (h : H) (k : string) :
  JsMap.get ((step key amount) map h) k =
  if decide (key h = Some k)
  then Some (orZero (JsMap.get map k) + amount h)%js
  else JsMap.get map k.
Proof.
  unfold step. destruct (key h) as [k0 |].
  - rewrite JsMap_get_set. destruct (decide (k0 = k)) as [-> | N].
    + rewrite decide_True by reflexivity. reflexivity.
    + rewrite decide_False by congruence. reflexivity.
  - rewrite decide_False by discriminate. reflexivity.
Qed.

Lemma accumulate_keys_NoDup (map : JsMap.t) (subset : list H) :
  NoDup (keys map) -> NoDup (keys ((accumulate key amount) map subset)).
Proof.
  unfold accumulate. revert map.
  induction subset as [| h subset IH]; intros map Hnd; cbn; [exact Hnd |].
  apply IH, step_keys_NoDup, Hnd.
Qed.

Lemma accumulate_elem_keys (map : JsMap.t) (subset : list H) (k : string) :
  k ∈ keys ((accumulate key amount) map subset) <->
  k ∈ keys map \/ exists h, h ∈ subset /\ key h = Some k.
Proof.
  unfold accumulate. revert map.
  induction subset as [| h subset IH]; intros map; cbn.
  - split; [tauto | intros [Hk | (h & Hh & _)]; [exact Hk |]].
    apply elem_of_nil in Hh. contradiction.
  - rewrite IH, step_elem_keys. split.
    + intros [[Hk | Hk] | (h' & Hh' & Hk)]; [tauto | |].
      * right. exists h. split; [left | exact Hk].
      * right. exists h'. split; [right; exact Hh' | exact Hk].
    + intros [Hk | (h' & Hh' & Hk)]; [tauto |].
      apply elem_of_cons in Hh' as [-> | Hh']; [tauto |].
      right. exists h'. auto.
Qed.

Lemma accumulate_finite (map : JsMap.t) (subset : list H) :
  Forall Num.finite (values map) ->
  Forall (fun h => Num.finite (amount h)) subset ->
  Forall Num.finite (values ((accumulate key amount) map subset)).
Proof.
  unfold accumulate. intros Hm Hs. revert map Hm.
  induction Hs as [| h subset Hh Hs IH]; intros map Hm; cbn; [exact Hm |].
  apply IH, step_finite; assumption.
Qed.

Lemma counted_cons (k : string) (h : H) (subset : list H) :
  (counted key amount) k (h :: subset) =
  if decide (key h = Some k) then amount h :: (counted key amount) k subset
  else (counted key amount) k subset.
Proof.
  unfold counted. rewrite filter_cons.
  destruct (decide (key h = Some k)); reflexivity.
Qed.

Lemma countedAll_cons (h : H) (subset : list H) :
  (countedAll key amount) (h :: subset) =
  if decide (is_Some (key h)) then amount h :: (countedAll key amount) subset
  else (countedAll key amount) subset.
Proof.
  unfold countedAll. rewrite filter_cons.
  destruct (decide (is_Some (key h))); reflexivity.
Qed.

Lemma accumulate_qget (map : JsMap.t) (subset : list H) (k : string) :
  Forall Num.finite (values map) ->
  Forall (fun h => Num.finite (amount h)) subset ->
  (qv (orZero (JsMap.get ((accumulate key amount) map subset) k)) ==
   qv (orZero (JsMap.get map k)) + qsum ((counted key amount) k subset))%Q.
Proof.
  unfold accumulate. intros Hm Hs. revert map Hm.
  induction Hs as [| h subset Hh Hs IH]; intros map Hm; cbn [foldl].
  - change ((counted key amount) k []) with (@nil number). cbn [qsum]. lra.
  - rewrite IH by (apply step_finite; assumption).
    rewrite step_qget by assumption. rewrite counted_cons.
    destruct (decide (key h = Some k)); cbn [qsum]; lra.
Qed.

Lemma accumulate_qsum (map : JsMap.t) (subset : list H) :
  Forall Num.finite (values map) ->
  Forall (fun h => Num.finite (amount h)) subset ->
  (qsum (values ((accumulate key amount) map subset)) ==
   qsum (values map) + qsum ((countedAll key amount) subset))%Q.
Proof.
  unfold accumulate. intros Hm Hs. revert map Hm.
  induction Hs as [| h subset Hh Hs IH]; intros map Hm; cbn [foldl].
  - change ((countedAll key amount) []) with (@nil number). cbn [qsum]. lra.
  - rewrite IH by (apply step_finite; assumption).
    rewrite step_qsum by assumption. rewrite countedAll_cons.
    destruct (decide (is_Some (key h))); cbn [qsum]; lra.
Qed.

Lemma counted_finite (k : string) (subset : list H) :
  Forall (fun h => Num.finite (amount h)) subset ->
  Forall Num.finite ((counted key amount) k subset).
Proof.
  intros Hs. unfold counted. apply Forall_fmap.
  apply Forall_forall. intros h Hh. apply list_elem_of_filter in Hh as [_ Hh].
  rewrite Forall_forall in Hs. apply Hs, Hh.
Qed.

Lemma countedAll_finite (subset : list H) :
  Forall (fun h => Num.finite (amount h)) subset ->
  Forall Num.finite ((countedAll key amount) subset).
Proof.
  intros Hs. unfold countedAll. apply Forall_fmap.
  apply Forall_forall. intros h Hh. apply list_elem_of_filter in Hh as [_ Hh].
  rewrite Forall_forall in Hs. apply Hs, Hh.
Qed.

(** Under a key the loop holds the running total of the amounts counted
    under it. *)
Lemma accumulate_get (map : JsMap.t) (subset : list H) (k : string) :
  JsMap.get ((accumulate key amount) map subset) k =
  runningTotalFrom (JsMap.get map k) ((counted key amount) k subset).
Proof.
  unfold accumulate, runningTotalFrom. revert map.
  induction subset as [| h subset IH]; intros map; [reflexivity |].
  cbn [foldl]. rewrite IH, step_get, counted_cons.
  destruct (decide (key h = Some k)); reflexivity.
Qed.

(** What the loop leaves in the map, started from an empty one: one entry
    for each key met, holding the sum of the amounts (counted key amount) under it. *)
Lemma accumulate_entries (subset : list H) :
  Forall (fun h => Num.finite (amount h)) subset ->
  let map := (accumulate key amount) [] subset in
  NoDup (keys map) /\
  Forall Num.finite (values map) /\
  (forall k, k ∈ keys map <-> exists h, h ∈ subset /\ key h = Some k) /\
  (forall k v, (k, v) ∈ map -> (v == sumOf ((counted key amount) k subset))%js) /\
  (sumOf (values map) == sumOf ((countedAll key amount) subset))%js.
Proof.
  intros Hs map.
  assert (Hnd : NoDup (keys map)) by (apply accumulate_keys_NoDup; constructor).
  assert (Hfin : Forall Num.finite (values map))
    by (apply accumulate_finite; [constructor | exact Hs]).
  split; [exact Hnd |]. split; [exact Hfin |]. split; [| split].
  - intros k. subst map. rewrite accumulate_elem_keys. split.
    + intros [Hk | Hk]; [apply elem_of_nil in Hk; contradiction | exact Hk].
    + auto.
  - intros k v Hkv.
    destruct (sumOf_finite _ (counted_finite k subset Hs)) as [Hf Hq].
    assert (Hv : Num.finite v).
    { rewrite Forall_forall in Hfin. apply Hfin.
      apply list_elem_of_fmap. exists (k, v). auto. }
    apply eq_of_qv; [exact Hv | exact Hf |].
    rewrite Hq. apply JsMap_get_elem in Hkv; [| exact Hnd].
    pose proof (accumulate_qget [] subset k (Forall_nil_2 _) Hs) as Hg.
    fold map in Hg. rewrite Hkv, (qv_orZero (Some v)) in Hg.
    cbn in Hg. unfold inject_Z in Hg. lra.
  - destruct (sumOf_finite _ Hfin) as [Hf1 Hq1].
    destruct (sumOf_finite _ (countedAll_finite subset Hs)) as [Hf2 Hq2].
    apply eq_of_qv; [exact Hf1 | exact Hf2 |].
    rewrite Hq1, Hq2.
    pose proof (accumulate_qsum [] subset (Forall_nil_2 _) Hs) as Hg.
    fold map in Hg. cbn in Hg. lra.
Qed.

End Accumulate.

(** ** The order of strings *)

Lemma ltb_asym (a b : string) : String.ltb a b = true -> String.ltb b a = false.
Proof.
  unfold String.ltb. rewrite (String.compare_antisym a b).
  destruct (String.compare b a); cbn; congruence.
Qed.

Lemma ltb_trans (a b c : string) :
  String.ltb a b = true -> String.ltb b c = true -> String.ltb a c = true.
Proof.
  unfold String.ltb.
  change String.compare with OrdersEx.String_as_OT.compare.
  intros Hab Hbc.
  destruct (OrdersEx.String_as_OT.compare a b) eqn:E1; try discriminate.
  destruct (OrdersEx.String_as_OT.compare b c) eqn:E2; try discriminate.
  assert (Hac : OrdersEx.String_as_OT.lt a c)
    by (transitivity b; [exact E1 | exact E2]).
  unfold OrdersEx.String_as_OT.lt in Hac. rewrite Hac. reflexivity.
Qed.

(** Two different strings are ordered one way or the other. *)
Lemma ltb_total (a b : string) :
  a <> b -> String.ltb b a = false -> String.ltb a b = true.
Proof.
  intros Hne. unfold String.ltb. rewrite (String.compare_antisym b a).
  destruct (String.compare a b) eqn:E; cbn; try congruence.
  apply String.compare_eq_iff in E. congruence.
Qed.

(** ** The order of numbers *)


(** ** [sort] *)

Section SortBy.

Context {A : Type} (compare : A -> A -> number).

Lemma insertBy_Permutation (x : A) (l : list A) :
  insertBy compare x l ≡ₚ x :: l.
Proof.
  induction l as [| y l IH]; cbn [insertBy]; [reflexivity |].
  destruct (Num.gt (compare y x) (lit 0)); [reflexivity |].
  rewrite IH. apply Permutation_swap.
Qed.

Lemma sortBy_Permutation (l : list A) : sortBy compare l ≡ₚ l.
Proof.
  unfold sortBy.
  enough (G : forall acc, foldl (fun sorted x => insertBy compare x sorted)
                            acc l ≡ₚ (acc ++ l)%list) by apply (G []).
  induction l as [| x l IH]; intros acc; cbn.
  - rewrite app_nil_r. reflexivity.
  - rewrite IH, insertBy_Permutation. apply Permutation_middle.
Qed.

(** The order [R] the comparison stands for, on the elements [P] that can
    occur: an element stays behind one it does not compare above, and goes
    before one that compares above it. *)
Context (R : relation A) (P : A -> Prop).
Hypothesis keep :
  forall y x, P y -> P x -> Num.gt (compare y x) (lit 0) = false -> R y x.
Hypothesis swap :
  forall y x, P y -> P x -> Num.gt (compare y x) (lit 0) = true -> R x y.

Lemma insertBy_HdRel (x y : A) (l : list A) :
  R y x -> HdRel R y l -> HdRel R y (insertBy compare x l).
Proof.
  intros Hyx Hy. destruct l as [| z l]; cbn [insertBy];
    [constructor; exact Hyx |].
  destruct (Num.gt (compare z x) (lit 0)); constructor;
    [exact Hyx | inversion Hy; assumption].
Qed.

Lemma insertBy_Sorted (x : A) (l : list A) :
  P x -> Forall P l -> Sorted R l -> Sorted R (insertBy compare x l).
Proof using keep swap.
  intros Hx Hl Hs. induction l as [| y l IH]; cbn [insertBy].
  - repeat constructor.
  - apply Forall_cons in Hl as [Hy Hl].
    apply Sorted_inv in Hs as [Hs Hhd].
    destruct (Num.gt (compare y x) (lit 0)) eqn:E.
    + constructor; [constructor; assumption |].
      constructor. apply swap; assumption.
    + constructor; [apply IH; assumption |].
      apply insertBy_HdRel; [apply keep; assumption | exact Hhd].
Qed.

Lemma sortBy_Sorted (l : list A) : Forall P l -> Sorted R (sortBy compare l).
Proof using keep swap.
  unfold sortBy.
  enough (G : forall acc, Forall P acc -> Sorted R acc -> Forall P l ->
                Sorted R (foldl (fun sorted x => insertBy compare x sorted)
                            acc l))
    by (apply G; constructor).
  induction l as [| x l IH]; intros acc Hacc Hs Hl; cbn; [exact Hs |].
  apply Forall_cons in Hl as [Hx Hl]. apply IH; [| | exact Hl].
  - rewrite insertBy_Permutation. constructor; assumption.
  - apply insertBy_Sorted; assumption.
Qed.

End SortBy.

(** ** Harvest by month *)

Lemma sumOf_eq_of_qsum (l1 l2 : list number) :
  Forall Num.finite l1 -> Forall Num.finite l2 ->
  (qsum l1 == qsum l2)%Q -> (sumOf l1 == sumOf l2)%js.
Proof.
  intros H1 H2 Hq.
  destruct (sumOf_finite l1 H1) as [F1 Q1], (sumOf_finite l2 H2) as [F2 Q2].
  apply eq_of_qv; [exact F1 | exact F2 | lra].
Qed.

Lemma eq_trans (a b c : number) : (a == b)%js -> (b == c)%js -> (a == c)%js.
Proof.
  destruct a, b, c; cbn; try tauto. intros H1 H2. lra.
Qed.

Lemma filter_all {A : Type} (P : A -> Prop) `{forall x, Decision (P x)}
    (l : list A) :
  (forall x, P x) -> filter P l = l.
Proof.
  intros HP. induction l as [| x l IH]; [reflexivity |].
  rewrite filter_cons, decide_True by apply HP. rewrite IH. reflexivity.
Qed.

(** Ascending without ties is strictly ascending. *)
Lemma Sorted_strict (l : list (string * number)) :
  Sorted (fun x y => String.ltb (fst y) (fst x) = false) l ->
  NoDup (keys l) ->
  Sorted (fun x y => String.ltb (fst x) (fst y) = true) l.
Proof.
  unfold keys. induction 1 as [| x l Hs IH Hhd]; cbn; intros Hnd.
  - constructor.
  - apply NoDup_cons in Hnd as [Hx Hnd]. constructor; [auto |].
    destruct Hhd as [| y l' Hxy]; constructor.
    apply ltb_total; [| exact Hxy].
    intros E. apply Hx. rewrite E. cbn. left.
Qed.

Lemma monthlyTotals_unfold (subset : list Harvest.t) :
  monthlyTotals subset =
  (fun e => MonthTotal.mk (fst e) (snd e))
    <$> sortBy (fun x y => if String.ltb (fst x) (fst y)
                           then lit (-1) else lit 1)
          (accumulate (fun h => Some (monthKey (Harvest.date h)))
             Harvest.amount [] subset).
Proof. reflexivity. Qed.

Lemma whole_finite (a : number) : whole a -> Num.finite a.
Proof. destruct a; cbn; tauto. Qed.

Lemma wholeAmounts_finite (subset : list Harvest.t) :
  wholeAmounts subset -> Forall amountFinite subset.
Proof.
  intros [Hwhole _]. eapply Forall_impl; [exact Hwhole |].
  intros h. apply whole_finite.
Qed.

(** An entry of the sorted map holds the running total of the amounts
    counted under its key. *)
Lemma sorted_accumulate_get {H : Type} (key : H -> option string)
    (amount : H -> number)
    (compare : string * number -> string * number -> number)
    (subset : list H) (k : string) (v : number) :
  (k, v) ∈ sortBy compare (accumulate key amount [] subset) ->
  Some v = runningTotal (counted key amount k subset).
Proof.
  rewrite sortBy_Permutation. intros Hkv.
  apply JsMap_get_elem in Hkv;
    [| apply accumulate_keys_NoDup; constructor].
  rewrite accumulate_get in Hkv. symmetry. exact Hkv.
Qed.

(** [monthlyTotals] and [totalsByPlantType] are the two loops of
    [Generic] in the exact arithmetic. *)
Lemma monthlyTotals_generic (subset : list Harvest.t) :
  monthlyTotals subset =
  (fun e => MonthTotal.mk (fst e) (snd e))
    <$> Generic.monthlyTotals exactArithmetic Harvest.date Harvest.amount
          subset.
Proof. reflexivity. Qed.

Lemma totalsByPlantType_generic (plantings : list Planting.t)
    (plantTypes : list PlantType.t) (subset : list Harvest.t) :
  totalsByPlantType plantings plantTypes subset =
  (fun e => TypeTotal.mk (fst e) (snd e))
    <$> Generic.totalsByPlantType exactArithmetic
          (fun h => typeKeyOf plantings plantTypes (Harvest.plantingId h))
          Harvest.amount subset.
Proof. reflexivity. Qed.

(** C4, as the code has it.  [monthlyTotals] has one entry for each value
    of the first seven characters of a harvest date, its entries are in
    strictly ascending order of month key, and the total of an entry is the
    running total [(total || 0) + amount] of the amounts of its month, in
    the order of the list.  For whole amounts that add up to [2 ^ 53] at
    most, which doubles add without rounding, the totals add up to the sum
    of all the amounts. *)
Theorem monthlyTotals_spec (subset : list Harvest.t) :
  let out := monthlyTotals subset in
  (forall month,
     month ∈ (MonthTotal.month <$> out) <->
     exists h, h ∈ subset /\ substring 0 7 (Harvest.date h) = month) /\
  StronglySorted
    (fun x y => String.ltb (MonthTotal.month x) (MonthTotal.month y) = true)
    out /\
  (forall e,
     e ∈ out ->
     Some (MonthTotal.total e) =
     runningTotal
       (Harvest.amount
          <$> filter (fun h => substring 0 7 (Harvest.date h) =
                               MonthTotal.month e) subset)) /\
  (wholeAmounts subset ->
   (sumOf (MonthTotal.total <$> out) ==
    sumOf (Harvest.amount <$> subset))%js).
Proof.
  intros out. subst out. rewrite monthlyTotals_unfold.
  set (key := fun h => Some (monthKey (Harvest.date h))).
  set (map := accumulate key Harvest.amount [] subset).
  set (cmp := fun x y : string * number =>
                if String.ltb (fst x) (fst y) then lit (-1) else lit 1).
  pose proof (sortBy_Permutation cmp map) as Hperm.
  split; [| split; [| split]].
  - intros month. rewrite <- list_fmap_compose.
    change (MonthTotal.month ∘ (fun e => MonthTotal.mk (fst e) (snd e)))
      with (@fst string number).
    rewrite Hperm. fold (keys map). subst map.
    rewrite accumulate_elem_keys. split.
    + intros [Hk | (h & Hh & Hk)]; [apply elem_of_nil in Hk; contradiction |].
      exists h. split; [exact Hh |]. injection Hk as Hk. exact Hk.
    + intros (h & Hh & Hk). right. exists h. split; [exact Hh |].
      unfold key, monthKey. rewrite Hk. reflexivity.
  - apply (StronglySorted_fmap _
             (fun x y : string * number => String.ltb (fst x) (fst y) = true)).
    + intros x y Hxy. exact Hxy.
    + apply Sorted_StronglySorted.
      { intros x y z Hxy Hyz. eapply ltb_trans; eassumption. }
      apply Sorted_strict.
      * apply (sortBy_Sorted cmp _ (fun _ => True)).
        -- intros y x _ _ Hc. unfold cmp in Hc.
           destruct (String.ltb (fst y) (fst x)) eqn:E;
             [apply ltb_asym, E | discriminate].
        -- intros y x _ _ Hc. unfold cmp in Hc.
           destruct (String.ltb (fst y) (fst x)) eqn:E;
             [discriminate | reflexivity].
        -- apply Forall_forall. auto.
      * unfold keys. rewrite Hperm.
        apply accumulate_keys_NoDup. constructor.
  - intros e He. apply list_elem_of_fmap in He as ([k v] & -> & He).
    cbn [MonthTotal.month MonthTotal.total fst snd].
    replace (filter (fun h => substring 0 7 (Harvest.date h) = k) subset)
      with (filter (fun h => key h = Some k) subset).
    + apply (sorted_accumulate_get key Harvest.amount cmp subset k v He).
    + apply list_filter_iff. intros h. unfold key, monthKey.
      split; congruence.
  - intros Hwhole. apply wholeAmounts_finite in Hwhole as Hfin.
    destruct (accumulate_entries key Harvest.amount subset Hfin)
      as (_ & Hval & _ & _ & Hsum).
    fold map in Hval, Hsum.
    rewrite <- list_fmap_compose.
    change (MonthTotal.total ∘ (fun e => MonthTotal.mk (fst e) (snd e)))
      with (@snd string number).
    eapply eq_trans; [| eapply eq_trans; [exact Hsum |]].
    + apply sumOf_eq_of_qsum.
      * rewrite Hperm. exact Hval.
      * exact Hval.
      * apply qsum_Permutation. rewrite Hperm. reflexivity.
    + unfold countedAll.
      rewrite filter_all by (intros h; unfold key; eauto).
      apply sumOf_eq_of_qsum; try reflexivity;
        apply Forall_fmap; exact Hfin.
Qed.

Example monthlyTotals_ledger :
  monthlyTotals Sample.ledger =
  [MonthTotal.mk "2024-03" (lit 5); MonthTotal.mk "2024-04" (lit 1)].
Proof. vm_compute. reflexivity. Qed.

Lemma wholeAmounts_mixedLedger : wholeAmounts Sample.mixedLedger.
Proof.
  split; [| vm_compute; discriminate].
  repeat constructor;
    [exists 2%Z | exists 5%Z | exists 1%Z | exists 4%Z];
    (split; [lia | reflexivity]).
Qed.

(** On the ledger of the garden, whose first harvest is of April, the
    entry of March comes first, and the totals add up to the 12 of the
    amounts. *)
Lemma monthlyTotals_spec_witness :
  monthlyTotals Sample.mixedLedger =
    [MonthTotal.mk "2024-03" (lit 6); MonthTotal.mk "2024-04" (lit 6)] /\
  StronglySorted
    (fun x y => String.ltb (MonthTotal.month x) (MonthTotal.month y) = true)
    (monthlyTotals Sample.mixedLedger) /\
  (sumOf (MonthTotal.total <$> monthlyTotals Sample.mixedLedger) ==
   lit 12)%js.
Proof.
  destruct (monthlyTotals_spec Sample.mixedLedger) as (_ & Hsorted & _ & Hsum).
  split; [vm_compute; reflexivity |].
  split; [exact Hsorted |].
  eapply eq_trans; [apply Hsum, wholeAmounts_mixedLedger |].
  vm_compute. reflexivity.
Defined.

(** C4, as stated, fails on amounts that are fractions: on the three
    harvests of 0.2, 0.3 and 0.1 the total of March is the double
    0.30000000000000004, the totals add up to 0.6000000000000001 and the
    amounts to 0.6, and the two sums differ as doubles and as the rationals
    the doubles stand for. *)
Lemma monthlyTotals_sum_counterexample :
  let out := Binary64.monthlyTotals Sample.tenths in
  let amounts := Binary64.Harvest.amount <$> Sample.tenths in
  out = [("2024-03", 0.30000000000000004%float); ("2024-04", 0.3%float)] /\
  Binary64.sum (snd <$> out) = 0.6000000000000001%float /\
  Binary64.sum amounts = 0.6%float /\
  PrimFloat.eqb (Binary64.sum (snd <$> out)) (Binary64.sum amounts) = false /\
  exists x y,
    Binary64.exactSum (snd <$> out) = Some x /\
    Binary64.exactSum amounts = Some y /\
    ~ (x == y)%Q.
Proof.
  cbv zeta. split; [vm_compute; reflexivity |].
  split; [vm_compute; reflexivity |].
  split; [vm_compute; reflexivity |].
  split; [vm_compute; reflexivity |].
  eexists. eexists. split; [vm_compute; reflexivity |].
  split; [vm_compute; reflexivity |].
  vm_compute. discriminate.
Qed.

(** ** Totals by plant type *)

Lemma typeKey_eq (plantings : list Planting.t)
    (plantTypes : list PlantType.t) (h : Harvest.t) :
  typeKey plantings plantTypes h =
  match plantingOf plantings h with
  | None => None
  | Some planting =>
      match plantTypeOf plantTypes (Planting.plantTypeId planting) with
      | Some pt =>
          if String.eqb (PlantType.name pt) "" then Some "Unknown"
          else Some (PlantType.name pt)
      | None => Some "Unknown"
      end
  end.
Proof. reflexivity. Qed.

Lemma typeKey_is_Some (plantings : list Planting.t)
    (plantTypes : list PlantType.t) (h : Harvest.t) :
  is_Some (typeKey plantings plantTypes h) <->
  is_Some (plantingOf plantings h).
Proof.
  rewrite typeKey_eq.
  destruct (plantingOf plantings h) as [p |].
  - split; [eauto |]. intros _.
    destruct (plantTypeOf plantTypes (Planting.plantTypeId p)) as [pt |];
      [destruct (String.eqb (PlantType.name pt) "") |]; eauto.
  - split; intros [x Hx]; discriminate.
Qed.

Lemma totalsByPlantType_unfold (plantings : list Planting.t)
    (plantTypes : list PlantType.t) (subset : list Harvest.t) :
  totalsByPlantType plantings plantTypes subset =
  (fun e => TypeTotal.mk (fst e) (snd e))
    <$> sortBy (fun a b => (snd b - snd a)%js)
          (accumulate (typeKey plantings plantTypes) Harvest.amount []
             subset).
Proof. reflexivity. Qed.






(** ** Dangling references *)

(** C6, at the plant type identifier [constructor], which no entry of the
    catalogue has: the derived map finds the function [Object] that every
    object inherits under that name, so that [phaseFor] does not return
    [null] but goes on with day counts that are [undefined] and throws a
    [RangeError] at the first projected date, and [totalsByPlantType]
    counts the harvest of the planting under the name of the function, not
    under Unknown. *)
Theorem dangling_constructor :
  let planting := Sample.planting "p1" "constructor" "2024-01-01" in
  let h := Sample.harvest "h1" "p1" "2024-03-05" (lit 2) in
  plantTypeById [Sample.kumara] !! Planting.plantTypeId planting = None /\
  UTC.phaseFor [Sample.kumara] "2024-01-16" planting = Throw RangeError /\
  totalsByPlantType [planting] [Sample.kumara] [h] =
    [TypeTotal.mk "Object" (lit 2)].
Proof. cbv zeta. repeat split; vm_compute; reflexivity. Qed.

(** * Further properties *)

(** ** The phase estimator: how the three bars follow one another *)

Lemma clamp_gt_0 (v : number) :
  Num.gt (clamp v (lit 0) (lit 100)) (lit 0) = true ->
  Num.gt v (lit 0) = true.
Proof.
  destruct v as [q | | |]; try (vm_compute; congruence).
  destruct (Qlt_le_dec 0 q) as [Hq | Hq].
  - intros _. cbn. qsolve.
  - rewrite (clamp_bottom q Hq). cbn. discriminate.
Qed.

Lemma clamp_100_iff (q : Q) :
  clamp (Fin q) (lit 0) (lit 100) = lit 100 <-> (100 <= q)%Q.
Proof.
  split; [| apply clamp_top].
  unfold clamp, lit. cbn.
  destruct (Num.Qltb (inject_Z 0) q) eqn:E0; cbn.
  - destruct (Num.Qltb q (inject_Z 100)) eqn:E1.
    + intros [= ->]. qsolve.
    + intros _. qsolve.
  - intros [=].
Qed.

(** A length that is not negative: [NaN], [Infinity] or finite from zero
    up. *)
Lemma not_negative_cases (g : number) :
  Num.lt g (lit 0) = false ->
  g = NaN \/ g = Infinity \/ exists b, g = Fin b /\ (0 <= b)%Q.
Proof.
  destruct g as [b | | |]; cbn; intros H; try discriminate; auto.
  right. right. exists b. split; [reflexivity | qsolve].
Qed.

Lemma max_1_not_negative (x : number) :
  Num.lt (Num.max (lit 1) x) (lit 0) = false.
Proof.
  destruct (max_lit_cases 1 x) as [-> | [-> | (b & -> & Hb)]];
    try reflexivity.
  cbn. unfold inject_Z in *. qsolve.
Qed.

Lemma sub_gt_0 (x y : number) :
  Num.gt (x - y)%js (lit 0) = true -> Num.gt x y = true.
Proof.
  destruct x, y; cbn; try congruence. intros H. qsolve.
Qed.

Lemma gt_max_1 (x y : number) :
  Num.gt x (Num.max (lit 1) y) = true -> Num.gt x (lit 0) = true.
Proof.
  destruct (max_lit_cases 1 y) as [-> | [-> | (b & -> & Hb)]];
    destruct x; cbn; try congruence.
  intros H. unfold inject_Z in *. qsolve.
Qed.

Lemma pct_Fin (x b : Q) :
  (0 < b)%Q -> ((Fin x / Fin b) * lit 100)%js = Fin (x / b * inject_Z 100).
Proof. intros Hb. rewrite div_Fin by lra. reflexivity. Qed.

Lemma pct_pos (x b : Q) :
  (0 < b)%Q -> (0 < x / b * inject_Z 100)%Q <-> (0 < x)%Q.
Proof.
  intros Hb. unfold inject_Z. split; intros H.
  - destruct (Qlt_le_dec 0 x) as [Hx | Hx]; [exact Hx |].
    assert (x / b <= 0)%Q by (apply Qle_shift_div_r; lra). lra.
  - assert (0 < x / b)%Q by (apply Qlt_shift_div_l; lra). lra.
Qed.

Lemma pct_full (x b : Q) :
  (0 < b)%Q -> (100 <= x / b * inject_Z 100)%Q <-> (b <= x)%Q.
Proof.
  intros Hb. unfold inject_Z. split; intros H.
  - destruct (Qlt_le_dec x b) as [Hx | Hx]; [| exact Hx].
    assert (x / b < 1)%Q by (apply Qlt_shift_div_r; lra). lra.
  - assert (1 <= x / b)%Q by (apply Qle_shift_div_l; lra). lra.
Qed.

(** A bar that has started has a positive part. *)
Lemma percent_gt_0 (x g : number) :
  Num.lt g (lit 0) = false ->
  Num.gt (percent x g) (lit 0) = true -> Num.gt x (lit 0) = true.
Proof.
  intros Hg H. apply clamp_gt_0 in H.
  destruct (not_negative_cases g Hg) as [-> | [-> | (b & -> & Hb)]].
  - destruct x; discriminate.
  - destruct x; discriminate.
  - destruct x as [e | | |]; try reflexivity; try discriminate.
    + destruct (Qeq_bool b 0) eqn:Eb.
      * cbn in H. rewrite Eb in H. cbn.
        destruct (Num.Qltb 0 e) eqn:E1; [qsolve |].
        destruct (Num.Qltb e 0); discriminate.
      * qtests. rewrite pct_Fin in H by lra. cbn in H |- *.
        qtests. apply (pct_pos e b); [lra |]. unfold inject_Z in *. lra.
    + cbn in H. destruct (Num.Qltb b 0) eqn:E1; [qsolve |].
      cbn in H. discriminate.
Qed.

(** Past the length of its phase a bar is full. *)
Lemma percent_past (x g : number) :
  Num.lt g (lit 0) = false ->
  Num.gt x g = true -> percent x g = lit 100.
Proof.
  intros Hg H.
  destruct (not_negative_cases g Hg) as [-> | [-> | (b & -> & Hb)]].
  - destruct x; discriminate.
  - destruct x; discriminate.
  - destruct x as [e | | |]; try discriminate.
    + cbn in H. qtests. unfold percent.
      destruct (Qeq_bool b 0) eqn:Eb.
      * cbn. rewrite Eb.
        assert (E : Num.Qltb 0 e = true) by qsolve.
        rewrite E. reflexivity.
      * qtests. rewrite pct_Fin by lra. apply clamp_top, pct_full; lra.
    + unfold percent. cbn.
      assert (E : Num.Qltb b 0 = false) by qsolve.
      rewrite E. reflexivity.
Qed.

(** A bar of positive length is full exactly from the length of its phase
    on. *)
Lemma percent_full_iff (x : number) (b : Q) :
  (0 < b)%Q -> percent x (Fin b) = lit 100 <-> Num.le (Fin b) x = true.
Proof.
  intros Hb. unfold percent.
  destruct x as [e | | |].
  - rewrite pct_Fin by lra. rewrite clamp_100_iff, pct_full by lra.
    cbn. symmetry. apply Qle_bool_iff.
  - cbn. assert (E : Num.Qltb b 0 = false) by qsolve. rewrite E.
    split; reflexivity.
  - cbn. assert (E : Num.Qltb b 0 = false) by qsolve. rewrite E.
    split; discriminate.
  - split; discriminate.
Qed.

(** A bar of positive length does not go back when its part grows. *)
Lemma percent_mono (x1 x2 : number) (b : Q) :
  (0 < b)%Q -> Num.le x1 x2 = true ->
  Num.le (percent x1 (Fin b)) (percent x2 (Fin b)) = true.
Proof.
  intros Hb H. unfold percent.
  assert (Hb0 : Num.Qltb b 0 = false) by qsolve.
  destruct x1 as [e1 | | |], x2 as [e2 | | |]; try discriminate;
    rewrite ?pct_Fin by lra; cbn [Num.div Num.mul Num.neg];
    rewrite ?Hb0; cbn [Num.neg].
  - cbn in H. qtests.
    assert (He : (e1 / b * inject_Z 100 <= e2 / b * inject_Z 100)%Q).
    { unfold inject_Z, Qdiv.
      assert (0 < / b)%Q by (apply Qinv_lt_0_compat; lra). nra. }
    destruct (clamp_between (Fin (e2 / b * inject_Z 100))) as [L2 U2];
      [discriminate |].
    destruct (Qlt_le_dec (e1 / b * inject_Z 100) 0) as [A | A].
    { rewrite (clamp_bottom (e1 / b * inject_Z 100)) by lra. exact L2. }
    destruct (Qlt_le_dec (e2 / b * inject_Z 100) 100) as [B | B].
    2: { rewrite (clamp_top (e2 / b * inject_Z 100)) by lra.
         apply (clamp_between (Fin (e1 / b * inject_Z 100))). discriminate. }
    unfold clamp, lit. cbn.
    assert (C1 : Num.Qltb (e1 / b * inject_Z 100) (inject_Z 100) = true)
      by (qtests; unfold inject_Z in *; lra).
    assert (C2 : Num.Qltb (e2 / b * inject_Z 100) (inject_Z 100) = true)
      by (qtests; unfold inject_Z in *; lra).
    destruct (Num.Qltb (inject_Z 0) (e1 / b * inject_Z 100)) eqn:D1,
             (Num.Qltb (inject_Z 0) (e2 / b * inject_Z 100)) eqn:D2;
      cbn; rewrite ?C1, ?C2; cbn; qtests; unfold inject_Z in *; try lra.
    all: replace (Num.Qltb 0 100) with true by reflexivity;
      cbn [Num.le]; qtests; lra.
  - apply (clamp_between (Fin (e1 / b * inject_Z 100))). discriminate.
  - reflexivity.
  - apply (clamp_between (Fin (e2 / b * inject_Z 100))). discriminate.
  - reflexivity.
  - reflexivity.
Qed.

Lemma wholeDays_finite (pt : PlantType.t) :
  wholeDays pt ->
  Num.finite (PlantType.maturityDays pt) /\
  Num.finite (PlantType.harvestWindowDays pt).
Proof.
  intros (_ & _ & [Hm _] & [Hw _]).
  split; apply whole_finite; assumption.
Qed.

Lemma wholeDays_kumara : wholeDays Sample.kumara.
Proof.
  repeat split; try (vm_compute; reflexivity);
    [exists 10%Z | exists 20%Z | exists 140%Z | exists 21%Z];
    (split; [lia | reflexivity]).
Qed.

Lemma gt_0_not_negative (g : number) :
  Num.gt g (lit 0) = true -> Num.lt g (lit 0) = false.
Proof.
  destruct g as [b | | |]; cbn; try congruence. intros H. qsolve.
Qed.

Section PhaseOrder.

Variable Date_parse : string -> number.
Variable Date_plusDays : number -> number -> number.
Variable Date_toISOString : number -> completion string.

Local Abbreviation phaseFor' :=
  (phaseFor Date_parse Date_plusDays Date_toISOString).
Local Abbreviation expectedFor' :=
  (expectedFor Date_parse Date_plusDays Date_toISOString).
Local Abbreviation elapsedDays' := (elapsedDays Date_parse).

(** A snapshot [phaseFor] returns is the one of the plant type the id
    resolves to. *)
Lemma phaseFor_inv plantTypes today planting ph :
  phaseFor' plantTypes today planting = Normal (Some ph) ->
  exists pt e,
    plantTypeOf plantTypes (Planting.plantTypeId planting) = Some pt /\
    expectedFor' planting pt = Normal e /\
    Phase.germinationPct ph =
      percent (elapsedDays' today planting) (germinationLen pt) /\
    Phase.growthPct ph =
      percent (elapsedDays' today planting - germinationLen pt)
        (growthLen pt) /\
    Phase.harvestPct ph =
      percent (elapsedDays' today planting - germinationLen pt
               - growthLen pt) (harvestLen pt) /\
    Phase.expected ph = e /\
    Phase.done ph = Num.gt (elapsedDays' today planting) (totalLen pt) /\
    Phase.elapsed ph = elapsedDays' today planting /\
    Phase.total ph = totalLen pt.
Proof.
  intros H. unfold phaseFor in H.
  destruct (plantTypeOf plantTypes (Planting.plantTypeId planting))
    as [pt |] eqn:Hpt; [| discriminate].
  cbv zeta in H.
  destruct (expectedFor' planting pt) as [e | x] eqn:He; [| discriminate].
  exists pt, e. split; [reflexivity |]. split; [exact He |].
  cbn [bind] in H.
  apply (f_equal (fun c => match c with
                           | Normal (Some p) => p
                           | _ => ph
                           end)) in H.
  rewrite <- H.
  cbn [Phase.germinationPct Phase.growthPct Phase.harvestPct Phase.expected
       Phase.done Phase.elapsed Phase.total].
  unfold percent, totalLen. repeat split.
Qed.

(** X1. The three bars fill one after the other: for a plant type whose
    germination length is above zero, a snapshot whose growth bar has
    started has a full germination bar, and one whose harvest bar has started
    has full germination and growth bars. *)
Theorem phaseFor_bars_in_turn plantTypes today planting pt ph :
  plantTypeById plantTypes !! Planting.plantTypeId planting = Some pt ->
  phaseFor' plantTypes today planting = Normal (Some ph) ->
  Num.gt (germinationLen pt) (lit 0) = true ->
  (Num.gt (Phase.growthPct ph) (lit 0) = true ->
   Phase.germinationPct ph = lit 100) /\
  (Num.gt (Phase.harvestPct ph) (lit 0) = true ->
   Phase.growthPct ph = lit 100 /\ Phase.germinationPct ph = lit 100).
Proof.
  intros Hpt Hph Hg. apply gt_0_not_negative in Hg.
  destruct (phaseFor_inv _ _ _ _ Hph)
    as (pt' & e & Hpt' & _ & -> & -> & -> & _).
  apply plantTypeOf_own in Hpt.
  assert (pt' = pt) as -> by congruence.
  split.
  - intros H. apply percent_past; [exact Hg |]. apply sub_gt_0.
    apply (percent_gt_0 _ (growthLen pt)); [apply max_1_not_negative | exact H].
  - intros H.
    apply percent_gt_0 in H; [| apply max_1_not_negative].
    apply sub_gt_0 in H. split.
    + apply percent_past; [apply max_1_not_negative | exact H].
    + apply percent_past; [exact Hg |]. apply sub_gt_0.
      exact (gt_max_1 _ _ H).
Qed.


Lemma le_Qeq (b b' : Q) (x : number) :
  (b == b')%Q -> Num.le (Fin b) x = Num.le (Fin b') x.
Proof.
  intros Hb. destruct x as [e | | |]; try reflexivity. cbn.
  apply eq_iff_eq_true. rewrite !Qle_bool_iff. split; lra.
Qed.

Lemma gt_Qeq (b b' : Q) (x : number) :
  (b == b')%Q -> Num.gt x (Fin b) = Num.gt x (Fin b').
Proof.
  intros Hb. destruct x as [e | | |]; try reflexivity. cbn.
  unfold Num.Qltb. f_equal.
  apply eq_iff_eq_true. rewrite !Qle_bool_iff. split; lra.
Qed.

Lemma le_sub_Fin (c a : Q) (x : number) :
  Num.le (Fin c) (x - Fin a)%js = Num.le (Fin (a + c)) x.
Proof.
  destruct x as [e | | |]; try reflexivity. cbn.
  apply eq_iff_eq_true. rewrite !Qle_bool_iff. split; lra.
Qed.

Lemma sub_le_mono (a : Q) (x y : number) :
  Num.le x y = true -> Num.le (x - Fin a)%js (y - Fin a)%js = true.
Proof.
  destruct x, y; cbn; try congruence.
  rewrite !Qle_bool_iff. lra.
Qed.

Lemma gt_le_trans (x y b : number) :
  Num.gt x b = true -> Num.le x y = true -> Num.gt y b = true.
Proof.
  destruct x, y, b; cbn; try congruence.
  intros H1 H2. qtests. lra.
Qed.

(** The growth length of a finite plant type is finite and at least one day,
    and it is [maturityDays - g1] when that is a day or more. *)
Lemma growthLen_Fin (pt : PlantType.t) (a m : Q) :
  germinationLen pt = Fin a -> PlantType.maturityDays pt = Fin m ->
  exists b, growthLen pt = Fin b /\ (1 <= b)%Q /\
            ((1 <= m - a)%Q -> (b == m - a)%Q).
Proof.
  intros Ha Hm. unfold growthLen. rewrite Ha, Hm. cbn.
  destruct (Num.Qltb (inject_Z 1) (m + - a)) eqn:E; qtests;
    unfold inject_Z in *.
  - exists (m + - a)%Q. split; [reflexivity |]. split; [lra |]. intros _. lra.
  - exists (1 # 1)%Q. split; [reflexivity |]. split; [lra |].
    intros H. lra.
Qed.

Lemma harvestLen_Fin (pt : PlantType.t) :
  Num.finite (PlantType.harvestWindowDays pt) ->
  exists c, harvestLen pt = Fin c /\ (1 <= c)%Q.
Proof.
  unfold harvestLen.
  destruct (PlantType.harvestWindowDays pt) as [w | | |]; try contradiction.
  intros _. cbn.
  destruct (Num.Qltb (inject_Z 1) w) eqn:E; qtests; unfold inject_Z in *.
  - exists w. split; [reflexivity | lra].
  - exists (1 # 1)%Q. split; [reflexivity | lra].
Qed.

(** X2. When each bar is full: for a plant type in whole days, as the
    catalogue form and the data model have them, with a positive
    germination length and a maturity that is a day or more after
    germination, the germination bar is full exactly from the germination
    length on, the growth bar exactly from [maturityDays] on, the harvest
    bar exactly from [maturityDays] plus the harvest length on, and the
    planting is done exactly when more days than that have elapsed. *)
Theorem phaseFor_full_at_milestones plantTypes today planting pt ph :
  plantTypeById plantTypes !! Planting.plantTypeId planting = Some pt ->
  phaseFor' plantTypes today planting = Normal (Some ph) ->
  wholeDays pt ->
  positive (germinationLen pt) ->
  Num.le (lit 1) (PlantType.maturityDays pt - germinationLen pt)%js = true ->
  (Phase.germinationPct ph = lit 100 <->
   Num.le (germinationLen pt) (Phase.elapsed ph) = true) /\
  (Phase.growthPct ph = lit 100 <->
   Num.le (PlantType.maturityDays pt) (Phase.elapsed ph) = true) /\
  (Phase.harvestPct ph = lit 100 <->
   Num.le (PlantType.maturityDays pt + harvestLen pt)%js (Phase.elapsed ph)
   = true) /\
  (Phase.done ph = true <->
   Num.gt (Phase.elapsed ph) (PlantType.maturityDays pt + harvestLen pt)%js
   = true).
Proof.
  intros Hpt Hph Hdays Hg Hguard.
  destruct (wholeDays_finite pt Hdays) as (Hm & Hw).
  destruct (phaseFor_inv _ _ _ _ Hph)
    as (pt' & e & Hpt' & _ & -> & -> & -> & _ & -> & -> & _).
  apply plantTypeOf_own in Hpt.
  assert (pt' = pt) as -> by congruence.
  unfold totalLen.
  generalize (elapsedDays' today planting). intros el.
  destruct (harvestLen_Fin pt Hw) as (c & Hc & Hc1).
  destruct (germinationLen pt) as [a | | |] eqn:Ha; try contradiction.
  destruct (PlantType.maturityDays pt) as [m | | |] eqn:Hmd;
    try contradiction.
  destruct (growthLen_Fin pt a m Ha Hmd) as (b & Hb & Hb1 & Hbm).
  cbn in Hg, Hguard. apply Qle_bool_iff in Hguard.
  unfold inject_Z in Hguard.
  assert (Hbm' : (b == m - a)%Q) by (apply Hbm; lra).
  rewrite Hb, Hc.
  split; [apply percent_full_iff; exact Hg |].
  split; [| split].
  - rewrite percent_full_iff by lra. rewrite le_sub_Fin.
    rewrite (le_Qeq (a + b) m) by lra. reflexivity.
  - rewrite percent_full_iff by lra. rewrite !le_sub_Fin.
    cbn [Num.add]. rewrite (le_Qeq (a + (b + c)) (m + c)) by lra.
    reflexivity.
  - cbn [Num.add]. rewrite (gt_Qeq (a + b + c) (m + c)) by lra.
    reflexivity.
Qed.

(** The count of elapsed days grows with the day it is taken on. *)
Lemma elapsedDays_mono today1 today2 planting :
  Num.finite (Date_parse (Planting.plantedAt planting)) ->
  Num.le (Date_parse today1) (Date_parse today2) = true ->
  Num.le (elapsedDays' today1 planting) (elapsedDays' today2 planting) = true.
Proof.
  unfold elapsedDays, daysBetween.
  destruct (Date_parse (Planting.plantedAt planting)) as [p | | |];
    try contradiction.
  intros _.
  destruct (Date_parse today1) as [t1 | | |],
           (Date_parse today2) as [t2 | | |]; try discriminate;
    try (intros _; vm_compute; congruence).
  - cbn [Num.le]. intros H. apply Qle_bool_iff in H.
    cbn [Num.sub Num.add Num.neg]. unfold lit. rewrite !div_Fin by (vm_compute; congruence).
    cbn [Num.floor].
    assert (Hz : (Qfloor ((t1 + - p) / inject_Z (24 * 3600 * 1000)) <=
                  Qfloor ((t2 + - p) / inject_Z (24 * 3600 * 1000)))%Z).
    { apply Qfloor_resp_le. apply Qmult_le_compat_r; [lra |].
      vm_compute. congruence. }
    revert Hz.
    generalize (Qfloor ((t1 + - p) / inject_Z (24 * 3600 * 1000))),
               (Qfloor ((t2 + - p) / inject_Z (24 * 3600 * 1000))).
    intros z1 z2 Hz. cbn.
    destruct (Num.Qltb (inject_Z 0) (inject_Z z1)) eqn:E1,
             (Num.Qltb (inject_Z 0) (inject_Z z2)) eqn:E2;
      cbn; apply Qle_bool_iff; qtests;
      rewrite <- ?Zle_Qle, <- ?Zlt_Qlt in *; try lia; try lra.
  - intros _. cbn [Num.sub Num.add Num.neg]. unfold lit.
    rewrite div_Fin by (vm_compute; congruence). cbn [Num.floor].
    generalize (Qfloor ((t1 + - p) / inject_Z (24 * 3600 * 1000))).
    intros z. destruct z; vm_compute; reflexivity.
  - intros _. cbn [Num.sub Num.add Num.neg]. unfold lit.
    rewrite div_Fin by (vm_compute; congruence). cbn [Num.floor].
    generalize (Qfloor ((t2 + - p) / inject_Z (24 * 3600 * 1000))).
    intros z. destruct z; vm_compute; reflexivity.
Qed.

(** X3. The bars never go back: of two snapshots of the same planting (its
    planting date valid, its plant type of positive germination length and
    finite maturity and harvest window), taken on a day and on a later one,
    the later one has each bar at least as full, and is done if the earlier
    one is. *)
Theorem phaseFor_monotone plantTypes today1 today2 planting pt ph1 ph2 :
  plantTypeById plantTypes !! Planting.plantTypeId planting = Some pt ->
  phaseFor' plantTypes today1 planting = Normal (Some ph1) ->
  phaseFor' plantTypes today2 planting = Normal (Some ph2) ->
  positive (germinationLen pt) ->
  Num.finite (PlantType.maturityDays pt) ->
  Num.finite (PlantType.harvestWindowDays pt) ->
  Num.finite (Date_parse (Planting.plantedAt planting)) ->
  Num.le (Date_parse today1) (Date_parse today2) = true ->
  Num.le (Phase.germinationPct ph1) (Phase.germinationPct ph2) = true /\
  Num.le (Phase.growthPct ph1) (Phase.growthPct ph2) = true /\
  Num.le (Phase.harvestPct ph1) (Phase.harvestPct ph2) = true /\
  (Phase.done ph1 = true -> Phase.done ph2 = true).
Proof.
  intros Hpt Hph1 Hph2 Hg Hm Hw Hp Hdays.
  pose proof (elapsedDays_mono today1 today2 planting Hp Hdays) as Hel.
  revert Hel.
  destruct (phaseFor_inv _ _ _ _ Hph1)
    as (pt1 & e1 & Hpt1 & _ & -> & -> & -> & _ & -> & _).
  destruct (phaseFor_inv _ _ _ _ Hph2)
    as (pt2 & e2 & Hpt2 & _ & -> & -> & -> & _ & -> & _).
  apply plantTypeOf_own in Hpt.
  assert (pt1 = pt) as -> by congruence.
  assert (pt2 = pt) as -> by congruence.
  unfold totalLen.
  generalize (elapsedDays' today1 planting) (elapsedDays' today2 planting).
  intros el1 el2 Hel.
  destruct (harvestLen_Fin pt Hw) as (c & Hc & Hc1).
  destruct (germinationLen pt) as [a | | |] eqn:Ha; try contradiction.
  destruct (PlantType.maturityDays pt) as [m | | |] eqn:Hmd;
    try contradiction.
  destruct (growthLen_Fin pt a m Ha Hmd) as (b & Hb & Hb1 & _).
  cbn in Hg. rewrite Hb, Hc.
  split; [apply percent_mono; [exact Hg | exact Hel] |].
  split; [apply percent_mono; [lra | apply sub_le_mono, Hel] |].
  split; [apply percent_mono; [lra | apply sub_le_mono, sub_le_mono, Hel] |].
  intros H. exact (gt_le_trans _ _ _ H Hel).
Qed.

(** X4. Before its planting day a planting shows nothing: with valid dates,
    today not after the planting day, and a plant type of positive
    germination length and finite maturity and harvest window, the snapshot
    counts zero elapsed days, has all three bars at zero and is not done. *)
Theorem phaseFor_not_yet_planted plantTypes today planting pt e :
  plantTypeById plantTypes !! Planting.plantTypeId planting = Some pt ->
  expectedFor' planting pt = Normal e ->
  Num.finite (Date_parse today) ->
  Num.finite (Date_parse (Planting.plantedAt planting)) ->
  Num.le (Date_parse today) (Date_parse (Planting.plantedAt planting)) = true ->
  positive (germinationLen pt) ->
  Num.finite (PlantType.maturityDays pt) ->
  Num.finite (PlantType.harvestWindowDays pt) ->
  exists ph,
    phaseFor' plantTypes today planting = Normal (Some ph) /\
    Phase.elapsed ph = lit 0 /\
    Phase.germinationPct ph = lit 0 /\
    Phase.growthPct ph = lit 0 /\
    Phase.harvestPct ph = lit 0 /\
    Phase.done ph = false.
Proof.
  intros Hpt He Ht Hp Hle Hg Hm Hw.
  assert (Hel : elapsedDays' today planting = lit 0).
  { unfold elapsedDays, daysBetween.
    destruct (Date_parse today) as [t | | |]; try contradiction.
    destruct (Date_parse (Planting.plantedAt planting)) as [p | | |];
      try contradiction.
    cbn [Num.le] in Hle. apply Qle_bool_iff in Hle.
    cbn [Num.sub Num.add Num.neg]. unfold lit.
    rewrite div_Fin by (vm_compute; congruence). cbn [Num.floor].
    assert (Hz : (Qfloor ((t + - p) / inject_Z (24 * 3600 * 1000)) <= 0)%Z).
    { change 0%Z with (Qfloor 0). apply Qfloor_resp_le.
      apply Qle_shift_div_r; [reflexivity | lra]. }
    revert Hz.
    generalize (Qfloor ((t + - p) / inject_Z (24 * 3600 * 1000))).
    intros z Hz. cbn.
    destruct (Num.Qltb (inject_Z 0) (inject_Z z)) eqn:E; [| reflexivity].
    qtests. rewrite <- Zlt_Qlt in E. lia. }
  destruct (harvestLen_Fin pt Hw) as (c & Hc & Hc1).
  destruct (germinationLen pt) as [a | | |] eqn:Ha; try contradiction.
  destruct (PlantType.maturityDays pt) as [m | | |] eqn:Hmd;
    try contradiction.
  destruct (growthLen_Fin pt a m Ha Hmd) as (b & Hb & Hb1 & _).
  destruct (phaseFor_planted_today Date_parse Date_plusDays Date_toISOString
              plantTypes today planting pt e Hpt He Hel)
    as (ph & Hph & H1 & H2 & H3 & H4).
  - rewrite Ha. exact Hg.
  - rewrite Hb. cbn. lra.
  - rewrite Hc. cbn. lra.
  - exists ph. split; [exact Hph |]. split; [| auto].
    destruct (phaseFor_inv _ _ _ _ Hph)
      as (pt' & e' & _ & _ & _ & _ & _ & _ & _ & -> & _).
    exact Hel.
Qed.

End PhaseOrder.

Lemma phaseFor_bars_in_turn_witness :
  exists ph,
    UTC.phaseFor [Sample.kumara] "2024-01-31"
      (Sample.planting "p1" "pt-kumara" "2024-01-01") = Normal (Some ph) /\
    Num.gt (Phase.growthPct ph) (lit 0) = true /\
    Phase.germinationPct ph = lit 100.
Proof.
  eexists. split; [vm_compute; reflexivity |].
  split; [vm_compute; reflexivity |].
  refine (proj1 (phaseFor_bars_in_turn
                   UTC.Date_parse UTC.Date_plusDays UTC.Date_toISOString
                   [Sample.kumara] "2024-01-31"
                   (Sample.planting "p1" "pt-kumara" "2024-01-01")
                   Sample.kumara _ _ _ _) _);
    vm_compute; reflexivity.
Defined.

Lemma phaseFor_full_at_milestones_witness :
  exists ph,
    UTC.phaseFor [Sample.kumara] "2024-05-20"
      (Sample.planting "p1" "pt-kumara" "2024-01-01") = Normal (Some ph) /\
    Phase.elapsed ph = lit 140 /\
    Phase.growthPct ph = lit 100 /\
    Phase.done ph = false.
Proof.
  eexists. split; [vm_compute; reflexivity |].
  split; [vm_compute; reflexivity |].
  match goal with
  | |- Phase.growthPct ?ph = _ /\ _ =>
      destruct (phaseFor_full_at_milestones
                  UTC.Date_parse UTC.Date_plusDays UTC.Date_toISOString
                  [Sample.kumara] "2024-05-20"
                  (Sample.planting "p1" "pt-kumara" "2024-01-01")
                  Sample.kumara ph)
        as (_ & Hgrowth & _ & _)
  end.
  - vm_compute. reflexivity.
  - vm_compute. reflexivity.
  - exact wholeDays_kumara.
  - vm_compute. reflexivity.
  - vm_compute. reflexivity.
  - split; [| vm_compute; reflexivity].
    apply Hgrowth. vm_compute. reflexivity.
Defined.

Lemma phaseFor_monotone_witness :
  exists ph1 ph2,
    UTC.phaseFor [Sample.kumara] "2024-01-16"
      (Sample.planting "p1" "pt-kumara" "2024-01-01") = Normal (Some ph1) /\
    UTC.phaseFor [Sample.kumara] "2024-01-31"
      (Sample.planting "p1" "pt-kumara" "2024-01-01") = Normal (Some ph2) /\
    Num.le (Phase.growthPct ph1) (Phase.growthPct ph2) = true.
Proof.
  eexists. eexists. split; [vm_compute; reflexivity |].
  split; [vm_compute; reflexivity |].
  match goal with
  | |- Num.le (Phase.growthPct ?ph1) (Phase.growthPct ?ph2) = true =>
      destruct (phaseFor_monotone
                  UTC.Date_parse UTC.Date_plusDays UTC.Date_toISOString
                  [Sample.kumara] "2024-01-16" "2024-01-31"
                  (Sample.planting "p1" "pt-kumara" "2024-01-01")
                  Sample.kumara ph1 ph2)
        as (_ & Hgrowth & _ & _)
  end.
  - vm_compute. reflexivity.
  - vm_compute. reflexivity.
  - vm_compute. reflexivity.
  - vm_compute. reflexivity.
  - exact I.
  - exact I.
  - exact I.
  - vm_compute. reflexivity.
  - exact Hgrowth.
Defined.

Lemma phaseFor_not_yet_planted_witness :
  exists ph,
    UTC.phaseFor [Sample.kumara] "2023-12-25"
      (Sample.planting "p1" "pt-kumara" "2024-01-01") = Normal (Some ph) /\
    Phase.elapsed ph = lit 0 /\
    Phase.germinationPct ph = lit 0 /\
    Phase.growthPct ph = lit 0 /\
    Phase.harvestPct ph = lit 0 /\
    Phase.done ph = false.
Proof.
  apply (phaseFor_not_yet_planted
           UTC.Date_parse UTC.Date_plusDays UTC.Date_toISOString
           [Sample.kumara] "2023-12-25"
           (Sample.planting "p1" "pt-kumara" "2024-01-01") Sample.kumara
           (Expected.mk "2024-01-11" "2024-01-21" "2024-05-20"
                        "2024-06-10")).
  - vm_compute. reflexivity.
  - vm_compute. reflexivity.
  - exact I.
  - exact I.
  - vm_compute. reflexivity.
  - vm_compute. reflexivity.
  - exact I.
  - exact I.
Defined.

(** ** The default catalogue *)

(** X5. On every entry of [DEFAULT_PLANT_TYPES] the estimator is in its
    regular case: the germination length is positive, neither
    [Math.max(1, ...)] guard is active, so the growth length is
    [maturityDays] less the germination length and the harvest length is
    [harvestWindowDays], and the total is [maturityDays] plus
    [harvestWindowDays]. *)
Theorem DEFAULT_PLANT_TYPES_regular (uid : nat -> string) :
  Forall (fun pt =>
            positive (germinationLen pt) /\
            growthLen pt =
              (PlantType.maturityDays pt - germinationLen pt)%js /\
            harvestLen pt = PlantType.harvestWindowDays pt /\
            (totalLen pt ==
             PlantType.maturityDays pt + PlantType.harvestWindowDays pt)%js)
         (DEFAULT_PLANT_TYPES uid).
Proof.
  unfold DEFAULT_PLANT_TYPES.
  repeat (apply Forall_cons; split;
          [split; [vm_compute; reflexivity |];
           split; [vm_compute; reflexivity |];
           split; vm_compute; reflexivity |]).
  apply Forall_nil_2.
Qed.

(** ** The progress bar *)

Lemma min_max_lit (z : Z) :
  exists z', (0 <= z' <= 100)%Z /\
    Num.max (lit 0) (Num.min (lit 100) (lit z)) = lit z'.
Proof.
  unfold lit. cbn.
  destruct (Num.Qltb (inject_Z z) (inject_Z 100)) eqn:E1.
  - cbn. destruct (Num.Qltb (inject_Z 0) (inject_Z z)) eqn:E2.
    + exists z. split; [| reflexivity].
      qtests. rewrite <- Zlt_Qlt in E1, E2. lia.
    + exists 0%Z. split; [lia | reflexivity].
  - exists 100%Z. split; [lia | reflexivity].
Qed.

(** X6. What the progress bar shows.  The label is [NaN] for the value
    [NaN] and a whole number from 0 to 100 for every other value; and the
    width of the bar is the value itself for every value of the form
    [clamp(v, 0, 100)], the form of the three percentages of [phaseFor]. *)
Theorem Progress_shows (value : number) :
  (value = NaN /\ Progress.label value = NaN \/
   exists z, (0 <= z <= 100)%Z /\ Progress.label value = lit z) /\
  Progress.width (clamp value (lit 0) (lit 100)) =
  clamp value (lit 0) (lit 100).
Proof.
  split.
  - unfold Progress.label.
    destruct value as [q | | |].
    + right. apply (min_max_lit (Qfloor (q + (1 # 2)))).
    + right. exists 100%Z. split; [lia | reflexivity].
    + right. exists 0%Z. split; [lia | reflexivity].
    + left. split; reflexivity.
  - unfold Progress.width, clamp.
    destruct value as [q | | |]; try reflexivity.
    unfold lit. cbn.
    destruct (Num.Qltb (inject_Z 0) q) eqn:E0; cbn.
    + destruct (Num.Qltb q (inject_Z 100)) eqn:E1; cbn.
      * rewrite E1. cbn. rewrite E0. reflexivity.
      * reflexivity.
    + reflexivity.
Qed.

(** ** The handlers *)

Lemma AppState_eta (st : AppState) :
  {| plantTypes := plantTypes st;
     plantings := plantings st;
     harvests := harvests st;
     harvestTarget := harvestTarget st;
     harvestInput := harvestInput st |} = st.
Proof. destruct st; reflexivity. Qed.

Lemma filter_fresh {A : Type} (id : A -> string) (fresh : string)
    (l : list A) :
  fresh ∉ id <$> l -> filter (fun x => id x <> fresh) l = l.
Proof.
  induction l as [| x l IH]; [reflexivity |].
  rewrite fmap_cons, not_elem_of_cons. intros [Hx Hl].
  rewrite filter_cons, decide_True by congruence.
  rewrite IH by exact Hl. reflexivity.
Qed.

(** X8. Deleting the planting just added, under its fresh identifier, gives
    back the collections and the harvest dialog as they were before
    [addPlanting]. *)
Theorem addPlanting_deletePlanting (fresh today : string) (ui : FormState) :
  fresh ∉ plantingIds (plantings (app ui)) ->
  deletePlanting fresh (app (addPlanting fresh today ui)) = app ui.
Proof.
  intros Hfresh. unfold addPlanting, deletePlanting, setPlantings.
  destruct (_ || _);
    cbn [app plantings plantTypes harvests harvestTarget harvestInput].
  - rewrite (filter_fresh Planting.id) by exact Hfresh. apply AppState_eta.
  - rewrite filter_cons, decide_False by (cbn; tauto).
    rewrite (filter_fresh Planting.id) by exact Hfresh. apply AppState_eta.
Qed.

Section Unchecked.

Variable Date_parse : string -> number.
Variable Date_plusDays : number -> number -> number.
Variable Date_toISOString : number -> completion string.

(** X9. [addPlanting] does not look the plant type up: when the form holds
    an identifier under which the derived map has nothing (the identifier
    of no entry of the catalogue, as the form set up for one catalogue
    holds once another catalogue is in place, and no name that every
    object inherits), the planting is added all the same, and it has no
    snapshot and its card says Unknown. *)
Theorem addPlanting_unchecked (fresh today : string) (ui : FormState) :
  let form := newPlanting ui in
  let ui' := addPlanting fresh today ui in
  NewPlanting.plantTypeId form <> "" ->
  NewPlanting.plantedAt form <> "" ->
  NewPlanting.plantTypeId form ∉ plantTypeIds (plantTypes (app ui)) ->
  inherited (NewPlanting.plantTypeId form) = None ->
  exists planting,
    plantings (app ui') = planting :: plantings (app ui) /\
    Planting.plantTypeId planting = NewPlanting.plantTypeId form /\
    phaseFor Date_parse Date_plusDays Date_toISOString
      (plantTypes (app ui')) today planting = Normal None /\
    cardName (plantTypes (app ui')) planting = "Unknown".
Proof.
  cbv zeta. intros H1 H2 Hout Hinh.
  apply String.eqb_neq in H1, H2.
  exists (plantingOfForm fresh (newPlanting ui)).
  unfold addPlanting. rewrite H1, H2.
  cbn [orb app setPlantings plantings plantTypes].
  split; [reflexivity |]. split; [reflexivity |].
  assert (Hnone : plantTypeOf (plantTypes (app ui))
                    (NewPlanting.plantTypeId (newPlanting ui)) = None).
  { apply plantTypeOf_None. split; [| exact Hinh].
    apply plantTypeById_None, Forall_forall. intros pt Hpt Hid.
    apply Hout. unfold plantTypeIds. apply list_elem_of_fmap.
    exists pt. auto. }
  unfold phaseFor, cardName.
  cbn [Planting.plantTypeId plantingOfForm]. rewrite Hnone. auto.
Qed.

End Unchecked.

(** X10. [logHarvest] logs once: a second call straight after the first
    changes nothing, and a call straight after [openHarvest], the amount
    still at 0, changes nothing and leaves the dialog open.  [openHarvest]
    starts the form afresh: opening the dialog again, on any planting, drops
    what the form held. *)
Theorem logHarvest_once (fresh fresh' today today' : string)
    (planting planting' : Planting.t) (st : AppState) :
  logHarvest fresh' (logHarvest fresh st) = logHarvest fresh st /\
  logHarvest fresh (openHarvest today planting st) =
  openHarvest today planting st /\
  openHarvest today planting (openHarvest today' planting' st) =
  openHarvest today planting st.
Proof.
  split; [| split; reflexivity].
  unfold logHarvest at 2 3.
  destruct (harvestTarget st) as [target |] eqn:Ht.
  - destruct (negb (Num.truthy (HarvestInput.amount (harvestInput st)))
              || Num.le (HarvestInput.amount (harvestInput st)) Num.zero)
      eqn:Ha.
    + unfold logHarvest. rewrite Ht, Ha. reflexivity.
    + reflexivity.
  - unfold logHarvest. rewrite Ht. reflexivity.
Qed.

(** X11. Deleting the harvest just logged, under its fresh identifier, gives
    back the harvests as they were before [logHarvest]; the catalogue and
    the plantings were never touched. *)
Theorem logHarvest_deleteHarvest (fresh : string) (st : AppState) :
  fresh ∉ harvestIds (harvests st) ->
  let st' := deleteHarvest fresh (logHarvest fresh st) in
  harvests st' = harvests st /\
  plantings st' = plantings st /\
  plantTypes st' = plantTypes st.
Proof.
  intros Hfresh. cbv zeta. unfold logHarvest, deleteHarvest, setHarvests.
  destruct (harvestTarget st) as [target |];
    [destruct (_ || _) |];
    cbn [plantings plantTypes harvests harvestTarget harvestInput].
  - rewrite (filter_fresh Harvest.id) by exact Hfresh. auto.
  - rewrite filter_cons, decide_False by (cbn; tauto).
    rewrite (filter_fresh Harvest.id) by exact Hfresh. auto.
  - rewrite (filter_fresh Harvest.id) by exact Hfresh. auto.
Qed.

(** ** Deleting and archiving a planting, and the reports *)


Lemma plantingOf_fmap (g : Planting.t -> Planting.t) (l : list Planting.t)
    (h : Harvest.t) :
  (forall p, Planting.id (g p) = Planting.id p) ->
  plantingOf (g <$> l) h = g <$> plantingOf l h.
Proof.
  intros Hg. unfold plantingOf, findPlanting.
  induction l as [| p l IH]; [reflexivity |].
  rewrite fmap_cons. cbn [List.find]. rewrite Hg.
  destruct (String.eqb (Planting.id p) (Harvest.plantingId h));
    [reflexivity | exact IH].
Qed.

Lemma accumulate_ext {H : Type} (key key' : H -> option string)
    (amount : H -> number) (map : JsMap.t) (subset : list H) :
  Forall (fun h => key h = key' h) subset ->
  accumulate key amount map subset = accumulate key' amount map subset.
Proof.
  unfold accumulate. intros Hk. revert map.
  induction Hk as [| h subset Hh _ IH]; intros map; [reflexivity |].
  cbn [foldl]. unfold step at 2 4. rewrite Hh. apply IH.
Qed.


Lemma totalsByPlantType_ext (plantings plantings' : list Planting.t)
    (plantTypes plantTypes' : list PlantType.t) (subset : list Harvest.t) :
  Forall (fun h => typeKey plantings plantTypes h =
                   typeKey plantings' plantTypes' h) subset ->
  totalsByPlantType plantings plantTypes subset =
  totalsByPlantType plantings' plantTypes' subset.
Proof.
  intros Hk. rewrite !totalsByPlantType_unfold.
  rewrite (accumulate_ext _ _ _ _ _ Hk). reflexivity.
Qed.


(** X13. The plant column of a ledger row is the name under which
    [totalsByPlantType] counts the harvest; for a harvest that it skips, its
    planting gone, the row says Unknown and has no location. *)
Theorem ledgerRow_typeKey (plantings : list Planting.t)
    (plantTypes : list PlantType.t) (h : Harvest.t) :
  match typeKey plantings plantTypes h with
  | Some key => LedgerRow.plant (ledgerRow plantings plantTypes h) = key
  | None =>
      LedgerRow.plant (ledgerRow plantings plantTypes h) = "Unknown" /\
      LedgerRow.location (ledgerRow plantings plantTypes h) = "—"
  end.
Proof.
  rewrite typeKey_eq. unfold ledgerRow. cbv zeta.
  destruct (plantingOf plantings h) as [p |]; cbn [fmap option_fmap option_map
    LedgerRow.plant LedgerRow.location]; [| auto].
  destruct (plantTypeOf plantTypes (Planting.plantTypeId p)) as [pt |];
    [| reflexivity].
  unfold orText. destruct (String.eqb (PlantType.name pt) ""); reflexivity.
Qed.

Section Archive.

Variable Date_parse : string -> number.
Variable Date_plusDays : number -> number -> number.
Variable Date_toISOString : number -> completion string.

(** X14. Archiving or unarchiving a planting changes nothing that is
    computed: the four series of the reports, the rows of the ledger and the
    snapshots of the tracker are the same after [toggleArchive]. *)
Theorem toggleArchive_display (id today : string) (st : AppState) :
  let st' := toggleArchive id st in
  Reports st' = Reports st /\
  HarvestLedger st' = HarvestLedger st /\
  phaseFor Date_parse Date_plusDays Date_toISOString (plantTypes st') today
    <$> plantings st' =
  phaseFor Date_parse Date_plusDays Date_toISOString (plantTypes st) today
    <$> plantings st.
Proof.
  cbv zeta. unfold toggleArchive, setPlantings.
  set (g := fun p => if String.eqb (Planting.id p) id then flipArchived p
                     else p).
  assert (Hid : forall p, Planting.id (g p) = Planting.id p).
  { intros p. unfold g. destruct (String.eqb _ _); reflexivity. }
  assert (Hty : forall p, Planting.plantTypeId (g p) = Planting.plantTypeId p).
  { intros p. unfold g. destruct (String.eqb _ _); reflexivity. }
  assert (Hloc : forall p, Planting.location (g p) = Planting.location p).
  { intros p. unfold g. destruct (String.eqb _ _); reflexivity. }
  assert (Hkey : forall h,
    typeKey (g <$> plantings st) (plantTypes st) h =
    typeKey (plantings st) (plantTypes st) h).
  { intros h. rewrite !typeKey_eq. rewrite (plantingOf_fmap g _ _ Hid).
    destruct (plantingOf (plantings st) h) as [p |]; cbn; [| reflexivity].
    rewrite Hty. reflexivity. }
  split; [| split].
  - unfold Reports. cbn. f_equal;
      apply totalsByPlantType_ext, Forall_forall; intros h _; apply Hkey.
  - unfold HarvestLedger. cbn. apply list_fmap_ext. intros _ h _.
    unfold ledgerRow. cbv zeta. rewrite (plantingOf_fmap g _ _ Hid).
    destruct (plantingOf (plantings st) h) as [p |]; cbn; [| reflexivity].
    rewrite Hty, Hloc. reflexivity.
  - cbn. rewrite <- list_fmap_compose. apply list_fmap_ext. intros _ p _.
    cbn. unfold g. destruct (String.eqb _ _); reflexivity.
Qed.

End Archive.

(** ** The catalogue *)

Lemma plantTypeById_snoc (l : list PlantType.t) (p : PlantType.t) :
  plantTypeById (l ++ [p])%list = <[PlantType.id p := p]> (plantTypeById l).
Proof. unfold plantTypeById. rewrite foldl_app. reflexivity. Qed.

(** An entry put in front is looked up only under an identifier that no
    later entry has. *)
Lemma plantTypeById_cons (p : PlantType.t) (l : list PlantType.t)
    (k : string) :
  plantTypeById (p :: l) !! k =
  match plantTypeById l !! k with
  | Some pt => Some pt
  | None => if decide (PlantType.id p = k) then Some p else None
  end.
Proof.
  induction l as [| q l IH] using rev_ind.
  - unfold plantTypeById. cbn. rewrite lookup_insert, lookup_empty.
    reflexivity.
  - rewrite app_comm_cons, !plantTypeById_snoc, !lookup_insert.
    destruct (decide (PlantType.id q = k)); [reflexivity | exact IH].
Qed.

Lemma plantTypeById_fmap (g : PlantType.t -> PlantType.t)
    (l : list PlantType.t) (k : string) :
  (forall p, PlantType.id (g p) = PlantType.id p) ->
  plantTypeById (g <$> l) !! k = g <$> plantTypeById l !! k.
Proof.
  intros Hg. induction l as [| q l IH] using rev_ind.
  - unfold plantTypeById. cbn. rewrite lookup_empty. reflexivity.
  - rewrite fmap_app. cbn [fmap list_fmap].
    rewrite !plantTypeById_snoc, !lookup_insert, Hg.
    destruct (decide (PlantType.id q = k)); [reflexivity | exact IH].
Qed.

Lemma typeKey_names (plantings : list Planting.t)
    (plantTypes plantTypes' : list PlantType.t) (h : Harvest.t) :
  (forall k, PlantType.name <$> plantTypeOf plantTypes' k =
             PlantType.name <$> plantTypeOf plantTypes k) ->
  typeKey plantings plantTypes' h = typeKey plantings plantTypes h.
Proof.
  intros Hn. rewrite !typeKey_eq.
  destruct (plantingOf plantings h) as [p |]; [| reflexivity].
  specialize (Hn (Planting.plantTypeId p)).
  destruct (plantTypeOf plantTypes' (Planting.plantTypeId p)) as [a |],
           (plantTypeOf plantTypes (Planting.plantTypeId p)) as [b |];
    cbn in Hn; try discriminate; [| reflexivity].
  injection Hn as ->. reflexivity.
Qed.

Section Catalogue.

Variable Date_parse : string -> number.
Variable Date_plusDays : number -> number -> number.
Variable Date_toISOString : number -> completion string.

Local Abbreviation phaseFor' :=
  (phaseFor Date_parse Date_plusDays Date_toISOString).

(** X15. [resetToDefaults] without the confirmation changes nothing.  With
    it, the catalogue becomes the ten defaults under fresh identifiers while
    plantings and harvests stay: every planting under whose plant type
    identifier the derived map then has nothing (the identifier is none of
    the fresh ones, as those of the former defaults are not, and no name
    that every object inherits) has lost its plant type, so that it has no
    snapshot and its card says Unknown. *)
Theorem resetToDefaults_orphans (uid fresh : nat -> string) (today : string)
    (st : AppState) :
  let st' := resetToDefaults true uid fresh st in
  resetToDefaults false uid fresh st = st /\
  plantTypes st' = DEFAULT_PLANT_TYPES fresh /\
  plantings st' = plantings st /\
  harvests st' = harvests st /\
  forall p,
    Planting.plantTypeId p ∉ plantTypeIds (DEFAULT_PLANT_TYPES fresh) ->
    inherited (Planting.plantTypeId p) = None ->
    phaseFor' (plantTypes st') today p = Normal None /\
    cardName (plantTypes st') p = "Unknown".
Proof.
  cbv zeta. split; [reflexivity |]. split; [reflexivity |].
  split; [reflexivity |]. split; [reflexivity |].
  intros p Hp Hinh.
  assert (Hnone : plantTypeOf (DEFAULT_PLANT_TYPES fresh)
                    (Planting.plantTypeId p) = None).
  { apply plantTypeOf_None. split; [| exact Hinh].
    apply plantTypeById_None, Forall_forall. intros pt Hpt Hid.
    apply Hp. unfold plantTypeIds. apply list_elem_of_fmap.
    exists pt. auto. }
  change (plantTypes (resetToDefaults true uid fresh st))
    with (DEFAULT_PLANT_TYPES fresh).
  unfold phaseFor, cardName. rewrite Hnone. auto.
Qed.

End Catalogue.

(** X16. [addType] adds nothing while the trimmed name of the draft is
    empty.  Otherwise it puts the new plant type in front of the catalogue
    and clears the draft; since a later entry of the catalogue wins a
    lookup, every identifier that resolved keeps its plant type, and the
    new one resolves under its fresh identifier when no entry had it. *)
Theorem addType_spec (String_trim : string -> string) (fresh : string)
    (st : AppState) (draft : Draft.t) :
  let r := addType String_trim fresh st draft in
  (String_trim (Draft.name draft) = "" -> r = (st, draft)) /\
  (String_trim (Draft.name draft) <> "" ->
   plantTypes (fst r) = plantTypeOfDraft fresh draft :: plantTypes st /\
   snd r = emptyDraft /\
   (fresh ∉ plantTypeIds (plantTypes st) ->
    plantTypeById (plantTypes (fst r)) !! fresh =
    Some (plantTypeOfDraft fresh draft))) /\
  plantings (fst r) = plantings st /\
  harvests (fst r) = harvests st /\
  forall k pt,
    plantTypeById (plantTypes st) !! k = Some pt ->
    plantTypeById (plantTypes (fst r)) !! k = Some pt.
Proof.
  cbv zeta. unfold addType.
  destruct (String.eqb (String_trim (Draft.name draft)) "") eqn:E.
  - apply String.eqb_eq in E. split; [reflexivity |].
    split; [congruence |]. auto.
  - apply String.eqb_neq in E. split; [congruence |].
    cbn [fst snd setPlantTypes plantTypes plantings harvests].
    split; [| split; [reflexivity | split; [reflexivity |]]].
    + intros _. split; [reflexivity |]. split; [reflexivity |].
      intros Hfresh. rewrite plantTypeById_cons.
      assert (Hnone : plantTypeById (plantTypes st) !! fresh = None).
      { apply plantTypeById_None, Forall_forall. intros pt Hpt Hid.
        apply Hfresh. unfold plantTypeIds. apply list_elem_of_fmap.
        exists pt. auto. }
      rewrite Hnone, decide_True by reflexivity. reflexivity.
    + intros k pt Hk. rewrite plantTypeById_cons, Hk. reflexivity.
Qed.

(** X17. [updateType] edits in place: an identifier resolves after it
    exactly when it resolved before, to the patched plant type under the
    identifier edited and to the same plant type under any other; names do
    not change, and so neither do the four series of the reports. *)
Theorem updateType_spec (id : string) (patch : Patch.t) (st : AppState) :
  let st' := updateType id patch st in
  plantTypeIds (plantTypes st') = plantTypeIds (plantTypes st) /\
  plantTypeById (plantTypes st') !! id =
    (fun pt => applyPatch pt patch) <$> plantTypeById (plantTypes st) !! id /\
  (forall k, k <> id ->
     plantTypeById (plantTypes st') !! k =
     plantTypeById (plantTypes st) !! k) /\
  plantings st' = plantings st /\
  harvests st' = harvests st /\
  Reports st' = Reports st.
Proof.
  cbv zeta. unfold updateType, setPlantTypes.
  cbn [plantTypes plantings harvests].
  set (g := fun p => if String.eqb (PlantType.id p) id then applyPatch p patch
                     else p).
  assert (Hid : forall p, PlantType.id (g p) = PlantType.id p).
  { intros p. unfold g. destruct (String.eqb _ _); reflexivity. }
  assert (Hlook : forall k,
    plantTypeById (g <$> plantTypes st) !! k =
    g <$> plantTypeById (plantTypes st) !! k).
  { intros k. apply plantTypeById_fmap, Hid. }
  split; [| split; [| split; [| split; [| split]]]]; try reflexivity.
  - unfold plantTypeIds. rewrite <- list_fmap_compose.
    apply list_fmap_ext. intros _ p _. apply Hid.
  - rewrite Hlook.
    destruct (plantTypeById (plantTypes st) !! id) as [pt |] eqn:Hpt;
      [| reflexivity].
    apply plantTypeById_Some in Hpt as [_ Hpt]. cbn. unfold g.
    rewrite Hpt, String.eqb_refl. reflexivity.
  - intros k Hk. rewrite Hlook.
    destruct (plantTypeById (plantTypes st) !! k) as [pt |] eqn:Hpt;
      [| reflexivity].
    apply plantTypeById_Some in Hpt as [_ Hpt]. cbn. unfold g.
    rewrite Hpt. apply String.eqb_neq in Hk. rewrite Hk. reflexivity.
  - unfold Reports. cbn [plantTypes plantings harvests]. f_equal;
      apply totalsByPlantType_ext, Forall_forall; intros h _;
      apply typeKey_names; intros k; unfold plantTypeOf; rewrite Hlook;
      destruct (plantTypeById (plantTypes st) !! k) as [pt |];
      try reflexivity; cbn; unfold g;
      destruct (String.eqb _ _); reflexivity.
Qed.

(** ** The reports *)

(** X18. [harvestsByUnit] splits the harvests in two: the first list holds
    the harvests in kg and the second those by count, each in the order of
    the ledger, and every harvest is in exactly one of them. *)
Theorem harvestsByUnit_partition (harvests : list Harvest.t) :
  let byUnit := harvestsByUnit harvests in
  Forall (fun h => Harvest.unit h = kg) (fst byUnit) /\
  Forall (fun h => Harvest.unit h = count) (snd byUnit) /\
  sublist (fst byUnit) harvests /\
  sublist (snd byUnit) harvests /\
  (fst byUnit ++ snd byUnit)%list ≡ₚ harvests.
Proof.
  cbv zeta. unfold harvestsByUnit. cbn [fst snd].
  induction harvests as [| h l (IH1 & IH2 & IH3 & IH4 & IH5)].
  - cbn. repeat split; constructor.
  - cbn [List.filter]. destruct (Harvest.unit h) eqn:E.
    + split; [constructor; assumption |]. split; [exact IH2 |].
      split; [apply sublist_skip, IH3 |].
      split; [apply sublist_cons, IH4 |].
      cbn. constructor. exact IH5.
    + split; [exact IH1 |]. split; [constructor; assumption |].
      split; [apply sublist_cons, IH3 |].
      split; [apply sublist_skip, IH4 |].
      rewrite <- Permutation_middle. constructor. exact IH5.
Qed.

Lemma accumulate_nil {H : Type} (key : H -> option string)
    (amount : H -> number) (subset : list H) :
  accumulate key amount [] subset = [] <->
  Forall (fun h => key h = None) subset.
Proof.
  split.
  - intros Hnil. apply Forall_forall. intros h Hh.
    destruct (key h) as [k |] eqn:Hk; [| reflexivity].
    assert (Hin : k ∈ keys (accumulate key amount [] subset))
      by (apply accumulate_elem_keys; right; exists h; auto).
    rewrite Hnil in Hin. apply elem_of_nil in Hin. contradiction.
  - intros Hnone.
    destruct (accumulate key amount [] subset) as [| [k v] map] eqn:E;
      [reflexivity |].
    assert (Hin : k ∈ keys (accumulate key amount [] subset))
      by (rewrite E; left).
    apply accumulate_elem_keys in Hin as [Hin | (h & Hh & Hk)].
    + apply elem_of_nil in Hin. contradiction.
    + rewrite Forall_forall in Hnone. rewrite (Hnone h Hh) in Hk.
      discriminate.
Qed.

Lemma fmap_nil_iff {A B : Type} (f : A -> B) (l : list A) :
  f <$> l = [] <-> l = [].
Proof. split; [apply fmap_nil_inv | intros ->; reflexivity]. Qed.

Lemma sortBy_nil {A : Type} (compare : A -> A -> number) (l : list A) :
  sortBy compare l = [] <-> l = [].
Proof.
  split.
  - intros Hnil. apply Permutation_nil_r. rewrite <- Hnil.
    symmetry. apply sortBy_Permutation.
  - intros ->. reflexivity.
Qed.

(** X19. When a chart of the reports is empty: [monthlyTotals] returns no
    entry only for no harvest at all, and [totalsByPlantType] returns no
    entry exactly when the planting of every harvest is gone, which is the
    case in which the tab says that there are no harvests yet. *)
Theorem reports_empty (plantings : list Planting.t)
    (plantTypes : list PlantType.t) (subset : list Harvest.t) :
  (monthlyTotals subset = [] <-> subset = []) /\
  (totalsByPlantType plantings plantTypes subset = [] <->
   Forall (fun h => plantingOf plantings h = None) subset).
Proof.
  split.
  - rewrite monthlyTotals_unfold, fmap_nil_iff, sortBy_nil,
      accumulate_nil.
    split.
    + intros Hnone. destruct subset as [| h l]; [reflexivity |].
      apply Forall_cons in Hnone as [Hh _]. discriminate.
    + intros ->. constructor.
  - rewrite totalsByPlantType_unfold, fmap_nil_iff, sortBy_nil,
      accumulate_nil.
    apply Forall_iff. intros h.
    pose proof (typeKey_is_Some plantings plantTypes h) as Hs.
    rewrite !eq_None_not_Some. tauto.
Qed.

Lemma sumOf_sorted_accumulate {H : Type} (key : H -> option string)
    (amount : H -> number) (compare : string * number -> string * number
                                     -> number)
    (subset : list H) :
  Forall (fun h => Num.finite (amount h)) subset ->
  (sumOf (snd <$> sortBy compare (accumulate key amount [] subset)) ==
   sumOf (countedAll key amount subset))%js.
Proof.
  intros Hfin.
  destruct (accumulate_entries key amount subset Hfin)
    as (_ & Hval & _ & _ & Hsum).
  cbv zeta in Hval, Hsum.
  pose proof (sortBy_Permutation compare (accumulate key amount [] subset))
    as Hperm.
  eapply eq_trans; [| exact Hsum].
  apply sumOf_eq_of_qsum.
  - unfold values in Hval. rewrite Hperm. exact Hval.
  - exact Hval.
  - apply qsum_Permutation. unfold values. rewrite Hperm. reflexivity.
Qed.

(** X20. The two charts of a unit add up to the same total: over harvests
    in whole amounts that add up to [2 ^ 53] at most, which doubles add
    without rounding, and whose plantings all exist, the totals by month and
    the totals by plant type have the same sum, the sum of the amounts. *)
Theorem reports_totals_agree (plantings : list Planting.t)
    (plantTypes : list PlantType.t) (subset : list Harvest.t) :
  wholeAmounts subset ->
  Forall (fun h => is_Some (plantingOf plantings h)) subset ->
  (sumOf (MonthTotal.total <$> monthlyTotals subset) ==
   sumOf (Harvest.amount <$> subset))%js /\
  (sumOf (TypeTotal.total <$> totalsByPlantType plantings plantTypes subset)
   == sumOf (Harvest.amount <$> subset))%js.
Proof.
  intros Hwhole Hres.
  pose proof (wholeAmounts_finite subset Hwhole) as Hfin. clear Hwhole. split.
  - rewrite monthlyTotals_unfold, <- list_fmap_compose.
    change (MonthTotal.total ∘ (fun e => MonthTotal.mk (fst e) (snd e)))
      with (@snd string number).
    eapply eq_trans; [apply sumOf_sorted_accumulate, Hfin |].
    unfold countedAll. rewrite filter_all by eauto.
    apply sumOf_eq_of_qsum; try reflexivity; apply Forall_fmap; exact Hfin.
  - rewrite totalsByPlantType_unfold, <- list_fmap_compose.
    change (TypeTotal.total ∘ (fun e => TypeTotal.mk (fst e) (snd e)))
      with (@snd string number).
    eapply eq_trans; [apply sumOf_sorted_accumulate, Hfin |].
    unfold countedAll.
    replace (filter (fun h => is_Some (typeKey plantings plantTypes h)) subset)
      with subset.
    + apply sumOf_eq_of_qsum; try reflexivity; apply Forall_fmap; exact Hfin.
    + clear Hfin. induction Hres as [| h l Hh _ IH]; [reflexivity |].
      rewrite filter_cons, decide_True by (apply typeKey_is_Some, Hh).
      rewrite <- IH. reflexivity.
Qed.

(** X21. The entries of [totalsByPlantType] are by name: no two entries
    have the same name, whatever the identifiers, and every name is Unknown,
    the name of an entry of the catalogue or the name of a function that
    every object inherits. *)
Theorem totalsByPlantType_names (plantings : list Planting.t)
    (plantTypes : list PlantType.t) (subset : list Harvest.t) :
  let names :=
    TypeTotal.name <$> totalsByPlantType plantings plantTypes subset in
  NoDup names /\
  Forall (fun name =>
            name = "Unknown" \/
            (exists pt, pt ∈ plantTypes /\ PlantType.name pt = name) \/
            (exists k, k ∈ ObjectPrototype.functions /\
                       ObjectPrototype.functionName k = name))
         names.
Proof.
  cbv zeta. rewrite totalsByPlantType_unfold, <- list_fmap_compose.
  change (TypeTotal.name ∘ (fun e => TypeTotal.mk (fst e) (snd e)))
    with (@fst string number).
  set (map := accumulate (typeKey plantings plantTypes) Harvest.amount []
                subset).
  pose proof (sortBy_Permutation
                (fun a b : string * number => (snd b - snd a)%js) map)
    as Hperm.
  rewrite Hperm. fold (keys map). split.
  - apply accumulate_keys_NoDup. constructor.
  - apply Forall_forall. intros k Hk. subst map.
    apply accumulate_elem_keys in Hk as [Hk | (h & _ & Hk)].
    + apply elem_of_nil in Hk. contradiction.
    + rewrite typeKey_eq in Hk.
      destruct (plantingOf plantings h) as [p |]; [| discriminate].
      unfold plantTypeOf in Hk.
      destruct (plantTypeById plantTypes !! Planting.plantTypeId p)
        as [pt |] eqn:Hpt.
      * apply plantTypeById_Some in Hpt as [Hpt _].
        destruct (String.eqb (PlantType.name pt) "");
          injection Hk as <-; [left; reflexivity |].
        right. left. exists pt. auto.
      * unfold inherited in Hk.
        destruct (String.eqb (Planting.plantTypeId p) "__proto__").
        { injection Hk as <-. left. reflexivity. }
        destruct (bool_decide
                    (Planting.plantTypeId p ∈ ObjectPrototype.functions))
          eqn:Hin.
        -- apply bool_decide_eq_true in Hin.
           cbn [inheritedValue PlantType.name] in Hk.
           destruct (String.eqb _ "") in Hk; injection Hk as <-;
             [left; reflexivity |].
           right. right. exists (Planting.plantTypeId p). auto.
        -- injection Hk as <-. left. reflexivity.
Qed.

(** ** Backups and storage *)

Lemma jsonOf_not_undefined (v : jsval) : jsonOf v <> VUndefined.
Proof. destruct v as [| | | [q | | |] | | |]; discriminate. Qed.

(** What [JSON.stringify] writes, it writes again as it is. *)
Lemma jsonOf_idem (v : jsval) : jsonOf (jsonOf v) = jsonOf v.
Proof.
  revert v. fix IH 1. intros v.
  destruct v as [| | b | [q | | |] | s | items | props]; try reflexivity.
  - cbn [jsonOf]. f_equal.
    induction items as [| x items IHitems]; [reflexivity |].
    cbn [List.map]. rewrite IH, IHitems. reflexivity.
  - cbn [jsonOf]. f_equal.
    induction props as [| [k x] props IHprops]; [reflexivity |].
    cbn [List.flat_map]. rewrite flat_map_app, IHprops. f_equal.
    pose proof (jsonOf_not_undefined x) as Hx.
    pose proof (IH x) as Hxx.
    destruct x as [| | b | [q | | |] | s | items | props'];
      try reflexivity.
    + cbn [List.flat_map app]. cbn [jsonOf] in Hxx |- *.
      rewrite Hxx. reflexivity.
    + cbn [List.flat_map app]. cbn [jsonOf] in Hxx |- *.
      rewrite Hxx. reflexivity.
Qed.

Lemma map_jsonOf_idem (l : list jsval) :
  List.map jsonOf (List.map jsonOf l) = List.map jsonOf l.
Proof.
  induction l as [| x l IH]; [reflexivity |].
  cbn [List.map]. rewrite jsonOf_idem, IH. reflexivity.
Qed.

(** X22. A backup of any state, whatever its numbers, is accepted by
    [importJSON]; the collections it puts in place are those the file
    holds, a number that is not finite read back as [null]; and from there
    on the backup is stable: exporting what was imported writes the same
    file, and importing that gives the same collections. *)
Theorem export_import_stable (st : AppState) (exportedAt : string)
    (c : Collections.t) :
  let file := exportJSON (collections st) exportedAt in
  let r := importJSON file c in
  snd r = ImportSuccessful /\
  fst r =
    {| Collections.plantTypes :=
         jsonOf (Collections.plantTypes (collections st));
       Collections.plantings :=
         jsonOf (Collections.plantings (collections st));
       Collections.harvests :=
         jsonOf (Collections.harvests (collections st)) |} /\
  exportJSON (fst r) exportedAt = file /\
  importJSON (exportJSON (fst r) exportedAt) c = r.
Proof.
  cbv zeta.
  assert (Himp :
    importJSON (exportJSON (collections st) exportedAt) c =
    ({| Collections.plantTypes :=
          jsonOf (Collections.plantTypes (collections st));
        Collections.plantings :=
          jsonOf (Collections.plantings (collections st));
        Collections.harvests :=
          jsonOf (Collections.harvests (collections st)) |},
     ImportSuccessful)).
  { rewrite importJSON_cases. reflexivity. }
  assert (Hexp :
    exportJSON
      {| Collections.plantTypes :=
           jsonOf (Collections.plantTypes (collections st));
         Collections.plantings :=
           jsonOf (Collections.plantings (collections st));
         Collections.harvests :=
           jsonOf (Collections.harvests (collections st)) |} exportedAt =
    exportJSON (collections st) exportedAt).
  { unfold exportJSON, JSON_stringify, collections.
    cbn [Collections.plantTypes Collections.plantings Collections.harvests].
    cbn [jsonOf List.flat_map app]. rewrite !map_jsonOf_idem.
    reflexivity. }
  rewrite Himp. cbn [fst snd]. rewrite Hexp, Himp. auto.
Qed.

(** X23. [loadLS] reads back what [saveLS] kept under the key, as the
    document [JSON.stringify] wrote for it, and the fallback for the value
    [undefined], whose text is not JSON; the other keys are not touched, and
    a key under which nothing is kept gives the fallback. *)
Theorem loadLS_saveLS (key key' : string) (value fallback : jsval)
    (store : Storage) :
  loadLS key fallback (saveLS key value store) =
    match value with
    | VUndefined => fallback
    | _ => jsonOf value
    end /\
  (key' <> key ->
   loadLS key' fallback (saveLS key value store) =
   loadLS key' fallback store) /\
  (store !! key = None -> loadLS key fallback store = fallback).
Proof.
  unfold loadLS, saveLS, Storage in *. split; [| split].
  - rewrite lookup_insert_eq. destruct value; reflexivity.
  - intros Hk. rewrite lookup_insert_ne by congruence. reflexivity.
  - intros ->. reflexivity.
Qed.

(** ** A planting with a date that is no date *)

Section InvalidDate.

Variable Date_parse : string -> number.
Variable Date_plusDays : number -> number -> number.
Variable Date_toISOString : number -> completion string.

(** Of the built-ins: [setDate] leaves an invalid date invalid, and
    [toISOString] throws a [RangeError] on it. *)
Hypothesis Date_plusDays_NaN : forall days, Date_plusDays NaN days = NaN.
Hypothesis Date_toISOString_NaN : Date_toISOString NaN = Throw RangeError.

(** X24. [phaseFor] throws a [RangeError] for a planting whose plant type
    resolves and whose [plantedAt] is not a date: the first projected date
    cannot be written. *)
Theorem phaseFor_invalid_date plantTypes today planting pt :
  plantTypeById plantTypes !! Planting.plantTypeId planting = Some pt ->
  Date_parse (Planting.plantedAt planting) = NaN ->
  phaseFor Date_parse Date_plusDays Date_toISOString plantTypes today planting
  = Throw RangeError.
Proof using Date_plusDays_NaN Date_toISOString_NaN.
  intros Hpt Hdate. unfold phaseFor.
  rewrite (plantTypeOf_own _ _ _ Hpt). cbv zeta.
  unfold expectedFor, addDays, toISO.
  rewrite Hdate, Date_plusDays_NaN, Date_toISOString_NaN. reflexivity.
Qed.

End InvalidDate.

(** ** Counting days *)

Lemma Date_parse_dayNumber (iso : string) (n : Z) :
  dayNumber iso = Some n -> UTC.Date_parse iso = lit (n * UTC.msPerDay).
Proof.
  unfold dayNumber, UTC.Date_parse.
  destruct (UTC.civilOfISO iso) as [[[y m] d] |]; [| discriminate].
  cbn. intros [= <-]. reflexivity.
Qed.

Lemma Qfloor_days (a b : Z) :
  Qfloor ((inject_Z (b * UTC.msPerDay) + - inject_Z (a * UTC.msPerDay))
          / inject_Z (24 * 3600 * 1000)) = (b - a)%Z.
Proof.
  rewrite <- (Qfloor_Z (b - a)). apply Qfloor_comp.
  unfold UTC.msPerDay. rewrite !inject_Z_mult.
  unfold Zminus. rewrite inject_Z_plus, inject_Z_opp.
  generalize (inject_Z a), (inject_Z b). intros x y.
  change (inject_Z (24 * 3600 * 1000)) with (86400000 # 1)%Q.
  field.
Qed.

(** X25. Days are counted by the calendar: between two dates of the form
    [YYYY-MM-DD], which are read as midnight UTC, [daysBetween] is the
    difference of their day numbers, negative when the second date is the
    earlier one, and the elapsed days of a planting are that difference, or
    0 when it is negative. *)
Theorem daysBetween_dayNumber (fromISO toISODate : string) (a b : Z)
    (planting : Planting.t) :
  dayNumber fromISO = Some a ->
  dayNumber toISODate = Some b ->
  daysBetween UTC.Date_parse fromISO toISODate = lit (b - a) /\
  daysBetween UTC.Date_parse toISODate fromISO = lit (a - b) /\
  (Planting.plantedAt planting = fromISO ->
   elapsedDays UTC.Date_parse toISODate planting = lit (Z.max 0 (b - a))).
Proof.
  intros Ha Hb.
  assert (Hdays : forall x y nx ny,
    dayNumber x = Some nx -> dayNumber y = Some ny ->
    daysBetween UTC.Date_parse x y = lit (ny - nx)).
  { intros x y nx ny Hx Hy. unfold daysBetween.
    rewrite (Date_parse_dayNumber x nx Hx), (Date_parse_dayNumber y ny Hy).
    unfold lit. cbn [Num.sub Num.add Num.neg].
    rewrite div_Fin by (vm_compute; congruence).
    cbn [Num.floor]. rewrite Qfloor_days. reflexivity. }
  split; [apply Hdays; assumption |].
  split; [apply Hdays; assumption |].
  intros Hp. unfold elapsedDays. rewrite Hp, (Hdays _ _ _ _ Ha Hb).
  unfold lit. cbn.
  destruct (Num.Qltb (inject_Z 0) (inject_Z (b - a))) eqn:E; qtests;
    rewrite <- ?Zlt_Qlt, <- ?Zle_Qle in E.
  - rewrite Z.max_r by lia. reflexivity.
  - rewrite Z.max_l by lia. reflexivity.
Qed.

(** ** The properties on the sample garden *)

Lemma addPlanting_deletePlanting_witness :
  deletePlanting "p2" (app (addPlanting "p2" "2024-02-02" Garden.form)) =
  Garden.state.
Proof.
  apply (addPlanting_deletePlanting "p2" "2024-02-02" Garden.form).
  refine (bool_decide_unpack _ _). vm_compute. exact I.
Defined.

Lemma logHarvest_deleteHarvest_witness :
  harvests (logHarvest "h9" Garden.state) =
    Harvest.mk "h9" "p1" "2024-05-21" (Fin (5 # 2)) kg "first pick"
    :: Sample.ledger /\
  harvests (deleteHarvest "h9" (logHarvest "h9" Garden.state)) =
    Sample.ledger.
Proof.
  split; [reflexivity |].
  apply (logHarvest_deleteHarvest "h9" Garden.state).
  refine (bool_decide_unpack _ _). vm_compute. exact I.
Defined.

Lemma resetToDefaults_orphans_witness :
  UTC.phaseFor (plantTypes Garden.defaults) "2024-01-16"
    (Sample.planting "p1" (Garden.uid 0) "2024-01-01") <> Normal None /\
  UTC.phaseFor
    (plantTypes (resetToDefaults true Garden.uid Garden.fresh Garden.defaults))
    "2024-01-16" (Sample.planting "p1" (Garden.uid 0) "2024-01-01") =
  Normal None.
Proof.
  split; [vm_compute; discriminate |].
  apply (resetToDefaults_orphans
           UTC.Date_parse UTC.Date_plusDays UTC.Date_toISOString
           Garden.uid Garden.fresh "2024-01-16" Garden.defaults).
  - refine (bool_decide_unpack _ _). vm_compute. exact I.
  - vm_compute. reflexivity.
Defined.

Lemma addType_spec_witness :
  plantTypeById (plantTypes (fst (addType trimASCII "pt-new" Garden.state
                                    Garden.draft))) !! "pt-new" =
  Some (plantTypeOfDraft "pt-new" Garden.draft).
Proof.
  destruct (addType_spec trimASCII "pt-new" Garden.state Garden.draft)
    as (_ & H & _).
  destruct H as (_ & _ & H); [vm_compute; discriminate |].
  apply H. refine (bool_decide_unpack _ _). vm_compute. exact I.
Defined.

Lemma reports_totals_agree_witness :
  (sumOf (MonthTotal.total <$> monthlyTotals Sample.ledger) == lit 6)%js /\
  (sumOf (TypeTotal.total
            <$> totalsByPlantType [Garden.planting] [Sample.kumara]
                  Sample.ledger) == lit 6)%js.
Proof.
  destruct (reports_totals_agree [Garden.planting] [Sample.kumara]
              Sample.ledger) as [H1 H2].
  - split; [| vm_compute; discriminate].
    repeat constructor; [exists 2%Z | exists 3%Z | exists 1%Z];
      (split; [lia | reflexivity]).
  - repeat constructor; eexists; reflexivity.
  - split.
    + eapply eq_trans; [exact H1 | vm_compute; reflexivity].
    + eapply eq_trans; [exact H2 | vm_compute; reflexivity].
Defined.

Lemma phaseFor_invalid_date_witness :
  UTC.phaseFor [Sample.kumara] "2024-01-16"
    (Sample.planting "p1" "pt-kumara" "in spring") = Throw RangeError.
Proof.
  apply (phaseFor_invalid_date
           UTC.Date_parse UTC.Date_plusDays UTC.Date_toISOString
           (fun _ => eq_refl) eq_refl
           [Sample.kumara] "2024-01-16"
           (Sample.planting "p1" "pt-kumara" "in spring") Sample.kumara).
  - vm_compute. reflexivity.
  - vm_compute. reflexivity.
Defined.

Lemma daysBetween_dayNumber_witness :
  daysBetween UTC.Date_parse "2024-02-27" "2024-03-01" = lit 3 /\
  daysBetween UTC.Date_parse "2024-03-01" "2024-02-27" = lit (-3).
Proof.
  destruct (daysBetween_dayNumber "2024-02-27" "2024-03-01" 19780 19783
              Garden.planting) as (H1 & H2 & _).
  - vm_compute. reflexivity.
  - vm_compute. reflexivity.
  - split; [exact H1 | exact H2].
Defined.

(** The form set up for the default catalogue, submitted once the catalogue
    kept from an earlier run is in place. *)
Lemma addPlanting_unchecked_witness :
  let ui :=
    {| app := Garden.state;
       newPlanting :=
         emptyPlanting (DEFAULT_PLANT_TYPES Garden.uid) "2024-01-16";
       tab := TabPlant |} in
  exists planting,
    plantings (app (addPlanting "p2" "2024-01-16" ui)) =
      [planting; Garden.planting] /\
    UTC.phaseFor [Sample.kumara] "2024-01-16" planting = Normal None.
Proof.
  intros ui.
  destruct (addPlanting_unchecked
              UTC.Date_parse UTC.Date_plusDays UTC.Date_toISOString
              "p2" "2024-01-16" ui)
    as (planting & Hadd & _ & Hnone & _).
  - cbn. discriminate.
  - cbn. discriminate.
  - refine (bool_decide_unpack _ _). vm_compute. exact I.
  - vm_compute. reflexivity.
  - exists planting. split; [exact Hadd | exact Hnone].
Defined.
